(** * Ethernet frame I/O engine of [Tutorials/eth_tutorial.c]

    A shallow embedding of the descriptor-ring code of the STM32H7 Ethernet
    tutorial: [ETH_InitPHY], [ETH_InitDescriptors], [ETH_SendFrame],
    [ETH_ReceiveFrame] and [BuildEthernetFrame], with the properties the
    specification states about them.  The functions that set the block up
    ([ETH_EnableClocks], [GPIO_ConfigurePin], [ETH_ConfigureGPIO],
    [ETH_SelectRMII], [ETH_DMAReset], [ETH_SetMACAddress], [ETH_StartMAC]),
    the register level of [ETH_ReadPHY] and [ETH_WritePHY], and [delay]
    follow, with properties read off the code.

    Conventions of the embedding.
    - [uint8_t], [uint16_t] and [uint32_t] values are integers of [Z]; where
      the C code can leave the range of the type the wrap-around is written
      out with [u16] and [u32].
    - The global arrays [TxBuffer] and [RxBuffer] ([uint8_t [4][1536]]) are
      flat byte lists in row-major order, as they lie in memory: slot [i]
      starts at offset [i * 1536].
    - [memcpy] and [memset] return [None] when they would leave the object
      they are applied to; [None] stands for the undefined behaviour of the
      C program.
    - The addresses the linker gives to the four global arrays are the
      fields of a [layout]. *)

From Stdlib Require Import ZArith Lia.
From stdpp Require Import base option list.

Local Open Scope Z_scope.

(** ** Machine integers *)

Definition u16 (x : Z) : Z := x mod 2 ^ 16.
Definition u32 (x : Z) : Z := x mod 2 ^ 32.

(** A C condition [if (x & MASK)]. *)
Definition bits_set (x mask : Z) : bool := negb (Z.land x mask =? 0).

(** ** Constants of the source *)

(* PHY (LAN8742A) registers *)
Definition PHY_ADDR : Z := 0.
Definition PHY_BCR : Z := 0.
Definition PHY_BSR : Z := 1.
Definition PHY_PHYID1 : Z := 2.
Definition PHY_PHYID2 : Z := 3.

Definition PHY_BCR_RESET : Z := Z.shiftl 1 15.
Definition PHY_BCR_AUTONEG : Z := Z.shiftl 1 12.
Definition PHY_BSR_LINK_UP : Z := Z.shiftl 1 2.

(* TX descriptor bits *)
Definition ETH_TDES2_B1L_MASK : Z := 0x00003FFF.
Definition ETH_TDES3_OWN : Z := Z.shiftl 1 31.
Definition ETH_TDES3_FD : Z := Z.shiftl 1 29.
Definition ETH_TDES3_LD : Z := Z.shiftl 1 28.
Definition ETH_TDES3_CIC_ALL : Z := Z.shiftl 3 16.

(* RX descriptor bits *)
Definition ETH_RDES3_OWN : Z := Z.shiftl 1 31.
Definition ETH_RDES3_IOC : Z := Z.shiftl 1 30.
Definition ETH_RDES3_BUF1V : Z := Z.shiftl 1 24.
Definition ETH_RDES3_PL_MASK : Z := 0x00007FFF.
Definition ETH_RDES3_ES : Z := Z.shiftl 1 15.

(* Buffer sizes *)
Definition ETH_RX_BUF_SIZE : Z := 1536.
Definition ETH_TX_BUF_SIZE : Z := 1536.
Definition ETH_RX_DESC_CNT : Z := 4.
Definition ETH_TX_DESC_CNT : Z := 4.

Definition ETH_DMACRCR_RBSZ_SHIFT : Z := 1.

(** ** Byte memory *)

(** [memcpy (dst + doff, src + soff, n)]. *)
Definition memcpy (dst : list Z) (doff : nat) (src : list Z) (soff n : nat)
  : option (list Z) :=
  if decide (doff + n ≤ length dst ∧ soff + n ≤ length src)%nat
  then Some (take doff dst ++ take n (drop soff src) ++ drop (doff + n) dst)
  else None.

(** [memset (dst + doff, c, n)]. *)
Definition memset (dst : list Z) (doff : nat) (c : Z) (n : nat)
  : option (list Z) :=
  if decide (doff + n ≤ length dst)%nat
  then Some (take doff dst ++ replicate n c ++ drop (doff + n) dst)
  else None.

(** Byte order of the host: how a [uint16_t] store lays its two bytes. *)
Inductive byte_order : Set := LittleEndian | BigEndian.

Definition bytes_of_u16 (e : byte_order) (v : Z) : list Z :=
  match e with
  | LittleEndian => [Z.land v 0xFF; Z.shiftr v 8]
  | BigEndian => [Z.shiftr v 8; Z.land v 0xFF]
  end.

(** [*(uint16_t * )(dst + doff) = v]. *)
Definition store_u16 (e : byte_order) (dst : list Z) (doff : nat) (v : Z)
  : option (list Z) :=
  memcpy dst doff (bytes_of_u16 e v) 0 2.

(** Slot [i] of a buffer array whose rows have [size] bytes. *)
Definition slot (size : Z) (i : nat) (buf : list Z) : list Z :=
  take (Z.to_nat size) (drop (i * Z.to_nat size) buf).

(** ** Descriptors, DMA registers and the state of the driver *)

Record ETH_DMADescTypeDef : Set := mkDesc {
  DESC0 : Z;
  DESC1 : Z;
  DESC2 : Z;
  DESC3 : Z;
  BackupAddr0 : Z;
  BackupAddr1 : Z;
  Reserved0 : Z;
  Reserved1 : Z
}.

Definition sizeof_ETH_DMADescTypeDef : Z := 32.

Definition set_DESC0 (v : Z) (d : ETH_DMADescTypeDef) : ETH_DMADescTypeDef :=
  mkDesc v (DESC1 d) (DESC2 d) (DESC3 d)
         (BackupAddr0 d) (BackupAddr1 d) (Reserved0 d) (Reserved1 d).
Definition set_DESC1 (v : Z) (d : ETH_DMADescTypeDef) : ETH_DMADescTypeDef :=
  mkDesc (DESC0 d) v (DESC2 d) (DESC3 d)
         (BackupAddr0 d) (BackupAddr1 d) (Reserved0 d) (Reserved1 d).
Definition set_DESC2 (v : Z) (d : ETH_DMADescTypeDef) : ETH_DMADescTypeDef :=
  mkDesc (DESC0 d) (DESC1 d) v (DESC3 d)
         (BackupAddr0 d) (BackupAddr1 d) (Reserved0 d) (Reserved1 d).
Definition set_DESC3 (v : Z) (d : ETH_DMADescTypeDef) : ETH_DMADescTypeDef :=
  mkDesc (DESC0 d) (DESC1 d) (DESC2 d) v
         (BackupAddr0 d) (BackupAddr1 d) (Reserved0 d) (Reserved1 d).

(** The registers of [ETH_DMA_TypeDef] that the ring code writes.  The
    other registers of the block ([DMAMR], [DMACTCR], ...) are not part of
    this record: an equation between two values of it speaks of these seven
    registers only. *)
Record ETH_DMA_TypeDef : Set := mkDMA {
  DMACRCR : Z;
  DMACTDLAR : Z;
  DMACRDLAR : Z;
  DMACTDTPR : Z;
  DMACRDTPR : Z;
  DMACTDRLR : Z;
  DMACRDRLR : Z
}.

Definition set_DMACRCR (v : Z) (r : ETH_DMA_TypeDef) : ETH_DMA_TypeDef :=
  mkDMA v (DMACTDLAR r) (DMACRDLAR r) (DMACTDTPR r) (DMACRDTPR r)
        (DMACTDRLR r) (DMACRDRLR r).
Definition set_DMACTDLAR (v : Z) (r : ETH_DMA_TypeDef) : ETH_DMA_TypeDef :=
  mkDMA (DMACRCR r) v (DMACRDLAR r) (DMACTDTPR r) (DMACRDTPR r)
        (DMACTDRLR r) (DMACRDRLR r).
Definition set_DMACRDLAR (v : Z) (r : ETH_DMA_TypeDef) : ETH_DMA_TypeDef :=
  mkDMA (DMACRCR r) (DMACTDLAR r) v (DMACTDTPR r) (DMACRDTPR r)
        (DMACTDRLR r) (DMACRDRLR r).
Definition set_DMACTDTPR (v : Z) (r : ETH_DMA_TypeDef) : ETH_DMA_TypeDef :=
  mkDMA (DMACRCR r) (DMACTDLAR r) (DMACRDLAR r) v (DMACRDTPR r)
        (DMACTDRLR r) (DMACRDRLR r).
Definition set_DMACRDTPR (v : Z) (r : ETH_DMA_TypeDef) : ETH_DMA_TypeDef :=
  mkDMA (DMACRCR r) (DMACTDLAR r) (DMACRDLAR r) (DMACTDTPR r) v
        (DMACTDRLR r) (DMACRDRLR r).
Definition set_DMACTDRLR (v : Z) (r : ETH_DMA_TypeDef) : ETH_DMA_TypeDef :=
  mkDMA (DMACRCR r) (DMACTDLAR r) (DMACRDLAR r) (DMACTDTPR r) (DMACRDTPR r)
        v (DMACRDRLR r).
Definition set_DMACRDRLR (v : Z) (r : ETH_DMA_TypeDef) : ETH_DMA_TypeDef :=
  mkDMA (DMACRCR r) (DMACTDLAR r) (DMACRDLAR r) (DMACTDTPR r) (DMACRDTPR r)
        (DMACTDRLR r) v.

(** The globals of the file and the DMA register block. *)
Record state : Set := mkState {
  RxDescriptors : list ETH_DMADescTypeDef;
  TxDescriptors : list ETH_DMADescTypeDef;
  RxBuffer : list Z;
  TxBuffer : list Z;
  TxDescIdx : Z;
  RxDescIdx : Z;
  ETH_DMA : ETH_DMA_TypeDef
}.

(** Link-time addresses of the four arrays (32-bit pointers). *)
Record layout : Set := mkLayout {
  RxDescriptors_addr : Z;
  TxDescriptors_addr : Z;
  RxBuffer_addr : Z;
  TxBuffer_addr : Z
}.

(** [(uint32_t)&TxDescriptors[i]], [(uint32_t)&RxDescriptors[i]],
    [(uint32_t)TxBuffer[i]] and [(uint32_t)RxBuffer[i]]. *)
Definition TxDescriptor_ptr (lay : layout) (i : Z) : Z :=
  u32 (TxDescriptors_addr lay + sizeof_ETH_DMADescTypeDef * i).
Definition RxDescriptor_ptr (lay : layout) (i : Z) : Z :=
  u32 (RxDescriptors_addr lay + sizeof_ETH_DMADescTypeDef * i).
Definition TxBuffer_ptr (lay : layout) (i : Z) : Z :=
  u32 (TxBuffer_addr lay + ETH_TX_BUF_SIZE * i).
Definition RxBuffer_ptr (lay : layout) (i : Z) : Z :=
  u32 (RxBuffer_addr lay + ETH_RX_BUF_SIZE * i).

(** The shape the C declarations give to the globals. *)
Record wf (st : state) : Prop := mkWf {
  wf_RxDescriptors : length (RxDescriptors st) = Z.to_nat ETH_RX_DESC_CNT;
  wf_TxDescriptors : length (TxDescriptors st) = Z.to_nat ETH_TX_DESC_CNT;
  wf_RxBuffer :
    length (RxBuffer st) = Z.to_nat (ETH_RX_DESC_CNT * ETH_RX_BUF_SIZE);
  wf_TxBuffer :
    length (TxBuffer st) = Z.to_nat (ETH_TX_DESC_CNT * ETH_TX_BUF_SIZE);
  wf_TxDescIdx : 0 <= TxDescIdx st < ETH_TX_DESC_CNT;
  wf_RxDescIdx : 0 <= RxDescIdx st < ETH_RX_DESC_CNT
}.

(** ** Exercise 6: [ETH_InitDescriptors]

    The assignment to [RxDescriptors[i].DESC3] is the blank of the exercise;
    its value is the one of the solution printed below the function:
    [ETH_RDES3_OWN | ETH_RDES3_IOC | ETH_RDES3_BUF1V]. *)

Definition init_tx_desc (d : ETH_DMADescTypeDef) : ETH_DMADescTypeDef :=
  set_DESC3 0 (set_DESC2 0 (set_DESC1 0 (set_DESC0 0 d))).

Definition rx_rearm : Z :=
  Z.lor (Z.lor ETH_RDES3_OWN ETH_RDES3_IOC) ETH_RDES3_BUF1V.

Definition init_rx_desc (lay : layout) (i : nat) (d : ETH_DMADescTypeDef)
  : ETH_DMADescTypeDef :=
  set_DESC3 rx_rearm
    (set_DESC2 0 (set_DESC1 0 (set_DESC0 (RxBuffer_ptr lay (Z.of_nat i)) d))).

(** [for (i = 0; i < cnt; i++) body(i)] over an array of descriptors. *)
Definition for_each_desc (cnt : Z)
    (body : nat → ETH_DMADescTypeDef → ETH_DMADescTypeDef)
    (descs : list ETH_DMADescTypeDef) : list ETH_DMADescTypeDef :=
  foldl (λ l i, alter (body i) i l) descs (seq 0 (Z.to_nat cnt)).

Definition ETH_InitDescriptors (lay : layout) (st : state) : state :=
  let tx := for_each_desc ETH_TX_DESC_CNT (λ _, init_tx_desc) (TxDescriptors st) in
  let rx := for_each_desc ETH_RX_DESC_CNT (init_rx_desc lay) (RxDescriptors st) in
  let dma := ETH_DMA st in
  let dma := set_DMACTDLAR (TxDescriptor_ptr lay 0) dma in
  let dma := set_DMACRDLAR (RxDescriptor_ptr lay 0) dma in
  let dma := set_DMACTDRLR (ETH_TX_DESC_CNT - 1) dma in
  let dma := set_DMACRDRLR (ETH_RX_DESC_CNT - 1) dma in
  let dma := set_DMACRCR (Z.shiftl ETH_RX_BUF_SIZE ETH_DMACRCR_RBSZ_SHIFT) dma in
  let dma := set_DMACTDTPR (TxDescriptor_ptr lay 0) dma in
  let dma := set_DMACRDTPR (RxDescriptor_ptr lay (ETH_RX_DESC_CNT - 1)) dma in
  mkState rx tx (RxBuffer st) (TxBuffer st) 0 0 dma.

(** ** Lesson 5: [ETH_SendFrame] and [ETH_ReceiveFrame] *)

(** [data] is the object the caller's pointer refers to and [length] the
    [uint16_t] argument.  The result is the new state and the return value. *)
Definition ETH_SendFrame (lay : layout) (st : state) (data : list Z) (length : Z)
  : option (state * Z) :=
  let idx := TxDescIdx st in
  desc ← TxDescriptors st !! Z.to_nat idx;
  if bits_set (DESC3 desc) ETH_TDES3_OWN then
    Some (st, 0)
  else
    buf ← memcpy (TxBuffer st) (Z.to_nat idx * Z.to_nat ETH_TX_BUF_SIZE)
                 data 0 (Z.to_nat length);
    let desc := set_DESC0 (TxBuffer_ptr lay idx) desc in
    let desc := set_DESC1 0 desc in
    let desc := set_DESC2 (Z.land length ETH_TDES2_B1L_MASK) desc in
    let desc :=
      set_DESC3
        (Z.lor (Z.lor (Z.lor (Z.lor ETH_TDES3_OWN ETH_TDES3_FD) ETH_TDES3_LD)
                      ETH_TDES3_CIC_ALL)
               length) desc in
    let descs := <[Z.to_nat idx := desc]> (TxDescriptors st) in
    let idx' := u32 (idx + 1) mod ETH_TX_DESC_CNT in
    let dma := set_DMACTDTPR (TxDescriptor_ptr lay idx') (ETH_DMA st) in
    Some (mkState (RxDescriptors st) descs (RxBuffer st) buf
                  idx' (RxDescIdx st) dma, 1).

(** [buffer] is the object the caller's pointer refers to; the result is the
    new state, the caller's buffer after the call and the return value. *)
Definition ETH_ReceiveFrame (lay : layout) (st : state) (buffer : list Z)
    (max_length : Z) : option (state * list Z * Z) :=
  let idx := RxDescIdx st in
  desc ← RxDescriptors st !! Z.to_nat idx;
  if bits_set (DESC3 desc) ETH_RDES3_OWN then
    Some (st, buffer, 0)
  else if bits_set (DESC3 desc) ETH_RDES3_ES then
    let desc := set_DESC0 (RxBuffer_ptr lay idx) desc in
    let desc := set_DESC3 rx_rearm desc in
    let descs := <[Z.to_nat idx := desc]> (RxDescriptors st) in
    let idx' := u32 (idx + 1) mod ETH_RX_DESC_CNT in
    Some (mkState descs (TxDescriptors st) (RxBuffer st) (TxBuffer st)
                  (TxDescIdx st) idx' (ETH_DMA st), buffer, 0)
  else
    let length := u16 (Z.land (DESC3 desc) ETH_RDES3_PL_MASK) in
    let length := if length >? max_length then max_length else length in
    buffer' ← memcpy buffer 0 (RxBuffer st)
                     (Z.to_nat idx * Z.to_nat ETH_RX_BUF_SIZE) (Z.to_nat length);
    let desc := set_DESC0 (RxBuffer_ptr lay idx) desc in
    let desc := set_DESC3 rx_rearm desc in
    let descs := <[Z.to_nat idx := desc]> (RxDescriptors st) in
    let idx' := u32 (idx + 1) mod ETH_RX_DESC_CNT in
    let dma := set_DMACRDTPR (RxDescriptor_ptr lay idx') (ETH_DMA st) in
    Some (mkState descs (TxDescriptors st) (RxBuffer st) (TxBuffer st)
                  (TxDescIdx st) idx' dma, buffer', length).

(** ** Bonus: [BuildEthernetFrame] *)

(** [sizeof(EthernetHeader)]: the struct is packed, 6 + 6 + 2 bytes. *)
Definition sizeof_EthernetHeader : Z := 14.

(** The value the code assigns to [hdr->ethertype]. *)
Definition swapped_ethertype (ethertype : Z) : Z :=
  u16 (Z.lor (Z.land (Z.shiftr ethertype 8) 0xFF)
             (Z.shiftl (Z.land ethertype 0xFF) 8)).

(** [e] is the byte order of the host; the result is the caller's frame
    buffer after the call and the returned length. *)
Definition BuildEthernetFrame (e : byte_order) (frame dest_mac src_mac : list Z)
    (ethertype : Z) (payload : list Z) (payload_len : Z)
  : option (list Z * Z) :=
  frame ← memcpy frame 0 dest_mac 0 6;
  frame ← memcpy frame 6 src_mac 0 6;
  frame ← store_u16 e frame 12 (swapped_ethertype ethertype);
  frame ← memcpy frame (Z.to_nat sizeof_EthernetHeader) payload 0
                 (Z.to_nat payload_len);
  let total_len := u16 (sizeof_EthernetHeader + payload_len) in
  if total_len <? 60 then
    frame ← memset frame (Z.to_nat total_len) 0 (Z.to_nat (60 - total_len));
    Some (frame, 60)
  else
    Some (frame, total_len).

(** Header and payload as [BuildEthernetFrame] lays them out. *)
Definition frame_bytes (e : byte_order) (dest_mac src_mac : list Z)
    (ethertype : Z) (payload : list Z) (payload_len : Z) : list Z :=
  take 6 dest_mac ++ take 6 src_mac
  ++ bytes_of_u16 e (swapped_ethertype ethertype)
  ++ take (Z.to_nat payload_len) payload.

(** ** Exercise 5: [ETH_InitPHY]

    [ETH_InitPHY] reaches the PHY only through [ETH_ReadPHY] and
    [ETH_WritePHY].  The class below is that interface as the caller sees
    it.  One MDIO transaction either returns, a read with the 16-bit
    register value, and leaves the bus in its next state; or it does not
    return: the two functions wait for [MACMDIOAR.MB] in loops that have no
    time-out.  [None] is the call that does not return. *)

Class MDIO (bus : Type) : Type := {
  ETH_ReadPHY : Z → Z → bus → option (Z * bus);
  ETH_WritePHY : Z → Z → Z → bus → option bus
}.

(** How a polling loop of [ETH_InitPHY] is left: through its condition, or
    through the [return 0] of the time-out test in its body. *)
Inductive loop_exit (bus : Type) : Type :=
| LoopDone (b : bus)
| LoopReturn0 (b : bus).
Arguments LoopDone {bus} b.
Arguments LoopReturn0 {bus} b.

Section PHY.
Context {bus : Type} `{MDIO bus}.

(** [while (again (ETH_ReadPHY (PHY_ADDR, reg))) { if (--timeout == 0) return 0; }]
    with [timeout] a [uint32_t].  [fuel] bounds the number of iterations
    the model follows; [None] is "has not returned": the loop is still
    running, or a read inside it does not return. *)
Fixpoint poll_phy (reg : Z) (again : Z → bool) (fuel : nat) (timeout : Z)
    (b : bus) : option (loop_exit bus) :=
  match fuel with
  | O => None
  | S fuel =>
      '(v, b) ← ETH_ReadPHY PHY_ADDR reg b;
      if again v then
        let timeout := u32 (timeout - 1) in
        if timeout =? 0 then Some (LoopReturn0 b)
        else poll_phy reg again fuel timeout b
      else Some (LoopDone b)
  end.

Definition reset_pending (v : Z) : bool := bits_set v PHY_BCR_RESET.
Definition link_down (v : Z) : bool := negb (bits_set v PHY_BSR_LINK_UP).

(** The first argument of the first [ETH_WritePHY] is the blank of the
    exercise; its value is the one of the solution printed below the
    function: [PHY_BCR_RESET]. *)
Definition ETH_InitPHY (fuel : nat) (b : bus) : option (Z * bus) :=
  let timeout := 100000 in
  b ← ETH_WritePHY PHY_ADDR PHY_BCR PHY_BCR_RESET b;
  r ← poll_phy PHY_BCR reset_pending fuel timeout b;
  match r with
  | LoopReturn0 b => Some (0, b)
  | LoopDone b =>
      '(id1, b) ← ETH_ReadPHY PHY_ADDR PHY_PHYID1 b;
      '(id2, b) ← ETH_ReadPHY PHY_ADDR PHY_PHYID2 b;
      if negb (id1 =? 0x0007) then Some (0, b)
      else
        b ← ETH_WritePHY PHY_ADDR PHY_BCR PHY_BCR_AUTONEG b;
        let timeout := 1000000 in
        r ← poll_phy PHY_BSR link_down fuel timeout b;
        match r with
        | LoopReturn0 b => Some (0, b)
        | LoopDone b => Some (1, b)
        end
  end.

(** *** What the PHY answers, read by read *)

(** [n] reads of register [reg] in a row return, each with a value that
    asks for another iteration, and leave the bus as [b']. *)
Fixpoint polls (reg : Z) (again : Z → bool) (n : nat) (b b' : bus) : Prop :=
  match n with
  | O => b' = b
  | S n =>
      ∃ (v : Z) (b1 : bus),
        ETH_ReadPHY PHY_ADDR reg b = Some (v, b1) ∧ again v = true ∧
        polls reg again n b1 b'
  end.

(** Read number [k] (from 0) is the first one that ends the loop; it
    leaves the bus as [b']. *)
Definition first_exit (reg : Z) (again : Z → bool) (k : nat) (b b' : bus)
  : Prop :=
  ∃ (b0 : bus) (v : Z),
    polls reg again k b b0 ∧
    ETH_ReadPHY PHY_ADDR reg b0 = Some (v, b') ∧ again v = false.

(** Read number [k] (from 0) is the first one that does not return. *)
Definition hangs_at (reg : Z) (again : Z → bool) (k : nat) (b : bus) : Prop :=
  ∃ b0 : bus, polls reg again k b b0 ∧ ETH_ReadPHY PHY_ADDR reg b0 = None.

Definition reset_timeout : nat := Z.to_nat 100000.
Definition link_timeout : nat := Z.to_nat 1000000.

(** The reset command returned and the poll of BCR ended, at read [k],
    before its time-out; the bus is then [b']. *)
Definition reset_done (k : nat) (b b' : bus) : Prop :=
  ∃ b1 : bus,
    ETH_WritePHY PHY_ADDR PHY_BCR PHY_BCR_RESET b = Some b1 ∧
    (k < reset_timeout)%nat ∧
    first_exit PHY_BCR reset_pending k b1 b'.

(** The reset poll ended in time and the two identification reads
    returned [id1] and [id2]; the bus is then [b']. *)
Definition identified (b : bus) (id1 id2 : Z) (b' : bus) : Prop :=
  ∃ (k : nat) (b2 b3 : bus),
    reset_done k b b2 ∧
    ETH_ReadPHY PHY_ADDR PHY_PHYID1 b2 = Some (id1, b3) ∧
    ETH_ReadPHY PHY_ADDR PHY_PHYID2 b3 = Some (id2, b').

(** The three ways [ETH_InitPHY] fails. *)
Definition reset_timed_out (b : bus) : Prop :=
  ∃ b1 b' : bus,
    ETH_WritePHY PHY_ADDR PHY_BCR PHY_BCR_RESET b = Some b1 ∧
    polls PHY_BCR reset_pending reset_timeout b1 b'.

Definition id1_mismatch (b : bus) : Prop :=
  ∃ (id1 id2 : Z) (b' : bus), identified b id1 id2 b' ∧ id1 ≠ 0x0007.

Definition link_timed_out (b : bus) : Prop :=
  ∃ (id2 : Z) (b4 b5 b' : bus),
    identified b 0x0007 id2 b4 ∧
    ETH_WritePHY PHY_ADDR PHY_BCR PHY_BCR_AUTONEG b4 = Some b5 ∧
    polls PHY_BSR link_down link_timeout b5 b'.

(** The way it succeeds. *)
Definition link_came_up (b : bus) : Prop :=
  ∃ (id2 : Z) (b4 b5 : bus) (j : nat) (b' : bus),
    identified b 0x0007 id2 b4 ∧
    ETH_WritePHY PHY_ADDR PHY_BCR PHY_BCR_AUTONEG b4 = Some b5 ∧
    (j < link_timeout)%nat ∧
    first_exit PHY_BSR link_down j b5 b'.

(** One of the MDIO transactions of the call does not return: the reset
    command, a read of the reset poll, one of the two identification
    reads, the auto-negotiation command, or a read of the link poll. *)
Definition mdio_hangs (b : bus) : Prop :=
  ETH_WritePHY PHY_ADDR PHY_BCR PHY_BCR_RESET b = None ∨
  (∃ (b1 : bus) (k : nat),
     ETH_WritePHY PHY_ADDR PHY_BCR PHY_BCR_RESET b = Some b1 ∧
     (k < reset_timeout)%nat ∧ hangs_at PHY_BCR reset_pending k b1) ∨
  (∃ (k : nat) (b2 : bus),
     reset_done k b b2 ∧ ETH_ReadPHY PHY_ADDR PHY_PHYID1 b2 = None) ∨
  (∃ (k : nat) (b2 : bus) (id1 : Z) (b3 : bus),
     reset_done k b b2 ∧
     ETH_ReadPHY PHY_ADDR PHY_PHYID1 b2 = Some (id1, b3) ∧
     ETH_ReadPHY PHY_ADDR PHY_PHYID2 b3 = None) ∨
  (∃ (id2 : Z) (b4 : bus),
     identified b 0x0007 id2 b4 ∧
     ETH_WritePHY PHY_ADDR PHY_BCR PHY_BCR_AUTONEG b4 = None) ∨
  (∃ (id2 : Z) (b4 b5 : bus) (j : nat),
     identified b 0x0007 id2 b4 ∧
     ETH_WritePHY PHY_ADDR PHY_BCR PHY_BCR_AUTONEG b4 = Some b5 ∧
     (j < link_timeout)%nat ∧ hangs_at PHY_BSR link_down j b5).

(** The identification test as the specification words it: the pair of
    identification registers against the LAN8742A constant 0x0007 C130. *)
Definition ids_mismatch (b : bus) : Prop :=
  ∃ (id1 id2 : Z) (b' : bus),
    identified b id1 id2 b' ∧ (id1, id2) ≠ (0x0007, 0xC130).
End PHY.

(** A PHY whose registers hold fixed values: register [r] reads as [regs r],
    writes are ignored, and every transaction returns. *)
Definition fixed_phy (regs : Z → Z) : MDIO unit :=
  {| ETH_ReadPHY := λ _ reg b, Some (regs reg, b);
     ETH_WritePHY := λ _ _ _ b, Some b |}.

(** A LAN8742A of another silicon revision that is out of reset with the
    link up: same PHYID1, PHYID2 = 0xC131. *)
Definition lan8742a_rev1 (reg : Z) : Z :=
  if reg =? PHY_BSR then PHY_BSR_LINK_UP
  else if reg =? PHY_PHYID1 then 0x0007
  else if reg =? PHY_PHYID2 then 0xC131
  else 0.

(** A PHY that never leaves reset. *)
Definition phy_in_reset (reg : Z) : Z :=
  if reg =? PHY_BCR then PHY_BCR_RESET else 0.

(** ** Runs of [ETH_SendFrame]

    [sends lay n st st']: [n] calls of [ETH_SendFrame] that all returned 1
    lead from [st] to [st'].  Between two calls the DMA engine may have
    changed memory and registers in any way (it drains slots by clearing
    OWN); the software cursor [TxDescIdx] is the one thing it cannot
    touch. *)
Inductive sends (lay : layout) : nat → state → state → Prop :=
| sends_nil st : sends lay 0 st st
| sends_snoc n st st1 st2 st3 data length :
    sends lay n st st1 →
    TxDescIdx st2 = TxDescIdx st1 →
    ETH_SendFrame lay st2 data length = Some (st3, 1) →
    sends lay (S n) st st3.

(** [send_all lay st frames]: the calls [ETH_SendFrame (f, length f)] for the
    frames of the list in turn, with no DMA activity in between; the result
    is the final state and the list of return values. *)
Fixpoint send_all (lay : layout) (st : state) (frames : list (list Z))
  : option (state * list Z) :=
  match frames with
  | [] => Some (st, [])
  | f :: frames =>
      '(st, r) ← ETH_SendFrame lay st f (Z.of_nat (length f));
      '(st, rs) ← send_all lay st frames;
      Some (st, r :: rs)
  end.

(** The memory a reset leaves: zeroed [.bss]. *)
Definition zero_desc : ETH_DMADescTypeDef := mkDesc 0 0 0 0 0 0 0 0.
Definition reset_state : state :=
  mkState (replicate 4 zero_desc) (replicate 4 zero_desc)
          (replicate (4 * 1536) 0) (replicate (4 * 1536) 0)
          0 0 (mkDMA 0 0 0 0 0 0 0).

(** A memory map for examples: the arrays in AXI SRAM. *)
Definition sample_layout : layout :=
  mkLayout 0x24000000 0x24000080 0x24000100 0x24001900.

(** A ring whose four TX descriptors are all with the DMA engine. *)
Definition full_ring : state :=
  mkState (RxDescriptors reset_state)
          (replicate 4 (set_DESC3 ETH_TDES3_OWN zero_desc))
          (RxBuffer reset_state) (TxBuffer reset_state) 0 0
          (ETH_DMA reset_state).

(** The write-back of the DMA engine for one received frame, for examples:
    the bytes go to RX slot [i] and the status word to RDES3 of descriptor
    [i]. *)
Definition rx_write_back (st : state) (i : nat) (bytes : list Z) (status : Z)
  : state :=
  mkState (alter (set_DESC3 status) i (RxDescriptors st)) (TxDescriptors st)
          (list_inserts (i * Z.to_nat ETH_RX_BUF_SIZE) bytes (RxBuffer st))
          (TxBuffer st) (TxDescIdx st) (RxDescIdx st) (ETH_DMA st).

(** An initialised ring that holds a good 64-byte frame in RX slot 0
    (status: first, last, length 64) ... *)
Definition rx_good_frame : state :=
  rx_write_back (ETH_InitDescriptors sample_layout reset_state) 0
                (replicate 64 0x55) (Z.lor (Z.lor (2 ^ 29) (2 ^ 28)) 64).

(** ... and one whose frame came with the error summary bit. *)
Definition rx_error_frame : state :=
  rx_write_back (ETH_InitDescriptors sample_layout reset_state) 0
                (replicate 64 0x55)
                (Z.lor (Z.lor (Z.lor (2 ^ 29) (2 ^ 28)) ETH_RDES3_ES) 64).

(** Descriptor 0 of the two rings above, as the write-back leaves it. *)
Definition rx_good_desc : ETH_DMADescTypeDef :=
  mkDesc (RxBuffer_ptr sample_layout 0) 0 0 (Z.lor (Z.lor (2 ^ 29) (2 ^ 28)) 64)
         0 0 0 0.
Definition rx_error_desc : ETH_DMADescTypeDef :=
  mkDesc (RxBuffer_ptr sample_layout 0) 0 0
         (Z.lor (Z.lor (Z.lor (2 ^ 29) (2 ^ 28)) ETH_RDES3_ES) 64) 0 0 0 0.

(** The zeroed ring with the TX cursor on the last slot. *)
Definition tx_cursor_at_3 : state :=
  mkState (RxDescriptors reset_state) (TxDescriptors reset_state)
          (RxBuffer reset_state) (TxBuffer reset_state) 3 0
          (ETH_DMA reset_state).

(** The addresses and the payload of [main]: [MyMACAddress], [BroadcastMAC]
    and [test_data], the string "Hello Ethernet!" with its final NUL. *)
Definition MyMACAddress : list Z := [0x02; 0x00; 0x00; 0x00; 0x00; 0x01].
Definition BroadcastMAC : list Z := [0xFF; 0xFF; 0xFF; 0xFF; 0xFF; 0xFF].
Definition test_data : list Z :=
  [72; 101; 108; 108; 111; 32; 69; 116; 104; 101; 114; 110; 101; 116; 33; 0].

(** The sizes the C declarations give to the four arrays; [wf] adds the
    range of the two cursors. *)
Definition allocated (st : state) : Prop :=
  length (RxDescriptors st) = Z.to_nat ETH_RX_DESC_CNT ∧
  length (TxDescriptors st) = Z.to_nat ETH_TX_DESC_CNT ∧
  length (RxBuffer st) = Z.to_nat (ETH_RX_DESC_CNT * ETH_RX_BUF_SIZE) ∧
  length (TxBuffer st) = Z.to_nat (ETH_TX_DESC_CNT * ETH_TX_BUF_SIZE).

(** ** Configuration registers

    The registers of the GPIO ports, of RCC and SYSCFG, and the
    configuration registers of the Ethernet block hold what was last written
    to them; they are fields of records.  [x &= ~m], [x |= m] and the shifts
    are those of [uint32_t]. *)

(** [~x] on a [uint32_t]. *)
Definition not32 (x : Z) : Z := u32 (Z.lnot x).

(** [x << n] with the result converted to [uint32_t].  For an [int] operand
    whose shifted value leaves [int] this is the value GCC defines. *)
Definition shl32 (x n : Z) : Z := u32 (Z.shiftl x n).

(** Field number [k] of width [w] of a register: bits [w*k + w - 1 .. w*k]. *)
Definition bitfield (w k x : Z) : Z := Z.land (Z.shiftr x (w * k)) (Z.ones w).

(** *** Exercise 2: [GPIO_ConfigurePin] and [ETH_ConfigureGPIO] *)

(** [GPIO_TypeDef]; [AFR0] and [AFR1] are [AFR[0]] and [AFR[1]]. *)
Record GPIO_TypeDef : Set := mkGPIO {
  MODER : Z;
  OTYPER : Z;
  OSPEEDR : Z;
  PUPDR : Z;
  IDR : Z;
  ODR : Z;
  BSRR : Z;
  LCKR : Z;
  AFR0 : Z;
  AFR1 : Z
}.

Definition GPIO_AF11_ETH : Z := 11.

(** [pin] and [af] are [uint8_t].  A shift count of 32 or more, which
    [pin * 2] is from pin 16 on, is undefined: [None].  [af << n] is computed
    on [int] and converted to [uint32_t] by the [|=]; the register receives
    the low 32 bits of the shifted value. *)
Definition GPIO_ConfigurePin (port : GPIO_TypeDef) (pin af : Z)
  : option GPIO_TypeDef :=
  if decide (pin * 2 < 32) then
    let moder := Z.land (MODER port) (not32 (shl32 3 (pin * 2))) in
    let moder := Z.lor moder (shl32 2 (pin * 2)) in
    let ospeedr := Z.lor (OSPEEDR port) (shl32 3 (pin * 2)) in
    let pupdr := Z.land (PUPDR port) (not32 (shl32 3 (pin * 2))) in
    let otyper := Z.land (OTYPER port) (not32 (shl32 1 pin)) in
    if pin <? 8 then
      let afr := Z.land (AFR0 port) (not32 (shl32 0xF (pin * 4))) in
      let afr := Z.lor afr (shl32 af (pin * 4)) in
      Some (mkGPIO moder otyper ospeedr pupdr (IDR port) (ODR port)
                   (BSRR port) (LCKR port) afr (AFR1 port))
    else
      let afr := Z.land (AFR1 port) (not32 (shl32 0xF ((pin - 8) * 4))) in
      let afr := Z.lor afr (shl32 af ((pin - 8) * 4)) in
      Some (mkGPIO moder otyper ospeedr pupdr (IDR port) (ODR port)
                   (BSRR port) (LCKR port) (AFR0 port) afr)
  else None.

(** The four ports the Ethernet pins are on. *)
Record gpio_ports : Set := mkPorts {
  GPIOA : GPIO_TypeDef;
  GPIOB : GPIO_TypeDef;
  GPIOC : GPIO_TypeDef;
  GPIOG : GPIO_TypeDef
}.

(** The pin of the first call is the blank of the exercise; its value is
    the one of the solution printed below the function: pin 1, AF11. *)
Definition ETH_ConfigureGPIO (p : gpio_ports) : option gpio_ports :=
  a ← GPIO_ConfigurePin (GPIOA p) 1 GPIO_AF11_ETH;
  a ← GPIO_ConfigurePin a 2 GPIO_AF11_ETH;
  a ← GPIO_ConfigurePin a 7 GPIO_AF11_ETH;
  b ← GPIO_ConfigurePin (GPIOB p) 13 GPIO_AF11_ETH;
  c ← GPIO_ConfigurePin (GPIOC p) 1 GPIO_AF11_ETH;
  c ← GPIO_ConfigurePin c 4 GPIO_AF11_ETH;
  c ← GPIO_ConfigurePin c 5 GPIO_AF11_ETH;
  g ← GPIO_ConfigurePin (GPIOG p) 11 GPIO_AF11_ETH;
  g ← GPIO_ConfigurePin g 13 GPIO_AF11_ETH;
  Some (mkPorts a b c g).

(** The alternate-function field of pin [q]: nibble [q mod 8] of
    [AFR[q / 8]]. *)
Definition af_field (port : GPIO_TypeDef) (q : Z) : Z :=
  if q <? 8 then bitfield 4 q (AFR0 port) else bitfield 4 (q - 8) (AFR1 port).

(** The five settings of pin [q] that [GPIO_ConfigurePin] touches: mode,
    output type, speed, pull and alternate function. *)
Definition pin_config (port : GPIO_TypeDef) (q : Z) : Z * Z * Z * Z * Z :=
  (bitfield 2 q (MODER port), bitfield 1 q (OTYPER port),
   bitfield 2 q (OSPEEDR port), bitfield 2 q (PUPDR port), af_field port q).

(** The RMII pins of the table of lesson 3. *)
Inductive port_name : Set := PA | PB | PC | PG.

Definition port_of (p : gpio_ports) (n : port_name) : GPIO_TypeDef :=
  match n with PA => GPIOA p | PB => GPIOB p | PC => GPIOC p | PG => GPIOG p end.

Definition is_rmii_pin (n : port_name) (q : Z) : bool :=
  match n with
  | PA => (q =? 1) || (q =? 2) || (q =? 7)
  | PB => q =? 13
  | PC => (q =? 1) || (q =? 4) || (q =? 5)
  | PG => (q =? 11) || (q =? 13)
  end.

(** ** Exercise 1: [ETH_EnableClocks]

    The three masks or-ed into [AHB1ENR] are the blanks of the exercise;
    their values are those of the solution printed below the function. *)

Definition RCC_AHB4ENR_GPIOAEN : Z := Z.shiftl 1 0.
Definition RCC_AHB4ENR_GPIOBEN : Z := Z.shiftl 1 1.
Definition RCC_AHB4ENR_GPIOCEN : Z := Z.shiftl 1 2.
Definition RCC_AHB4ENR_GPIOGEN : Z := Z.shiftl 1 6.
Definition RCC_APB4ENR_SYSCFGEN : Z := Z.shiftl 1 1.
Definition RCC_AHB1ENR_ETH1MACEN : Z := Z.shiftl 1 15.
Definition RCC_AHB1ENR_ETH1TXEN : Z := Z.shiftl 1 16.
Definition RCC_AHB1ENR_ETH1RXEN : Z := Z.shiftl 1 17.

(** The registers of [RCC_TypeDef] that the function writes. *)
Record RCC_TypeDef : Set := mkRCC {
  AHB1ENR : Z;
  AHB4ENR : Z;
  APB4ENR : Z
}.

Definition ETH_EnableClocks (rcc : RCC_TypeDef) : RCC_TypeDef :=
  let ahb4 := Z.lor (AHB4ENR rcc) RCC_AHB4ENR_GPIOAEN in
  let ahb4 := Z.lor ahb4 RCC_AHB4ENR_GPIOBEN in
  let ahb4 := Z.lor ahb4 RCC_AHB4ENR_GPIOCEN in
  let ahb4 := Z.lor ahb4 RCC_AHB4ENR_GPIOGEN in
  let apb4 := Z.lor (APB4ENR rcc) RCC_APB4ENR_SYSCFGEN in
  let ahb1 := Z.lor (AHB1ENR rcc) RCC_AHB1ENR_ETH1MACEN in
  let ahb1 := Z.lor ahb1 RCC_AHB1ENR_ETH1TXEN in
  let ahb1 := Z.lor ahb1 RCC_AHB1ENR_ETH1RXEN in
  mkRCC ahb1 ahb4 apb4.

(** ** Exercise 3: [ETH_SelectRMII]

    The mask is the blank of the exercise; its value is the one of the
    solution printed below the function: [SYSCFG_PMCR_EPIS_RMII]. *)

Definition SYSCFG_PMCR_EPIS_RMII : Z := Z.shiftl 4 21.

(** The register of [SYSCFG_TypeDef] that the function writes. *)
Record SYSCFG_TypeDef : Set := mkSYSCFG {
  PMCR : Z
}.

Definition ETH_SelectRMII (syscfg : SYSCFG_TypeDef) : SYSCFG_TypeDef :=
  mkSYSCFG (Z.lor (PMCR syscfg) SYSCFG_PMCR_EPIS_RMII).

(** The three-bit field the mask lies in: bits 21 to 23 of [PMCR]. *)
Definition EPIS (syscfg : SYSCFG_TypeDef) : Z := bitfield 3 7 (PMCR syscfg).

(** ** Exercise 7: [ETH_SetMACAddress]

    The value assigned to [MACA0LR] is the blank of the exercise; it is the
    one of the solution printed below the function. *)

(** The configuration registers of [ETH_MAC_TypeDef] that the file writes
    outside the MDIO functions. *)
Record ETH_MAC_TypeDef : Set := mkMAC {
  MACCR : Z;
  MACA0HR : Z;
  MACA0LR : Z
}.

(** [addr] is the object the caller's pointer refers to; reading past its
    end is undefined: [None].  The bytes are promoted to [int] before they
    are shifted; the registers receive the low 32 bits. *)
Definition ETH_SetMACAddress (addr : list Z) (mac : ETH_MAC_TypeDef)
  : option ETH_MAC_TypeDef :=
  a0 ← addr !! 0%nat;
  a1 ← addr !! 1%nat;
  a2 ← addr !! 2%nat;
  a3 ← addr !! 3%nat;
  let lr :=
    u32 (Z.lor (Z.lor (Z.lor a0 (Z.shiftl a1 8)) (Z.shiftl a2 16))
               (Z.shiftl a3 24)) in
  a5 ← addr !! 5%nat;
  a4 ← addr !! 4%nat;
  let hr := u32 (Z.lor (Z.lor (Z.shiftl 1 31) (Z.shiftl a5 8)) a4) in
  Some (mkMAC (MACCR mac) hr lr).

(** The six bytes of the station address as the comment of the function
    lays them out: [MACA0LR = 0xDDCCBBAA], [MACA0HR = 0x0000FFEE] for
    [AA:BB:CC:DD:EE:FF]. *)
Definition station_address (mac : ETH_MAC_TypeDef) : list Z :=
  [bitfield 8 0 (MACA0LR mac); bitfield 8 1 (MACA0LR mac);
   bitfield 8 2 (MACA0LR mac); bitfield 8 3 (MACA0LR mac);
   bitfield 8 0 (MACA0HR mac); bitfield 8 1 (MACA0HR mac)].

(** ** Exercise 8: [ETH_StartMAC]

    The mask or-ed into [MACCR] is the blank of the exercise; its value is
    the one of the solution printed below the function:
    [ETH_MACCR_TE | ETH_MACCR_RE]. *)

Definition ETH_MACCR_RE : Z := Z.shiftl 1 0.
Definition ETH_MACCR_TE : Z := Z.shiftl 1 1.
Definition ETH_MACCR_DCRS : Z := Z.shiftl 1 9.
Definition ETH_MACCR_FES : Z := Z.shiftl 1 14.
Definition ETH_MACCR_DM : Z := Z.shiftl 1 13.
Definition ETH_DMACTCR_ST : Z := Z.shiftl 1 0.
Definition ETH_DMACRCR_SR : Z := Z.shiftl 1 0.
Definition ETH_MTLTQOMR_TSF : Z := Z.shiftl 1 1.
Definition ETH_MTLTQOMR_TQS_SHIFT : Z := 16.
Definition ETH_MTLRQOMR_RSF : Z := Z.shiftl 1 5.
Definition ETH_MTLRQOMR_RQS_SHIFT : Z := 20.

(** The registers of [ETH_MTL_TypeDef] that the function writes. *)
Record ETH_MTL_TypeDef : Set := mkMTL {
  MTLTQOMR : Z;
  MTLRQOMR : Z
}.

(** The Ethernet block: the MAC and MTL registers, [DMACTCR], and the
    globals of the ring code with the other DMA registers. *)
Record eth_block : Set := mkEth {
  ETH_MAC : ETH_MAC_TypeDef;
  ETH_MTL : ETH_MTL_TypeDef;
  DMACTCR : Z;
  globals : state
}.

Definition ETH_StartMAC (e : eth_block) : eth_block :=
  let tqomr := Z.lor ETH_MTLTQOMR_TSF (shl32 7 ETH_MTLTQOMR_TQS_SHIFT) in
  let rqomr := Z.lor ETH_MTLRQOMR_RSF (shl32 7 ETH_MTLRQOMR_RQS_SHIFT) in
  let maccr := Z.lor ETH_MACCR_FES ETH_MACCR_DM in
  let maccr := Z.lor maccr (Z.lor ETH_MACCR_TE ETH_MACCR_RE) in
  let dmactcr := Z.lor (DMACTCR e) ETH_DMACTCR_ST in
  let st := globals e in
  let dma := ETH_DMA st in
  let dma := set_DMACRCR (Z.lor (DMACRCR dma) ETH_DMACRCR_SR) dma in
  mkEth (mkMAC maccr (MACA0HR (ETH_MAC e)) (MACA0LR (ETH_MAC e)))
        (mkMTL tqomr rqomr)
        dmactcr
        (mkState (RxDescriptors st) (TxDescriptors st) (RxBuffer st)
                 (TxBuffer st) (TxDescIdx st) (RxDescIdx st) dma).

(** A call of a function of the ring code inside the block. *)
Definition on_globals (f : state → state) (e : eth_block) : eth_block :=
  mkEth (ETH_MAC e) (ETH_MTL e) (DMACTCR e) (f (globals e)).

(** The receive buffer size field of [DMACRCR], bits 1 to 14. *)
Definition RBSZ (dma : ETH_DMA_TypeDef) : Z :=
  Z.land (Z.shiftr (DMACRCR dma) ETH_DMACRCR_RBSZ_SHIFT) (Z.ones 14).

(** ** Exercise 4 and lesson 4: the busy-waits on hardware flags

    [DMAMR], [MACMDIOAR] and [MACMDIODR] are registers the hardware changes
    on its own: what a read returns is the hardware's answer.  The
    hardware is a parameter: a state with a read and a write access. *)

Definition ETH_MACMDIOAR_MB : Z := Z.shiftl 1 0.
Definition ETH_MACMDIOAR_C45E : Z := Z.shiftl 1 1.
Definition ETH_MACMDIOAR_GOC_READ : Z := Z.shiftl 3 2.
Definition ETH_MACMDIOAR_GOC_WRITE : Z := Z.shiftl 1 2.
Definition ETH_MACMDIOAR_CR_DIV102 : Z := Z.shiftl 4 8.
Definition ETH_DMAMR_SWR : Z := Z.shiftl 1 0.

Inductive hw_reg : Set := DMAMR | MACMDIOAR | MACMDIODR.

Class Hardware (hw : Type) : Type := {
  load : hw_reg → hw → Z * hw;
  store : hw_reg → Z → hw → hw
}.

(** The functions of the source on such a hardware.  [fuel] bounds the
    number of iterations the model follows in each loop; [None] is "still
    looping". *)
Module MMIO.
Section Hardware.
Context {hw : Type} `{Hardware hw}.

(** [while (reg & mask);] *)
Fixpoint wait_clear (r : hw_reg) (mask : Z) (fuel : nat) (h : hw) : option hw :=
  match fuel with
  | O => None
  | S fuel =>
      let '(v, h) := load r h in
      if bits_set v mask then wait_clear r mask fuel h else Some h
  end.

(** The mask or-ed into [DMAMR] is the blank of the exercise; its value is
    the one of the solution printed below the function: [ETH_DMAMR_SWR]. *)
Definition ETH_DMAReset (fuel : nat) (h : hw) : option hw :=
  let '(v, h) := load DMAMR h in
  let h := store DMAMR (Z.lor v ETH_DMAMR_SWR) h in
  wait_clear DMAMR ETH_DMAMR_SWR fuel h.

(** The word written to [MACMDIOAR]; [goc] is the operation. *)
Definition mdio_command (phy_addr reg_addr goc : Z) : Z :=
  Z.lor (Z.lor (Z.lor (Z.lor (Z.shiftl (Z.land phy_addr 0x1F) 21)
                             (Z.shiftl (Z.land reg_addr 0x1F) 16))
                      ETH_MACMDIOAR_CR_DIV102)
               goc)
        ETH_MACMDIOAR_MB.

Definition ETH_ReadPHY (fuel : nat) (phy_addr reg_addr : Z) (h : hw)
  : option (Z * hw) :=
  h ← wait_clear MACMDIOAR ETH_MACMDIOAR_MB fuel h;
  let h :=
    store MACMDIOAR (mdio_command phy_addr reg_addr ETH_MACMDIOAR_GOC_READ) h in
  h ← wait_clear MACMDIOAR ETH_MACMDIOAR_MB fuel h;
  let '(v, h) := load MACMDIODR h in
  Some (u16 (Z.land v 0xFFFF), h).

Definition ETH_WritePHY (fuel : nat) (phy_addr reg_addr value : Z) (h : hw)
  : option hw :=
  h ← wait_clear MACMDIOAR ETH_MACMDIOAR_MB fuel h;
  let h := store MACMDIODR value h in
  let h :=
    store MACMDIOAR (mdio_command phy_addr reg_addr ETH_MACMDIOAR_GOC_WRITE) h in
  wait_clear MACMDIOAR ETH_MACMDIOAR_MB fuel h.

(** The hardware after [k] reads of [r], and the value that read number
    [k] (from 0) returns. *)
Fixpoint after_loads (r : hw_reg) (k : nat) (h : hw) : hw :=
  match k with
  | O => h
  | S k => after_loads r k (load r h).2
  end.

Definition nth_load (r : hw_reg) (k : nat) (h : hw) : Z :=
  (load r (after_loads r k h)).1.

(** The flag [mask] of [r] reads as set the first [n] times. *)
Definition busy_for (r : hw_reg) (mask : Z) (n : nat) (h : hw) : Prop :=
  ∀ i, (i < n)%nat → bits_set (nth_load r i h) mask = true.

(** The flag reads as set [k] times and as clear the next time. *)
Definition clears_at (r : hw_reg) (mask : Z) (k : nat) (h : hw) : Prop :=
  busy_for r mask k h ∧ bits_set (nth_load r k h) mask = false.

(** The hardware at the points of the MDIO functions: when the command
    is written, after a first wait of [k] busy reads. *)
Definition mdio_idle (k : nat) (h : hw) : hw :=
  after_loads MACMDIOAR (S k) h.
Definition mdio_read_started (k : nat) (phy_addr reg_addr : Z) (h : hw) : hw :=
  store MACMDIOAR (mdio_command phy_addr reg_addr ETH_MACMDIOAR_GOC_READ)
        (mdio_idle k h).
Definition mdio_write_started (k : nat) (phy_addr reg_addr value : Z) (h : hw)
  : hw :=
  store MACMDIOAR (mdio_command phy_addr reg_addr ETH_MACMDIOAR_GOC_WRITE)
        (store MACMDIODR value (mdio_idle k h)).
Definition dma_reset_started (h : hw) : hw :=
  store DMAMR (Z.lor (load DMAMR h).1 ETH_DMAMR_SWR) (load DMAMR h).2.

End Hardware.
End MMIO.

(** [ETH_ReadPHY] and [ETH_WritePHY] as [ETH_InitPHY] calls them, on the
    registers: a call that is still in one of its loops after [fuel]
    iterations has not returned. *)
Definition register_mdio {hw : Type} `{Hardware hw} (fuel : nat) : MDIO hw :=
  {| ETH_ReadPHY := MMIO.ETH_ReadPHY fuel;
     ETH_WritePHY := MMIO.ETH_WritePHY fuel |}.

(** A hardware for the examples: bit 0 of [DMAMR] and of [MACMDIOAR] reads
    as set [latency] times after it was written as set, [MACMDIODR] holds
    the last value written. *)
Record slow_unit : Set := mkSlow {
  latency : nat;
  busy : nat;
  data : Z
}.

Definition slow_hardware : Hardware slow_unit := {|
  load r u :=
    match r with
    | MACMDIODR => (data u, u)
    | _ => match busy u with
           | O => (0, u)
           | S n => (1, mkSlow (latency u) n (data u))
           end
    end;
  store r v u :=
    match r with
    | MACMDIODR => mkSlow (latency u) (busy u) v
    | _ => if Z.testbit v 0 then mkSlow (latency u) (latency u) (data u) else u
    end
|}.

(** A hardware whose flags never clear. *)
Definition dead_hardware : Hardware unit := {|
  load r u := (1, u);
  store r v u := u
|}.

(** ** [delay]

    [while (count--);] on a [uint32_t].  The result is the value of
    [count] when the loop is left. *)
Fixpoint delay (fuel : nat) (count : Z) : option Z :=
  match fuel with
  | O => None
  | S fuel =>
      let test := count in
      let count := u32 (count - 1) in
      if test =? 0 then Some count else delay fuel count
  end.

(** ** Calls on one object of the caller

    [data] of [ETH_SendFrame] and [buffer] of [ETH_ReceiveFrame] are
    pointers.  Where a caller passes pointers into one object [mem], at
    the offsets [doff] and [boff], what one call writes to the object is
    what the other call reads from it. *)
Definition send_from (lay : layout) (st : state) (mem : list Z) (doff : nat)
    (length : Z) : option (state * Z) :=
  ETH_SendFrame lay st (drop doff mem) length.

Definition receive_into (lay : layout) (st : state) (mem : list Z) (boff : nat)
    (max_length : Z) : option (state * list Z * Z) :=
  '(st', buffer', n) ← ETH_ReceiveFrame lay st (drop boff mem) max_length;
  Some (st', take boff mem ++ buffer', n).

(** * Properties *)

(** Evaluate the right-hand side of a cursor equation. *)
Ltac eval_cursor H :=
  match type of H with
  | _ = ?r => let v := eval vm_compute in r in change r with v in H
  end.

(** ** Bits and machine integers *)

Lemma land_bit (x n : Z) :
  0 <= n → Z.land x (Z.shiftl 1 n) = if Z.testbit x n then 2 ^ n else 0.
Proof.
  intros Hn. rewrite Z.shiftl_1_l.
  apply Z.bits_inj'. intros i Hi.
  rewrite Z.land_spec, Z.pow2_bits_eqb by lia.
  destruct (Z.eqb_spec n i) as [->|Hne].
  - destruct (Z.testbit x i); rewrite ?Z.pow2_bits_true, ?Z.bits_0 by lia; reflexivity.
  - rewrite andb_false_r.
    destruct (Z.testbit x n); rewrite ?Z.pow2_bits_false, ?Z.bits_0 by lia; reflexivity.
Qed.

(** A one-bit C test is the test of that bit. *)
Lemma bits_set_bit (x n : Z) :
  0 <= n → bits_set x (Z.shiftl 1 n) = Z.testbit x n.
Proof.
  intros Hn. unfold bits_set. rewrite land_bit by done.
  destruct (Z.testbit x n); [|reflexivity].
  assert (0 < 2 ^ n) by (apply Z.pow_pos_nonneg; lia).
  destruct (Z.eqb_spec (2 ^ n) 0); [lia | reflexivity].
Qed.

Lemma testbit_above (x n i : Z) :
  0 <= x < 2 ^ n → 0 <= n <= i → Z.testbit x i = false.
Proof.
  intros Hx Hi. rewrite <- (Z.mod_small x (2 ^ n)) by lia.
  apply Z.mod_pow2_bits_high. lia.
Qed.

Lemma u16_small (x : Z) : 0 <= x < 2 ^ 16 → u16 x = x.
Proof. intros. unfold u16. by apply Z.mod_small. Qed.

Lemma u32_small (x : Z) : 0 <= x < 2 ^ 32 → u32 x = x.
Proof. intros. unfold u32. by apply Z.mod_small. Qed.

(** ** [memcpy] and [memset] *)

Lemma list_inserts_splice {A} (l k : list A) (i : nat) :
  (i + length k ≤ length l)%nat →
  list_inserts i k l = take i l ++ k ++ drop (i + length k) l.
Proof.
  intros Hl.
  rewrite <- (take_drop i l) at 1.
  assert (Hi : length (take i l) = i) by (rewrite length_take; lia).
  rewrite <- Hi at 1.
  replace (length (take i l)) with (length (take i l) + 0)%nat at 1 by lia.
  rewrite list_inserts_app_r. f_equal.
  rewrite <- (take_drop (length k) (drop i l)) at 1.
  rewrite list_inserts_0_r by (rewrite length_take, length_drop; lia).
  by rewrite drop_drop.
Qed.

Lemma memcpy_Some (dst src : list Z) (doff soff n : nat) :
  (doff + n ≤ length dst)%nat → (soff + n ≤ length src)%nat →
  memcpy dst doff src soff n
  = Some (take doff dst ++ take n (drop soff src) ++ drop (doff + n) dst).
Proof.
  intros Hd Hs. unfold memcpy. by rewrite decide_True.
Qed.

(** The same update, byte by byte. *)
Lemma memcpy_inserts (dst src dst' : list Z) (doff soff n : nat) :
  memcpy dst doff src soff n = Some dst' →
  dst' = list_inserts doff (take n (drop soff src)) dst ∧
  length (take n (drop soff src)) = n.
Proof.
  unfold memcpy. case_decide as Hb; [|done]. intros [= <-].
  assert (Hn : length (take n (drop soff src)) = n)
    by (rewrite length_take, length_drop; lia).
  rewrite list_inserts_splice by lia. by rewrite Hn.
Qed.

Lemma memcpy_None (dst src : list Z) (doff soff n : nat) :
  (length dst < doff + n ∨ length src < soff + n)%nat →
  memcpy dst doff src soff n = None.
Proof. intros Hd. unfold memcpy. rewrite decide_False; [done|lia]. Qed.

Lemma memcpy_inv (dst src dst' : list Z) (doff soff n : nat) :
  memcpy dst doff src soff n = Some dst' →
  (doff + n ≤ length dst)%nat ∧ (soff + n ≤ length src)%nat ∧
  dst' = take doff dst ++ take n (drop soff src) ++ drop (doff + n) dst.
Proof.
  intros Hc. unfold memcpy in Hc.
  destruct (decide _) as [[Hd Hs]|]; [|done].
  split; [done|]. split; [done|].
  pose proof (memcpy_Some dst src doff soff n Hd Hs) as E.
  unfold memcpy in E. rewrite decide_True in E by done. congruence.
Qed.

Lemma memcpy_length (dst src dst' : list Z) (doff soff n : nat) :
  memcpy dst doff src soff n = Some dst' → length dst' = length dst.
Proof.
  intros Hc. apply memcpy_inserts in Hc as [-> _]. apply length_inserts.
Qed.

Lemma memset_Some (dst : list Z) (doff n : nat) (c : Z) :
  (doff + n ≤ length dst)%nat →
  memset dst doff c n
  = Some (take doff dst ++ replicate n c ++ drop (doff + n) dst).
Proof.
  intros Hd. unfold memset. by rewrite decide_True.
Qed.

(** ** Transmit path: the busy answer *)

Lemma ETH_SendFrame_owned (lay : layout) (st : state) (data : list Z)
    (length : Z) (d : ETH_DMADescTypeDef) :
  TxDescriptors st !! Z.to_nat (TxDescIdx st) = Some d →
  Z.testbit (DESC3 d) 31 = true →
  ETH_SendFrame lay st data length = Some (st, 0).
Proof.
  intros Hd Hown. unfold ETH_SendFrame. rewrite Hd. simpl.
  unfold ETH_TDES3_OWN. rewrite bits_set_bit by lia. by rewrite Hown.
Qed.

Lemma send_all_owned (lay : layout) (st : state) (d : ETH_DMADescTypeDef)
    (frames : list (list Z)) :
  TxDescriptors st !! Z.to_nat (TxDescIdx st) = Some d →
  Z.testbit (DESC3 d) 31 = true →
  send_all lay st frames = Some (st, replicate (length frames) 0).
Proof.
  intros Hd Hown. induction frames as [|f frames IH]; [done|].
  simpl. rewrite (ETH_SendFrame_owned lay st f _ d Hd Hown). simpl.
  rewrite IH. reflexivity.
Qed.

(** C1. When the TX descriptor under the cursor has its OWN bit set,
    [ETH_SendFrame] returns 0 and hands back the very state it was given:
    descriptors, slot buffers, [TxDescIdx] and the tail-pointer register are
    all as before.  The test is made once, so any further calls on a ring
    that is not drained are answered the same way and leave the state, and
    with it the contents of every slot, as it was. *)
Theorem C1_send_busy_keeps_state (lay : layout) (st : state) (data : list Z)
    (length : Z) (d : ETH_DMADescTypeDef) :
  TxDescriptors st !! Z.to_nat (TxDescIdx st) = Some d →
  Z.testbit (DESC3 d) 31 = true →
  ETH_SendFrame lay st data length = Some (st, 0) ∧
  ∀ frames : list (list Z),
    send_all lay st frames = Some (st, replicate (List.length frames) 0).
Proof.
  intros Hd Hown. split.
  - by eapply ETH_SendFrame_owned.
  - intros frames. by eapply send_all_owned.
Qed.

Lemma C1_send_busy_witness :
  TxDescriptors full_ring !! Z.to_nat (TxDescIdx full_ring)
    = Some (set_DESC3 ETH_TDES3_OWN zero_desc) ∧
  Z.testbit (DESC3 (set_DESC3 ETH_TDES3_OWN zero_desc)) 31 = true ∧
  ETH_SendFrame sample_layout full_ring [1; 2; 3] 3 = Some (full_ring, 0) ∧
  ∀ frames : list (list Z),
    send_all sample_layout full_ring frames
    = Some (full_ring, replicate (List.length frames) 0).
Proof.
  split; [reflexivity|]. split; [reflexivity|].
  apply (C1_send_busy_keeps_state sample_layout full_ring [1; 2; 3] 3
           (set_DESC3 ETH_TDES3_OWN zero_desc)); reflexivity.
Defined.

(** ** Transmit path: a free descriptor *)

(** The control word written to TDES3. *)
Lemma tx_control_word (length : Z) :
  0 <= length < 2 ^ 16 →
  let w := Z.lor (Z.lor (Z.lor (Z.lor ETH_TDES3_OWN ETH_TDES3_FD) ETH_TDES3_LD)
                        ETH_TDES3_CIC_ALL) length in
  Z.testbit w 31 = true ∧ Z.testbit w 29 = true ∧ Z.testbit w 28 = true ∧
  Z.testbit w 17 = true ∧ Z.testbit w 16 = true ∧
  Z.land w (Z.ones 16) = length.
Proof.
  intros Hl w. subst w.
  repeat split; rewrite ?Z.lor_spec;
    try (rewrite (testbit_above length 16) by lia; reflexivity).
  rewrite Z.land_lor_distr_l.
  rewrite (Z.land_ones length 16), Z.mod_small by lia.
  reflexivity.
Qed.

Lemma ETH_SendFrame_free (lay : layout) (st : state) (data : list Z)
    (length : Z) (d : ETH_DMADescTypeDef) (buf : list Z) :
  TxDescriptors st !! Z.to_nat (TxDescIdx st) = Some d →
  Z.testbit (DESC3 d) 31 = false →
  memcpy (TxBuffer st) (Z.to_nat (TxDescIdx st) * Z.to_nat ETH_TX_BUF_SIZE)
         data 0 (Z.to_nat length) = Some buf →
  ETH_SendFrame lay st data length
  = Some (mkState (RxDescriptors st)
            (<[Z.to_nat (TxDescIdx st) :=
                 mkDesc (TxBuffer_ptr lay (TxDescIdx st)) 0
                   (Z.land length ETH_TDES2_B1L_MASK)
                   (Z.lor (Z.lor (Z.lor (Z.lor ETH_TDES3_OWN ETH_TDES3_FD)
                                        ETH_TDES3_LD) ETH_TDES3_CIC_ALL) length)
                   (BackupAddr0 d) (BackupAddr1 d) (Reserved0 d) (Reserved1 d)]>
               (TxDescriptors st))
            (RxBuffer st) buf
            (u32 (TxDescIdx st + 1) mod ETH_TX_DESC_CNT) (RxDescIdx st)
            (set_DMACTDTPR
               (TxDescriptor_ptr lay (u32 (TxDescIdx st + 1) mod ETH_TX_DESC_CNT))
               (ETH_DMA st)), 1).
Proof.
  intros Hd Hown Hcopy. unfold ETH_SendFrame. rewrite Hd. simpl.
  unfold ETH_TDES3_OWN at 1. rewrite bits_set_bit by lia. rewrite Hown.
  rewrite Hcopy. reflexivity.
Qed.

(** A call that returned 1 went through the success path. *)
Lemma ETH_SendFrame_1_cursor (lay : layout) (st st' : state) (data : list Z)
    (length : Z) :
  ETH_SendFrame lay st data length = Some (st', 1) →
  TxDescIdx st' = u32 (TxDescIdx st + 1) mod ETH_TX_DESC_CNT.
Proof.
  unfold ETH_SendFrame.
  destruct (TxDescriptors st !! Z.to_nat (TxDescIdx st)) as [d|]; [simpl|done].
  destruct (bits_set (DESC3 d) ETH_TDES3_OWN); [done|].
  destruct (memcpy _ _ _ _ _); [simpl|done].
  by intros [= <-].
Qed.

Lemma sends_cursor (lay : layout) (n : nat) (st st' : state) :
  sends lay n st st' →
  0 <= TxDescIdx st < ETH_TX_DESC_CNT →
  TxDescIdx st' = (TxDescIdx st + Z.of_nat n) mod ETH_TX_DESC_CNT.
Proof.
  unfold ETH_TX_DESC_CNT.
  induction 1 as [st|n st st1 st2 st3 data length Hn IH Hidx Hsend]; intros Hi.
  - rewrite Z.add_0_r, Z.mod_small; lia.
  - apply ETH_SendFrame_1_cursor in Hsend. rewrite Hsend, Hidx, (IH Hi).
    unfold ETH_TX_DESC_CNT.
    assert (Hb : 0 <= (TxDescIdx st + Z.of_nat n) mod 4 < 4)
      by (apply Z.mod_pos_bound; lia).
    rewrite u32_small by lia.
    rewrite Z.add_mod_idemp_l by lia. f_equal. lia.
Qed.

Lemma ETH_SendFrame_wf (lay : layout) (st st' : state) (data : list Z)
    (length r : Z) :
  wf st → ETH_SendFrame lay st data length = Some (st', r) → wf st'.
Proof.
  intros [] Hs. unfold ETH_SendFrame in Hs.
  destruct (TxDescriptors st !! Z.to_nat (TxDescIdx st)) as [d|]; [simpl in Hs|done].
  destruct (bits_set (DESC3 d) ETH_TDES3_OWN).
  { injection Hs as <- <-. by constructor. }
  destruct (memcpy _ _ _ _ _) as [buf|] eqn:Hc; [simpl in Hs|done].
  injection Hs as <- <-. apply memcpy_length in Hc.
  constructor; simpl; rewrite ?length_insert; try done; try congruence.
  unfold ETH_TX_DESC_CNT in *. rewrite u32_small by lia.
  apply Z.mod_pos_bound. lia.
Qed.

(** C2. [ETH_SendFrame] on a descriptor that software owns.  For a call
    whose copy stays inside the caller's object and inside [TxBuffer], the
    result is 1 and: exactly [length] bytes of [data] now start the slot
    under the cursor, the rest of [TxBuffer] is as before; the descriptor
    holds the slot address [&TxBuffer + 1536 * TxDescIdx] (as a 32-bit
    value) in word 0, 0 in word 1, the length in word 2, and in word 3 the
    OWN (31), first (29), last (28) and checksum-insertion (17:16) bits over
    the length; the cursor is [(TxDescIdx + 1) mod 4]; the TX tail pointer
    is the address [&TxDescriptors + 32 * cursor] of the descriptor at the
    new cursor; nothing else changes.  Hence any four calls that returned 1, starting
    with the cursor at 0, end with the cursor at 0, whatever the DMA engine
    did to memory in between. *)
Theorem C2_send_success (lay : layout) (st : state) (data : list Z)
    (length : Z) (d : ETH_DMADescTypeDef) :
  wf st →
  TxDescriptors st !! Z.to_nat (TxDescIdx st) = Some d →
  Z.testbit (DESC3 d) 31 = false →
  0 <= length < 2 ^ 16 →
  (Z.to_nat length ≤ List.length data)%nat →
  TxDescIdx st * ETH_TX_BUF_SIZE + length <= ETH_TX_DESC_CNT * ETH_TX_BUF_SIZE →
  (∃ (st' : state) (d' : ETH_DMADescTypeDef),
      ETH_SendFrame lay st data length = Some (st', 1) ∧
      wf st' ∧
      TxBuffer st'
      = take (Z.to_nat (TxDescIdx st * ETH_TX_BUF_SIZE)) (TxBuffer st)
        ++ take (Z.to_nat length) data
        ++ drop (Z.to_nat (TxDescIdx st * ETH_TX_BUF_SIZE + length)) (TxBuffer st) ∧
      TxDescriptors st' = <[Z.to_nat (TxDescIdx st) := d']> (TxDescriptors st) ∧
      DESC0 d' = (TxBuffer_addr lay + 1536 * TxDescIdx st) mod 2 ^ 32 ∧
      DESC1 d' = 0 ∧
      DESC2 d' = length ∧
      Z.land (DESC3 d') (Z.ones 16) = length ∧
      Z.testbit (DESC3 d') 31 = true ∧
      Z.testbit (DESC3 d') 29 = true ∧
      Z.testbit (DESC3 d') 28 = true ∧
      Z.testbit (DESC3 d') 17 = true ∧
      Z.testbit (DESC3 d') 16 = true ∧
      (BackupAddr0 d', BackupAddr1 d', Reserved0 d', Reserved1 d')
      = (BackupAddr0 d, BackupAddr1 d, Reserved0 d, Reserved1 d) ∧
      TxDescIdx st' = (TxDescIdx st + 1) mod ETH_TX_DESC_CNT ∧
      ETH_DMA st'
      = set_DMACTDTPR ((TxDescriptors_addr lay + 32 * TxDescIdx st') mod 2 ^ 32)
                      (ETH_DMA st) ∧
      RxDescriptors st' = RxDescriptors st ∧
      RxBuffer st' = RxBuffer st ∧
      RxDescIdx st' = RxDescIdx st) ∧
  (TxDescIdx st = 0 →
   ∀ st4 : state, sends lay (Z.to_nat ETH_TX_DESC_CNT) st st4 → TxDescIdx st4 = 0).
Proof.
  intros Hwf Hd Hown Hlen Hdata Hfit. split.
  - pose proof Hwf as [_ _ _ Htxb [Hi0 Hi1] _].
    unfold ETH_TX_DESC_CNT, ETH_TX_BUF_SIZE in *.
    assert (Hcopy :
      memcpy (TxBuffer st) (Z.to_nat (TxDescIdx st) * Z.to_nat 1536)
             data 0 (Z.to_nat length)
      = Some (take (Z.to_nat (TxDescIdx st * 1536)) (TxBuffer st)
              ++ take (Z.to_nat length) data
              ++ drop (Z.to_nat (TxDescIdx st * 1536 + length)) (TxBuffer st))).
    { rewrite memcpy_Some by lia. rewrite drop_0.
      repeat f_equal; lia. }
    pose proof (ETH_SendFrame_free lay st data length d _ Hd Hown Hcopy) as Hs.
    destruct (tx_control_word length Hlen) as (H31 & H29 & H28 & H17 & H16 & Hlow).
    eexists _, _. split; [exact Hs|].
    split; [by eapply ETH_SendFrame_wf|]. simpl.
    split; [done|]. split; [done|]. split; [done|]. split; [done|].
    split.
    { unfold ETH_TDES2_B1L_MASK. change 16383 with (Z.ones 14).
      rewrite Z.land_ones by lia. apply Z.mod_small. lia. }
    do 7 (split; [done|]).
    split; [by rewrite u32_small by lia|]. done.
  - intros H0 st4 Hsends.
    apply sends_cursor in Hsends; [|rewrite H0; unfold ETH_TX_DESC_CNT; lia].
    rewrite Hsends, H0. reflexivity.
Qed.

(** *** The capacity of the ring *)

Lemma send_all_app (lay : layout) (st : state) (fs gs : list (list Z)) :
  send_all lay st (fs ++ gs)
  = '(st1, r1) ← send_all lay st fs;
    '(st2, r2) ← send_all lay st1 gs;
    Some (st2, r1 ++ r2).
Proof.
  revert st. induction fs as [|f fs IH]; intros st; simpl.
  - destruct (send_all lay st gs) as [[st2 r2]|]; reflexivity.
  - destruct (ETH_SendFrame lay st f _) as [[st1 r]|]; [simpl|done].
    rewrite IH.
    destruct (send_all lay st1 fs) as [[st2 r1]|]; [simpl|done].
    destruct (send_all lay st2 gs) as [[st3 r2]|]; reflexivity.
Qed.

(** One call on a free descriptor with a frame that fits the slot. *)
Lemma ETH_SendFrame_step (lay : layout) (st : state) (f : list Z)
    (d : ETH_DMADescTypeDef) :
  wf st →
  TxDescriptors st !! Z.to_nat (TxDescIdx st) = Some d →
  Z.testbit (DESC3 d) 31 = false →
  (length f ≤ Z.to_nat ETH_TX_BUF_SIZE)%nat →
  ∃ (st' : state) (d' : ETH_DMADescTypeDef),
    ETH_SendFrame lay st f (Z.of_nat (length f)) = Some (st', 1) ∧
    wf st' ∧
    TxDescIdx st' = (TxDescIdx st + 1) mod ETH_TX_DESC_CNT ∧
    TxDescriptors st' = <[Z.to_nat (TxDescIdx st) := d']> (TxDescriptors st) ∧
    Z.testbit (DESC3 d') 31 = true.
Proof.
  intros Hwf Hd Hown Hfit.
  pose proof Hwf as [_ _ _ Htxb [Hi0 Hi1] _].
  unfold ETH_TX_DESC_CNT, ETH_TX_BUF_SIZE in *.
  assert (Hlen : 0 <= Z.of_nat (length f) < 2 ^ 16) by lia.
  destruct (memcpy (TxBuffer st) (Z.to_nat (TxDescIdx st) * Z.to_nat 1536) f 0
              (Z.to_nat (Z.of_nat (length f)))) as [buf|] eqn:Hcopy;
    [|rewrite memcpy_Some in Hcopy by lia; done].
  pose proof (ETH_SendFrame_free lay st f _ d buf Hd Hown Hcopy) as Hs.
  destruct (tx_control_word _ Hlen) as (H31 & _).
  eexists _, _. split; [exact Hs|].
  split; [by eapply ETH_SendFrame_wf|]. simpl.
  split; [by rewrite u32_small by lia|]. done.
Qed.

(** Four frames on a ring whose four descriptors are free, with no
    draining: all four calls return 1, the cursor is where it started, and
    every later call returns 0 and changes nothing. *)
Lemma send_all_ring_capacity (lay : layout) (st : state)
    (f1 f2 f3 f4 : list Z) :
  wf st →
  (∀ (i : nat) (d : ETH_DMADescTypeDef),
     TxDescriptors st !! i = Some d → Z.testbit (DESC3 d) 31 = false) →
  Forall (λ f, (length f ≤ Z.to_nat ETH_TX_BUF_SIZE)%nat) [f1; f2; f3; f4] →
  ∃ st4 : state,
    send_all lay st [f1; f2; f3; f4] = Some (st4, [1; 1; 1; 1]) ∧
    TxDescIdx st4 = TxDescIdx st ∧
    ∀ more : list (list Z),
      send_all lay st ([f1; f2; f3; f4] ++ more)
      = Some (st4, [1; 1; 1; 1] ++ replicate (length more) 0).
Proof.
  intros Hwf Hfree Hfit.
  apply Forall_cons in Hfit as [Hf1 Hfit]. apply Forall_cons in Hfit as [Hf2 Hfit].
  apply Forall_cons in Hfit as [Hf3 Hfit]. apply Forall_cons in Hfit as [Hf4 _].
  pose proof Hwf as [_ Htxd _ _ Hidx _].
  destruct (TxDescriptors st) as [|d0 [|d1 [|d2 [|d3 [|]]]]] eqn:Hds; try done.
  assert (F0 : Z.testbit (DESC3 d0) 31 = false) by (by apply (Hfree 0%nat)).
  assert (F1 : Z.testbit (DESC3 d1) 31 = false) by (by apply (Hfree 1%nat)).
  assert (F2 : Z.testbit (DESC3 d2) 31 = false) by (by apply (Hfree 2%nat)).
  assert (F3 : Z.testbit (DESC3 d3) 31 = false) by (by apply (Hfree 3%nat)).
  clear Hfree Htxd. unfold ETH_TX_DESC_CNT in Hidx.
  assert (Hc : TxDescIdx st = 0 ∨ TxDescIdx st = 1 ∨ TxDescIdx st = 2
               ∨ TxDescIdx st = 3) by lia.
  assert (Hfour :
    ∃ (st4 : state) (d : ETH_DMADescTypeDef),
      send_all lay st [f1; f2; f3; f4] = Some (st4, [1; 1; 1; 1]) ∧
      TxDescIdx st4 = TxDescIdx st ∧
      TxDescriptors st4 !! Z.to_nat (TxDescIdx st4) = Some d ∧
      Z.testbit (DESC3 d) 31 = true).
  { destruct Hc as [Hc|[Hc|[Hc|Hc]]].
    all: destruct (ETH_SendFrame_step lay st f1 _ Hwf
                     ltac:(rewrite Hds, Hc; reflexivity) ltac:(eassumption) Hf1)
           as (st1 & e1 & Hs1 & Hwf1 & Hi1 & Hd1 & Ho1);
         rewrite Hds, Hc in Hd1; simpl in Hd1; rewrite Hc in Hi1;
         eval_cursor Hi1.
    all: destruct (ETH_SendFrame_step lay st1 f2 _ Hwf1
                     ltac:(rewrite Hd1, Hi1; reflexivity) ltac:(eassumption) Hf2)
           as (st2 & e2 & Hs2 & Hwf2 & Hi2 & Hd2 & Ho2);
         rewrite Hd1, Hi1 in Hd2; simpl in Hd2; rewrite Hi1 in Hi2;
         eval_cursor Hi2.
    all: destruct (ETH_SendFrame_step lay st2 f3 _ Hwf2
                     ltac:(rewrite Hd2, Hi2; reflexivity) ltac:(eassumption) Hf3)
           as (st3 & e3 & Hs3 & Hwf3 & Hi3 & Hd3 & Ho3);
         rewrite Hd2, Hi2 in Hd3; simpl in Hd3; rewrite Hi2 in Hi3;
         eval_cursor Hi3.
    all: destruct (ETH_SendFrame_step lay st3 f4 _ Hwf3
                     ltac:(rewrite Hd3, Hi3; reflexivity) ltac:(eassumption) Hf4)
           as (st4 & e4 & Hs4 & Hwf4 & Hi4 & Hd4 & Ho4);
         rewrite Hd3, Hi3 in Hd4; simpl in Hd4; rewrite Hi3 in Hi4;
         eval_cursor Hi4.
    all: exists st4; eexists; simpl; rewrite Hs1; simpl; rewrite Hs2; simpl;
         rewrite Hs3; simpl; rewrite Hs4; simpl.
    all: split; [reflexivity|]; split; [congruence|].
    all: rewrite Hd4, Hi4; simpl; split; [reflexivity|assumption]. }
  destruct Hfour as (st4 & d & Hs & Hi & Hd & Ho).
  exists st4. split; [exact Hs|]. split; [exact Hi|].
  intros more. rewrite send_all_app, Hs. simpl.
  rewrite (send_all_owned lay st4 d more Hd Ho). reflexivity.
Qed.

Lemma reset_state_wf : wf reset_state.
Proof. constructor; simpl; try reflexivity; unfold ETH_TX_DESC_CNT, ETH_RX_DESC_CNT; lia. Qed.

Lemma C2_send_success_witness :
  wf reset_state ∧
  TxDescriptors reset_state !! Z.to_nat (TxDescIdx reset_state) = Some zero_desc ∧
  Z.testbit (DESC3 zero_desc) 31 = false ∧
  0 <= 64 < 2 ^ 16 ∧
  (Z.to_nat 64 ≤ List.length (replicate 64 0xAA))%nat ∧
  TxDescIdx reset_state * ETH_TX_BUF_SIZE + 64 <= ETH_TX_DESC_CNT * ETH_TX_BUF_SIZE ∧
  wf tx_cursor_at_3 ∧
  TxDescIdx tx_cursor_at_3 * ETH_TX_BUF_SIZE + 64 <= ETH_TX_DESC_CNT * ETH_TX_BUF_SIZE ∧
  (∃ st' : state,
     ETH_SendFrame sample_layout reset_state (replicate 64 0xAA) 64 = Some (st', 1) ∧
     take 64 (TxBuffer st') = replicate 64 0xAA ∧
     DESC0 <$> TxDescriptors st' !! 0%nat = Some 0x24001900 ∧
     TxDescIdx st' = 1 ∧
     DMACTDTPR (ETH_DMA st') = 0x240000A0) ∧
  (∃ st' : state,
     ETH_SendFrame sample_layout tx_cursor_at_3 (replicate 64 0xAA) 64
     = Some (st', 1) ∧
     DESC0 <$> TxDescriptors st' !! 3%nat = Some 0x24002B00 ∧
     TxDescIdx st' = 0 ∧
     DMACTDTPR (ETH_DMA st') = 0x24000080).
Proof.
  assert (H1 : TxDescriptors reset_state !! Z.to_nat (TxDescIdx reset_state)
               = Some zero_desc) by reflexivity.
  assert (H2 : Z.testbit (DESC3 zero_desc) 31 = false) by reflexivity.
  assert (H3 : 0 <= 64 < 2 ^ 16) by lia.
  assert (H4 : (Z.to_nat 64 ≤ List.length (replicate 64 0xAA))%nat)
    by (vm_compute; lia).
  assert (H5 : TxDescIdx reset_state * ETH_TX_BUF_SIZE + 64
               <= ETH_TX_DESC_CNT * ETH_TX_BUF_SIZE) by (vm_compute; discriminate).
  assert (H6 : wf tx_cursor_at_3).
  { constructor; try (vm_compute; reflexivity);
      unfold ETH_TX_DESC_CNT, ETH_RX_DESC_CNT; simpl; lia. }
  assert (H7 : TxDescIdx tx_cursor_at_3 * ETH_TX_BUF_SIZE + 64
               <= ETH_TX_DESC_CNT * ETH_TX_BUF_SIZE) by (vm_compute; discriminate).
  do 8 (split; [first [exact reset_state_wf | assumption]|]).
  split.
  - destruct (C2_send_success sample_layout reset_state (replicate 64 0xAA) 64
                zero_desc reset_state_wf H1 H2 H3 H4 H5)
      as [(st' & d' & Hs & _ & Hbuf & Hdescs & Hd0 & _ & _ & _ & _ & _ & _ & _
           & _ & _ & Hidx & Hdma & _) _].
    exists st'. split; [exact Hs|]. split; [|split; [|split]].
    + rewrite Hbuf. reflexivity.
    + rewrite Hdescs. change (Z.to_nat (TxDescIdx reset_state)) with 0%nat.
      rewrite list_lookup_insert_eq by (simpl; lia). simpl. rewrite Hd0.
      reflexivity.
    + rewrite Hidx. reflexivity.
    + rewrite Hdma, Hidx. reflexivity.
  - destruct (C2_send_success sample_layout tx_cursor_at_3 (replicate 64 0xAA) 64
                zero_desc H6 H1 H2 H3 H4 H7)
      as [(st' & d' & Hs & _ & _ & Hdescs & Hd0 & _ & _ & _ & _ & _ & _ & _
           & _ & _ & Hidx & Hdma & _) _].
    exists st'. split; [exact Hs|]. split; [|split].
    + rewrite Hdescs. change (Z.to_nat (TxDescIdx tx_cursor_at_3)) with 3%nat.
      rewrite list_lookup_insert_eq by (simpl; lia). simpl. rewrite Hd0.
      reflexivity.
    + rewrite Hidx. reflexivity.
    + rewrite Hdma, Hidx. reflexivity.
Defined.

(** The scenario of the specification: a freshly initialised 4-slot ring,
    five 64-byte frames and no draining.  Calls 1 to 4 return 1, the cursor
    is back at 0, and the fifth call finds slot 0 still with the DMA engine. *)
Example send_five_on_fresh_ring :
  ∃ st4 : state,
    send_all sample_layout (ETH_InitDescriptors sample_layout reset_state)
             (replicate 5 (replicate 64 0xAA))
    = Some (st4, [1; 1; 1; 1; 0]) ∧
    TxDescIdx st4 = 0 ∧
    slot ETH_TX_BUF_SIZE 0 (TxBuffer st4)
    = replicate 64 0xAA ++ replicate (1536 - 64) 0.
Proof. eexists. split; [vm_compute; reflexivity|]. split; vm_compute; reflexivity. Qed.

(** ** Receive path *)

Lemma ETH_ReceiveFrame_owned (lay : layout) (st : state) (buffer : list Z)
    (max_length : Z) (d : ETH_DMADescTypeDef) :
  RxDescriptors st !! Z.to_nat (RxDescIdx st) = Some d →
  Z.testbit (DESC3 d) 31 = true →
  ETH_ReceiveFrame lay st buffer max_length = Some (st, buffer, 0).
Proof.
  intros Hd Hown. unfold ETH_ReceiveFrame. rewrite Hd. simpl.
  unfold ETH_RDES3_OWN. rewrite bits_set_bit by lia. by rewrite Hown.
Qed.

Lemma ETH_ReceiveFrame_error (lay : layout) (st : state) (buffer : list Z)
    (max_length : Z) (d : ETH_DMADescTypeDef) :
  RxDescriptors st !! Z.to_nat (RxDescIdx st) = Some d →
  Z.testbit (DESC3 d) 31 = false →
  Z.testbit (DESC3 d) 15 = true →
  ETH_ReceiveFrame lay st buffer max_length
  = Some (mkState
            (<[Z.to_nat (RxDescIdx st) :=
                 mkDesc (RxBuffer_ptr lay (RxDescIdx st)) (DESC1 d) (DESC2 d)
                        rx_rearm
                        (BackupAddr0 d) (BackupAddr1 d) (Reserved0 d) (Reserved1 d)]>
               (RxDescriptors st))
            (TxDescriptors st) (RxBuffer st) (TxBuffer st) (TxDescIdx st)
            (u32 (RxDescIdx st + 1) mod ETH_RX_DESC_CNT) (ETH_DMA st),
          buffer, 0).
Proof.
  intros Hd Hown Hes. unfold ETH_ReceiveFrame. rewrite Hd. simpl.
  unfold ETH_RDES3_OWN, ETH_RDES3_ES. rewrite !bits_set_bit by lia.
  by rewrite Hown, Hes.
Qed.

Lemma ETH_ReceiveFrame_frame (lay : layout) (st : state) (buffer : list Z)
    (max_length : Z) (d : ETH_DMADescTypeDef) (buffer' : list Z) :
  RxDescriptors st !! Z.to_nat (RxDescIdx st) = Some d →
  Z.testbit (DESC3 d) 31 = false →
  Z.testbit (DESC3 d) 15 = false →
  memcpy buffer 0 (RxBuffer st) (Z.to_nat (RxDescIdx st) * Z.to_nat ETH_RX_BUF_SIZE)
         (Z.to_nat (Z.min (Z.land (DESC3 d) ETH_RDES3_PL_MASK) max_length))
  = Some buffer' →
  ETH_ReceiveFrame lay st buffer max_length
  = Some (mkState
            (<[Z.to_nat (RxDescIdx st) :=
                 mkDesc (RxBuffer_ptr lay (RxDescIdx st)) (DESC1 d) (DESC2 d)
                        rx_rearm
                        (BackupAddr0 d) (BackupAddr1 d) (Reserved0 d) (Reserved1 d)]>
               (RxDescriptors st))
            (TxDescriptors st) (RxBuffer st) (TxBuffer st) (TxDescIdx st)
            (u32 (RxDescIdx st + 1) mod ETH_RX_DESC_CNT)
            (set_DMACRDTPR
               (RxDescriptor_ptr lay (u32 (RxDescIdx st + 1) mod ETH_RX_DESC_CNT))
               (ETH_DMA st)),
          buffer', Z.min (Z.land (DESC3 d) ETH_RDES3_PL_MASK) max_length).
Proof.
  intros Hd Hown Hes Hcopy. unfold ETH_ReceiveFrame. rewrite Hd. simpl.
  unfold ETH_RDES3_OWN, ETH_RDES3_ES. rewrite !bits_set_bit by lia.
  rewrite Hown, Hes.
  assert (Hpl : 0 <= Z.land (DESC3 d) ETH_RDES3_PL_MASK < 2 ^ 15).
  { unfold ETH_RDES3_PL_MASK. change 32767 with (Z.ones 15).
    rewrite Z.land_ones by lia. apply Z.mod_pos_bound. lia. }
  rewrite u16_small by lia.
  assert (Hmin : (if Z.land (DESC3 d) ETH_RDES3_PL_MASK >? max_length
                  then max_length else Z.land (DESC3 d) ETH_RDES3_PL_MASK)
                 = Z.min (Z.land (DESC3 d) ETH_RDES3_PL_MASK) max_length).
  { destruct (Z.gtb_spec (Z.land (DESC3 d) ETH_RDES3_PL_MASK) max_length); lia. }
  rewrite Hmin, Hcopy. reflexivity.
Qed.

Lemma ETH_ReceiveFrame_wf (lay : layout) (st st' : state)
    (buffer buffer' : list Z) (max_length r : Z) :
  wf st → ETH_ReceiveFrame lay st buffer max_length = Some (st', buffer', r) →
  wf st'.
Proof.
  intros [] Hs. unfold ETH_ReceiveFrame in Hs.
  assert (Hnext : 0 <= u32 (RxDescIdx st + 1) mod ETH_RX_DESC_CNT < ETH_RX_DESC_CNT)
    by (apply Z.mod_pos_bound; reflexivity).
  destruct (RxDescriptors st !! Z.to_nat (RxDescIdx st)) as [d|]; [simpl in Hs|done].
  destruct (bits_set (DESC3 d) ETH_RDES3_OWN).
  { injection Hs as <- <- <-. by constructor. }
  destruct (bits_set (DESC3 d) ETH_RDES3_ES).
  { injection Hs as <- <- <-. constructor; simpl; rewrite ?length_insert; done. }
  destruct (memcpy _ _ _ _ _) as [buf|] eqn:Hc; [simpl in Hs|done].
  injection Hs as <- <- <-.
  constructor; simpl; rewrite ?length_insert; done.
Qed.

Lemma receive_copy_defined (st : state) (buffer : list Z) (n : Z) :
  wf st → 0 <= n →
  (Z.to_nat n ≤ List.length buffer)%nat →
  RxDescIdx st * ETH_RX_BUF_SIZE + n <= ETH_RX_DESC_CNT * ETH_RX_BUF_SIZE →
  memcpy buffer 0 (RxBuffer st) (Z.to_nat (RxDescIdx st) * Z.to_nat ETH_RX_BUF_SIZE)
         (Z.to_nat n)
  = Some (take (Z.to_nat n)
               (drop (Z.to_nat (RxDescIdx st * ETH_RX_BUF_SIZE)) (RxBuffer st))
          ++ drop (Z.to_nat n) buffer).
Proof.
  intros [_ _ Hrxb _ _ [Hi0 Hi1]] Hn0 Hbuf Hfit.
  unfold ETH_RX_DESC_CNT, ETH_RX_BUF_SIZE in *.
  rewrite memcpy_Some by lia. rewrite take_0. simpl.
  repeat f_equal; lia.
Qed.


Lemma rx_good_frame_wf : wf rx_good_frame.
Proof.
  constructor; try (vm_compute; reflexivity);
    unfold ETH_TX_DESC_CNT, ETH_RX_DESC_CNT; simpl; lia.
Qed.

Lemma rx_error_frame_wf : wf rx_error_frame.
Proof.
  constructor; try (vm_compute; reflexivity);
    unfold ETH_TX_DESC_CNT, ETH_RX_DESC_CNT; simpl; lia.
Qed.


(** C4. [ETH_ReceiveFrame] on a descriptor software owns whose error
    summary bit (RDES3 bit 15) is set: the call returns 0, the same value as
    for "no frame"; the caller's buffer is untouched; the descriptor is
    re-armed, its word 3 being OWN | IOC | BUF1V, so bit 31 is set again;
    the cursor is [(RxDescIdx + 1) mod 4]. *)
Theorem C4_receive_error_frame (lay : layout) (st : state) (buffer : list Z)
    (max_length : Z) (d : ETH_DMADescTypeDef) :
  wf st →
  RxDescriptors st !! Z.to_nat (RxDescIdx st) = Some d →
  Z.testbit (DESC3 d) 31 = false →
  Z.testbit (DESC3 d) 15 = true →
  ∃ (st' : state) (d' : ETH_DMADescTypeDef),
    ETH_ReceiveFrame lay st buffer max_length = Some (st', buffer, 0) ∧
    wf st' ∧
    RxDescriptors st' !! Z.to_nat (RxDescIdx st) = Some d' ∧
    Z.testbit (DESC3 d') 31 = true ∧
    DESC3 d' = Z.lor (Z.lor ETH_RDES3_OWN ETH_RDES3_IOC) ETH_RDES3_BUF1V ∧
    DESC0 d' = RxBuffer_ptr lay (RxDescIdx st) ∧
    RxDescIdx st' = (RxDescIdx st + 1) mod ETH_RX_DESC_CNT.
Proof.
  intros Hwf Hd Hown Hes.
  pose proof (ETH_ReceiveFrame_error lay st buffer max_length d Hd Hown Hes) as Hs.
  pose proof Hwf as [Hrxd _ _ _ _ [Hi0 Hi1]].
  unfold ETH_RX_DESC_CNT in *.
  eexists _, _. split; [exact Hs|].
  split; [by eapply ETH_ReceiveFrame_wf|]. simpl.
  split; [apply list_lookup_insert_eq; lia|].
  do 3 (split; [done|]).
  by rewrite u32_small by lia.
Qed.

Lemma C4_receive_error_frame_witness :
  wf rx_error_frame ∧
  RxDescriptors rx_error_frame !! Z.to_nat (RxDescIdx rx_error_frame)
    = Some rx_error_desc ∧
  Z.testbit (DESC3 rx_error_desc) 31 = false ∧
  Z.testbit (DESC3 rx_error_desc) 15 = true ∧
  ∃ (st' : state) (d' : ETH_DMADescTypeDef),
    ETH_ReceiveFrame sample_layout rx_error_frame (replicate 1518 0) 1518
    = Some (st', replicate 1518 0, 0) ∧
    RxDescriptors st' !! 0%nat = Some d' ∧
    Z.testbit (DESC3 d') 31 = true ∧
    RxDescIdx st' = 1.
Proof.
  assert (H1 : RxDescriptors rx_error_frame !! Z.to_nat (RxDescIdx rx_error_frame)
               = Some rx_error_desc) by reflexivity.
  assert (H2 : Z.testbit (DESC3 rx_error_desc) 31 = false) by reflexivity.
  assert (H3 : Z.testbit (DESC3 rx_error_desc) 15 = true) by reflexivity.
  do 4 (split; [first [exact rx_error_frame_wf | assumption]|]).
  destruct (C4_receive_error_frame sample_layout rx_error_frame (replicate 1518 0)
              1518 rx_error_desc rx_error_frame_wf H1 H2 H3)
    as (st' & d' & Hs & _ & Hd' & Hown & _ & _ & Hidx).
  exists st', d'. split; [exact Hs|]. split; [exact Hd'|]. split; [exact Hown|].
  rewrite Hidx. reflexivity.
Defined.

(** C9. The two branches of [ETH_ReceiveFrame] on a descriptor software
    owns differ in the tail pointer.  In the error branch the whole DMA
    register block, [DMACRDTPR] included, is as before the call; only the
    descriptor under the cursor and the RX cursor change.  In the branch
    that delivers a frame [DMACRDTPR] is written with the address of the
    descriptor at the new cursor. *)
Theorem C9_error_branch_keeps_tail_pointer (lay : layout) (st : state)
    (buffer : list Z) (max_length : Z) (d : ETH_DMADescTypeDef) :
  wf st →
  RxDescriptors st !! Z.to_nat (RxDescIdx st) = Some d →
  Z.testbit (DESC3 d) 31 = false →
  (Z.testbit (DESC3 d) 15 = true →
   ∃ st' : state,
     ETH_ReceiveFrame lay st buffer max_length = Some (st', buffer, 0) ∧
     DMACRDTPR (ETH_DMA st') = DMACRDTPR (ETH_DMA st) ∧
     ETH_DMA st' = ETH_DMA st ∧
     (∀ j : nat, j ≠ Z.to_nat (RxDescIdx st) →
                 RxDescriptors st' !! j = RxDescriptors st !! j) ∧
     RxBuffer st' = RxBuffer st ∧
     TxDescriptors st' = TxDescriptors st ∧
     TxBuffer st' = TxBuffer st ∧
     TxDescIdx st' = TxDescIdx st ∧
     RxDescIdx st' = (RxDescIdx st + 1) mod ETH_RX_DESC_CNT) ∧
  (Z.testbit (DESC3 d) 15 = false →
   ∀ n : Z,
     n = Z.min (Z.land (DESC3 d) (Z.ones 15)) max_length →
     0 <= max_length →
     (Z.to_nat n ≤ List.length buffer)%nat →
     RxDescIdx st * ETH_RX_BUF_SIZE + n <= ETH_RX_DESC_CNT * ETH_RX_BUF_SIZE →
     ∃ (st' : state) (buffer' : list Z),
       ETH_ReceiveFrame lay st buffer max_length = Some (st', buffer', n) ∧
       RxDescIdx st' = (RxDescIdx st + 1) mod ETH_RX_DESC_CNT ∧
       DMACRDTPR (ETH_DMA st') = RxDescriptor_ptr lay (RxDescIdx st')).
Proof.
  intros Hwf Hd Hown.
  pose proof Hwf as [_ _ _ _ _ [Hi0 Hi1]].
  split.
  - intros Hes.
    pose proof (ETH_ReceiveFrame_error lay st buffer max_length d Hd Hown Hes) as Hs.
    eexists. split; [exact Hs|]. simpl.
    do 2 (split; [done|]).
    split; [intros j Hj; by rewrite list_lookup_insert_ne|].
    do 4 (split; [done|]).
    unfold ETH_RX_DESC_CNT in *. by rewrite u32_small by lia.
  - intros Hes n Hn Hmax Hbuf Hfit.
    change (Z.ones 15) with ETH_RDES3_PL_MASK in Hn.
    assert (Hn0 : 0 <= n).
    { subst n. apply Z.min_glb; [|lia]. apply Z.land_nonneg. right. done. }
    pose proof (receive_copy_defined st buffer n Hwf Hn0 Hbuf Hfit) as Hcopy.
    rewrite Hn in Hcopy.
    pose proof (ETH_ReceiveFrame_frame lay st buffer max_length d _ Hd Hown Hes Hcopy)
      as Hs.
    rewrite <- Hn in Hs.
    eexists _, _. split; [exact Hs|]. simpl.
    unfold ETH_RX_DESC_CNT in *. by rewrite u32_small by lia.
Qed.

Lemma C9_error_branch_witness :
  (wf rx_error_frame ∧
   RxDescriptors rx_error_frame !! Z.to_nat (RxDescIdx rx_error_frame)
     = Some rx_error_desc ∧
   Z.testbit (DESC3 rx_error_desc) 31 = false ∧
   Z.testbit (DESC3 rx_error_desc) 15 = true ∧
   ∃ st' : state,
     ETH_ReceiveFrame sample_layout rx_error_frame (replicate 1518 0) 1518
     = Some (st', replicate 1518 0, 0) ∧
     RxDescIdx st' = 1 ∧
     DMACRDTPR (ETH_DMA st') = RxDescriptor_ptr sample_layout 3 ∧
     DMACRDTPR (ETH_DMA st') ≠ RxDescriptor_ptr sample_layout (RxDescIdx st')) ∧
  (wf rx_good_frame ∧
   RxDescriptors rx_good_frame !! Z.to_nat (RxDescIdx rx_good_frame)
     = Some rx_good_desc ∧
   Z.testbit (DESC3 rx_good_desc) 31 = false ∧
   Z.testbit (DESC3 rx_good_desc) 15 = false ∧
   64 = Z.min (Z.land (DESC3 rx_good_desc) (Z.ones 15)) 1518 ∧
   0 <= 1518 ∧
   (Z.to_nat 64 ≤ List.length (replicate 1518 0))%nat ∧
   RxDescIdx rx_good_frame * ETH_RX_BUF_SIZE + 64
     <= ETH_RX_DESC_CNT * ETH_RX_BUF_SIZE ∧
   ∃ (st' : state) (buffer' : list Z),
     ETH_ReceiveFrame sample_layout rx_good_frame (replicate 1518 0) 1518
     = Some (st', buffer', 64) ∧
     RxDescIdx st' = 1 ∧
     DMACRDTPR (ETH_DMA st') = RxDescriptor_ptr sample_layout 1).
Proof.
  split.
  - assert (H1 : RxDescriptors rx_error_frame !! Z.to_nat (RxDescIdx rx_error_frame)
                 = Some rx_error_desc) by reflexivity.
    assert (H2 : Z.testbit (DESC3 rx_error_desc) 31 = false) by reflexivity.
    assert (H3 : Z.testbit (DESC3 rx_error_desc) 15 = true) by reflexivity.
    do 4 (split; [first [exact rx_error_frame_wf | assumption]|]).
    destruct (C9_error_branch_keeps_tail_pointer sample_layout rx_error_frame
                (replicate 1518 0) 1518 rx_error_desc rx_error_frame_wf H1 H2)
      as [Herr _].
    destruct (Herr H3) as (st' & Hs & Htail & _ & _ & _ & _ & _ & _ & Hidx).
    exists st'. split; [exact Hs|].
    split; [rewrite Hidx; reflexivity|].
    split; [rewrite Htail; reflexivity|].
    rewrite Htail, Hidx. vm_compute. discriminate.
  - assert (H1 : RxDescriptors rx_good_frame !! Z.to_nat (RxDescIdx rx_good_frame)
                 = Some rx_good_desc) by reflexivity.
    assert (H2 : Z.testbit (DESC3 rx_good_desc) 31 = false) by reflexivity.
    assert (H3 : Z.testbit (DESC3 rx_good_desc) 15 = false) by reflexivity.
    assert (H4 : 64 = Z.min (Z.land (DESC3 rx_good_desc) (Z.ones 15)) 1518)
      by reflexivity.
    assert (H5 : 0 <= 1518) by lia.
    assert (H6 : (Z.to_nat 64 ≤ List.length (replicate 1518 0))%nat)
      by (vm_compute; lia).
    assert (H7 : RxDescIdx rx_good_frame * ETH_RX_BUF_SIZE + 64
                 <= ETH_RX_DESC_CNT * ETH_RX_BUF_SIZE) by (vm_compute; discriminate).
    do 8 (split; [first [exact rx_good_frame_wf | assumption]|]).
    destruct (C9_error_branch_keeps_tail_pointer sample_layout rx_good_frame
                (replicate 1518 0) 1518 rx_good_desc rx_good_frame_wf H1 H2)
      as [_ Hgood].
    destruct (Hgood H3 64 H4 H5 H6 H7) as (st' & buffer' & Hs & Hidx & Htail).
    exists st', buffer'. split; [exact Hs|].
    split; [rewrite Hidx; reflexivity|].
    rewrite Htail, Hidx. reflexivity.
Defined.

(** An error frame followed by a good one: the tail pointer moves only with
    the second call, and then to the descriptor after both. *)
Example error_then_good_frame :
  ∃ st1 st2 : state,
    ETH_ReceiveFrame sample_layout rx_error_frame (replicate 1518 0) 1518
    = Some (st1, replicate 1518 0, 0) ∧
    DMACRDTPR (ETH_DMA st1) = RxDescriptor_ptr sample_layout 3 ∧
    ETH_ReceiveFrame sample_layout
      (rx_write_back st1 1 (replicate 64 0x55) (Z.lor (Z.lor (2 ^ 29) (2 ^ 28)) 64))
      (replicate 1518 0) 1518
    = Some (st2, replicate 64 0x55 ++ replicate 1454 0, 64) ∧
    DMACRDTPR (ETH_DMA st2) = RxDescriptor_ptr sample_layout 2.
Proof.
  eexists _, _. split; [vm_compute; reflexivity|].
  split; [vm_compute; reflexivity|].
  split; vm_compute; reflexivity.
Qed.

(** ** Ring initialisation *)

Lemma foldl_alter_seq_lookup (body : nat → ETH_DMADescTypeDef → ETH_DMADescTypeDef)
    (k a j : nat) (l : list ETH_DMADescTypeDef) :
  foldl (λ l i, alter (body i) i l) l (seq a k) !! j
  = if decide (a ≤ j < a + k)%nat then body j <$> l !! j else l !! j.
Proof.
  revert a l. induction k as [|k IH]; intros a l; simpl.
  - rewrite decide_False by lia. done.
  - rewrite IH. destruct (decide (j = a)) as [->|Hne].
    + rewrite decide_False by lia. rewrite decide_True by lia.
      apply list_lookup_alter_eq.
    + rewrite list_lookup_alter_ne by done.
      destruct (decide (S a ≤ j < S a + k)%nat).
      * by rewrite decide_True by lia.
      * by rewrite decide_False by lia.
Qed.

Lemma for_each_desc_length cnt body (l : list ETH_DMADescTypeDef) :
  length (for_each_desc cnt body l) = length l.
Proof.
  unfold for_each_desc. generalize (seq 0 (Z.to_nat cnt)). intros ix.
  revert l. induction ix as [|i ix IH]; intros l; simpl; [done|].
  by rewrite IH, length_alter.
Qed.

Lemma for_each_desc_lookup cnt body (l : list ETH_DMADescTypeDef) (i : nat)
    (d : ETH_DMADescTypeDef) :
  length l = Z.to_nat cnt →
  for_each_desc cnt body l !! i = Some d →
  ∃ d0, l !! i = Some d0 ∧ d = body i d0.
Proof.
  intros Hl Hd. unfold for_each_desc in Hd.
  rewrite foldl_alter_seq_lookup in Hd.
  destruct (decide _) as [Hi|Hi].
  - destruct (l !! i) as [d0|]; [|done]. injection Hd as <-. by exists d0.
  - apply lookup_lt_Some in Hd. lia.
Qed.



(** ** Transmit path: where the copy writes *)

Lemma memcpy_lookup_outside (dst src dst' : list Z) (doff soff n j : nat) :
  memcpy dst doff src soff n = Some dst' →
  (j < doff ∨ doff + n ≤ j)%nat →
  dst' !! j = dst !! j.
Proof.
  intros Hc Hj. apply memcpy_inserts in Hc as [-> Hn].
  destruct Hj.
  - by apply list_lookup_inserts_lt.
  - apply list_lookup_inserts_ge. lia.
Qed.

Lemma memcpy_lookup_inside (dst src dst' : list Z) (doff soff n j : nat) :
  memcpy dst doff src soff n = Some dst' →
  (j < n)%nat →
  dst' !! (doff + j)%nat = src !! (soff + j)%nat.
Proof.
  intros Hc Hj. pose proof Hc as Hc'. apply memcpy_inv in Hc' as (Hd & _ & _).
  apply memcpy_inserts in Hc as [-> Hn].
  rewrite list_lookup_inserts by lia.
  replace (doff + j - doff)%nat with j by lia.
  by rewrite lookup_take_lt, lookup_drop by lia.
Qed.

Lemma slot_lookup (size : Z) (i j : nat) (buf : list Z) :
  slot size i buf !! j
  = if decide (j < Z.to_nat size)%nat then buf !! (i * Z.to_nat size + j)%nat
    else None.
Proof. unfold slot. rewrite lookup_take. case_decide; [|done]. apply lookup_drop. Qed.

(** A call on a free descriptor, seen from its result. *)
Lemma ETH_SendFrame_free_inv (lay : layout) (st st' : state) (data : list Z)
    (length r : Z) (d : ETH_DMADescTypeDef) :
  TxDescriptors st !! Z.to_nat (TxDescIdx st) = Some d →
  Z.testbit (DESC3 d) 31 = false →
  ETH_SendFrame lay st data length = Some (st', r) →
  r = 1 ∧
  memcpy (TxBuffer st) (Z.to_nat (TxDescIdx st) * Z.to_nat ETH_TX_BUF_SIZE)
         data 0 (Z.to_nat length) = Some (TxBuffer st').
Proof.
  intros Hd Hown Hs.
  destruct (memcpy (TxBuffer st) (Z.to_nat (TxDescIdx st) * Z.to_nat ETH_TX_BUF_SIZE)
              data 0 (Z.to_nat length)) as [buf|] eqn:Hcopy.
  - rewrite (ETH_SendFrame_free lay st data length d buf Hd Hown Hcopy) in Hs.
    by injection Hs as <- <-.
  - exfalso. revert Hs. unfold ETH_SendFrame. rewrite Hd. simpl.
    unfold ETH_TDES3_OWN at 1. rewrite bits_set_bit by lia.
    rewrite Hown, Hcopy. done.
Qed.

(** C8. [ETH_SendFrame] on a free descriptor, with [length] at most the
    slot size 1536: the call is defined, and every byte of [TxBuffer] that
    differs after the call lies at an offset [off + j] with [j < length], so
    inside the slot under the cursor; the slot holds the [length] bytes
    followed by its old tail, and the other three slots are as before.  The
    function itself never shortens the copy nor tests [length]: whatever
    [length] is, a call that is defined has stored all [length] bytes from
    the start of the slot on, and a copy that would run past the end of
    [TxBuffer] is not refused but undefined. *)
Theorem C8_send_copy_in_slot (lay : layout) (st : state) (data : list Z)
    (length : Z) (d : ETH_DMADescTypeDef) :
  wf st →
  TxDescriptors st !! Z.to_nat (TxDescIdx st) = Some d →
  Z.testbit (DESC3 d) 31 = false →
  0 <= length < 2 ^ 16 →
  (Z.to_nat length ≤ List.length data)%nat →
  let idx := Z.to_nat (TxDescIdx st) in
  let off := (idx * Z.to_nat ETH_TX_BUF_SIZE)%nat in
  (length <= ETH_TX_BUF_SIZE →
   ∃ st' : state,
     ETH_SendFrame lay st data length = Some (st', 1) ∧
     (off + Z.to_nat ETH_TX_BUF_SIZE ≤ List.length (TxBuffer st))%nat ∧
     (∀ j : nat, TxBuffer st' !! j ≠ TxBuffer st !! j →
                 (off ≤ j < off + Z.to_nat length)%nat ∧
                 (off ≤ j < off + Z.to_nat ETH_TX_BUF_SIZE)%nat) ∧
     slot ETH_TX_BUF_SIZE idx (TxBuffer st')
     = take (Z.to_nat length) data
       ++ drop (Z.to_nat length) (slot ETH_TX_BUF_SIZE idx (TxBuffer st)) ∧
     (∀ i : nat, i ≠ idx →
        slot ETH_TX_BUF_SIZE i (TxBuffer st') = slot ETH_TX_BUF_SIZE i (TxBuffer st))) ∧
  (∀ (st' : state) (r : Z),
     ETH_SendFrame lay st data length = Some (st', r) →
     ∀ j : nat, (j < Z.to_nat length)%nat →
                TxBuffer st' !! (off + j)%nat = data !! j) ∧
  (ETH_TX_DESC_CNT * ETH_TX_BUF_SIZE < TxDescIdx st * ETH_TX_BUF_SIZE + length →
   ETH_SendFrame lay st data length = None).
Proof.
  intros Hwf Hd Hown Hlen Hdata idx off. subst off.
  pose proof Hwf as [_ _ _ Htxb [Hi0 Hi1] _].
  unfold ETH_TX_DESC_CNT, ETH_TX_BUF_SIZE in *.
  split; [|split].
  - intros Hfit.
    assert (Hdef : (idx * Z.to_nat 1536 + Z.to_nat length ≤ List.length (TxBuffer st))%nat)
      by (subst idx; lia).
    destruct (memcpy (TxBuffer st) (idx * Z.to_nat 1536) data 0 (Z.to_nat length))
      as [buf|] eqn:Hcopy;
      [|by rewrite memcpy_Some in Hcopy].
    pose proof (ETH_SendFrame_free lay st data length d _ Hd Hown Hcopy) as Hs.
    eexists. split; [exact Hs|]. simpl.
    split; [subst idx; lia|].
    split.
    { intros j Hj.
      destruct (decide (idx * Z.to_nat 1536 ≤ j
                       < idx * Z.to_nat 1536 + Z.to_nat length)%nat) as [Hin|Hout];
        [lia|].
      exfalso. apply Hj.
      eapply memcpy_lookup_outside; [exact Hcopy|lia]. }
    split.
    { apply list_eq. intros j. rewrite slot_lookup.
      destruct (decide (j < Z.to_nat length)%nat) as [Hj|Hj].
      - rewrite decide_True by lia.
        rewrite lookup_app_l by (rewrite length_take; lia).
        rewrite lookup_take_lt by lia.
        rewrite (memcpy_lookup_inside _ _ _ _ _ _ j Hcopy) by lia. done.
      - rewrite lookup_app_r by (rewrite length_take; lia).
        rewrite length_take, lookup_drop, slot_lookup.
        replace (Z.to_nat length + (j - Z.to_nat length `min` List.length data))%nat
          with j by lia.
        case_decide; [|done].
        eapply memcpy_lookup_outside; [exact Hcopy|]. subst idx. lia. }
    intros i Hi. apply list_eq. intros j. rewrite !slot_lookup.
    case_decide; [|done].
    eapply memcpy_lookup_outside; [exact Hcopy|]. subst idx. lia.
  - intros st' r Hs j Hj.
    destruct (ETH_SendFrame_free_inv lay st st' data length r d Hd Hown Hs)
      as [_ Hcopy].
    exact (memcpy_lookup_inside _ _ _ _ _ _ j Hcopy Hj).
  - intros Hover. unfold ETH_SendFrame. rewrite Hd. simpl.
    unfold ETH_TDES3_OWN at 1. rewrite bits_set_bit by lia. rewrite Hown.
    rewrite memcpy_None; [done|]. left. unfold ETH_TX_BUF_SIZE. lia.
Qed.

Lemma C8_send_copy_in_slot_witness :
  wf reset_state ∧
  TxDescriptors reset_state !! Z.to_nat (TxDescIdx reset_state) = Some zero_desc ∧
  Z.testbit (DESC3 zero_desc) 31 = false ∧
  0 <= 1536 < 2 ^ 16 ∧
  (Z.to_nat 1536 ≤ List.length (replicate 1536 0xAA))%nat ∧
  1536 <= ETH_TX_BUF_SIZE ∧
  ∃ st' : state,
    ETH_SendFrame sample_layout reset_state (replicate 1536 0xAA) 1536
    = Some (st', 1) ∧
    slot ETH_TX_BUF_SIZE 0 (TxBuffer st') = replicate 1536 0xAA ∧
    slot ETH_TX_BUF_SIZE 1 (TxBuffer st') = replicate 1536 0.
Proof.
  assert (H1 : TxDescriptors reset_state !! Z.to_nat (TxDescIdx reset_state)
               = Some zero_desc) by reflexivity.
  assert (H2 : Z.testbit (DESC3 zero_desc) 31 = false) by reflexivity.
  assert (H3 : 0 <= 1536 < 2 ^ 16) by lia.
  assert (H4 : (Z.to_nat 1536 ≤ List.length (replicate 1536 0xAA))%nat)
    by (vm_compute; lia).
  assert (H5 : 1536 <= ETH_TX_BUF_SIZE) by (vm_compute; discriminate).
  do 6 (split; [first [exact reset_state_wf | assumption]|]).
  destruct (C8_send_copy_in_slot sample_layout reset_state (replicate 1536 0xAA)
              1536 zero_desc reset_state_wf H1 H2 H3 H4) as [Hin _].
  destruct (Hin H5) as (st' & Hs & _ & _ & Hslot & Hothers).
  exists st'. split; [exact Hs|]. split.
  - etransitivity; [exact Hslot|]. vm_compute. reflexivity.
  - etransitivity; [apply (Hothers 1%nat); vm_compute; lia|].
    vm_compute. reflexivity.
Defined.

(** One byte too many: on slot 0 the byte lands at the start of slot 1; on
    slot 3 the copy leaves [TxBuffer]. *)
Example send_1537_bytes :
  (∃ st' : state,
     ETH_SendFrame sample_layout reset_state (replicate 1537 0xAA) 1537
     = Some (st', 1) ∧
     slot ETH_TX_BUF_SIZE 1 (TxBuffer st') = 0xAA :: replicate 1535 0) ∧
  ETH_SendFrame sample_layout tx_cursor_at_3 (replicate 1537 0xAA) 1537 = None.
Proof.
  split; [|vm_compute; reflexivity].
  eexists. split; vm_compute; reflexivity.
Qed.

(** ** The frame builder *)

Lemma swapped_ethertype_value (ethertype : Z) :
  0 <= ethertype < 2 ^ 16 →
  swapped_ethertype ethertype = ethertype / 256 + 256 * (ethertype mod 256).
Proof.
  intros He. unfold swapped_ethertype.
  change 255 with (Z.ones 8).
  rewrite !Z.land_ones, Z.shiftr_div_pow2, Z.shiftl_mul_pow2 by lia.
  change (2 ^ 8) with 256.
  assert (Hhi : 0 <= ethertype / 256 < 256).
  { split; [apply Z.div_pos; lia|apply Z.div_lt_upper_bound; lia]. }
  assert (Hlo : 0 <= ethertype mod 256 < 256) by (apply Z.mod_pos_bound; lia).
  rewrite (Z.mod_small (ethertype / 256)) by lia.
  assert (Hdisj : Z.land (ethertype / 256) (ethertype mod 256 * 256) = 0).
  { rewrite <- (Z.mod_small (ethertype / 256) 256) by lia.
    change 256 with (2 ^ 8). rewrite <- Z.land_ones by lia.
    rewrite <- Z.land_assoc, (Z.land_comm (Z.ones 8)), Z.land_ones by lia.
    rewrite Z.mod_mul by lia. apply Z.land_0_r. }
  pose proof (Z.add_lor_land (ethertype / 256) (ethertype mod 256 * 256)) as Hadd.
  rewrite Hdisj, Z.add_0_r in Hadd. rewrite Hadd.
  unfold u16. rewrite Z.mod_small; lia.
Qed.

(** The two bytes the store of [hdr->ethertype] leaves in memory. *)
Lemma stored_ethertype (e : byte_order) (ethertype : Z) :
  0 <= ethertype < 2 ^ 16 →
  bytes_of_u16 e (swapped_ethertype ethertype)
  = match e with
    | LittleEndian => [ethertype / 256; ethertype mod 256]
    | BigEndian => [ethertype mod 256; ethertype / 256]
    end.
Proof.
  intros He. rewrite swapped_ethertype_value by done.
  assert (Hhi : 0 <= ethertype / 256 < 256).
  { split; [apply Z.div_pos; lia|apply Z.div_lt_upper_bound; lia]. }
  assert (Hlo : 0 <= ethertype mod 256 < 256) by (apply Z.mod_pos_bound; lia).
  assert (Hm : (ethertype / 256 + 256 * (ethertype mod 256)) mod 256
               = ethertype / 256).
  { symmetry. apply (Z.mod_unique _ 256 (ethertype mod 256)); lia. }
  assert (Hd : (ethertype / 256 + 256 * (ethertype mod 256)) / 256
               = ethertype mod 256).
  { symmetry. apply (Z.div_unique _ 256 _ (ethertype / 256)); lia. }
  destruct e; simpl; change 255 with (Z.ones 8);
    rewrite Z.land_ones, Z.shiftr_div_pow2 by lia;
    change (2 ^ 8) with 256; by rewrite Hm, Hd.
Qed.

Lemma memcpy_append (pre rest src : list Z) (doff n : nat) :
  doff = length pre → (n ≤ length src)%nat → (n ≤ length rest)%nat →
  memcpy (pre ++ rest) doff src 0 n = Some ((pre ++ take n src) ++ drop n rest).
Proof.
  intros -> Hs Hr.
  rewrite memcpy_Some by (rewrite ?length_app; lia).
  rewrite take_app_length, drop_app_add, drop_0.
  by rewrite <- (assoc_L (++)).
Qed.

Lemma memset_append (pre rest : list Z) (doff n : nat) (c : Z) :
  doff = length pre → (n ≤ length rest)%nat →
  memset (pre ++ rest) doff c n = Some ((pre ++ replicate n c) ++ drop n rest).
Proof.
  intros -> Hr.
  rewrite memset_Some by (rewrite ?length_app; lia).
  rewrite take_app_length, drop_app_add.
  by rewrite <- (assoc_L (++)).
Qed.

Lemma frame_bytes_length e dest_mac src_mac ethertype payload payload_len :
  (6 ≤ length dest_mac)%nat → (6 ≤ length src_mac)%nat →
  (Z.to_nat payload_len ≤ length payload)%nat →
  length (frame_bytes e dest_mac src_mac ethertype payload payload_len)
  = (14 + Z.to_nat payload_len)%nat.
Proof.
  intros Hd Hs Hp. unfold frame_bytes.
  assert (Hb : length (bytes_of_u16 e (swapped_ethertype ethertype)) = 2%nat)
    by (by destruct e).
  rewrite !length_app, !length_take, Hb. lia.
Qed.

(** The body of [BuildEthernetFrame] up to the padding test. *)
Lemma BuildEthernetFrame_unfold (e : byte_order)
    (frame dest_mac src_mac : list Z) (ethertype : Z) (payload : list Z)
    (payload_len : Z) :
  (6 ≤ length dest_mac)%nat → (6 ≤ length src_mac)%nat →
  (Z.to_nat payload_len ≤ length payload)%nat →
  (14 + Z.to_nat payload_len ≤ length frame)%nat →
  BuildEthernetFrame e frame dest_mac src_mac ethertype payload payload_len
  = let written :=
      frame_bytes e dest_mac src_mac ethertype payload payload_len
      ++ drop (14 + Z.to_nat payload_len) frame in
    let total_len := u16 (sizeof_EthernetHeader + payload_len) in
    if total_len <? 60 then
      frame' ← memset written (Z.to_nat total_len) 0 (Z.to_nat (60 - total_len));
      Some (frame', 60)
    else Some (written, total_len).
Proof.
  intros Hd Hs Hp Hf. unfold BuildEthernetFrame, store_u16, frame_bytes.
  pose proof (memcpy_append [] frame dest_mac 0 6 eq_refl) as Hfirst.
  change ([] ++ frame) with frame in Hfirst.
  rewrite Hfirst by lia. simpl.
  rewrite (memcpy_append (take 6 dest_mac) (drop 6 frame) src_mac 6 6)
    by (rewrite ?length_take, ?length_drop; lia).
  simpl.
  assert (Hb2 : length (bytes_of_u16 e (swapped_ethertype ethertype)) = 2%nat)
    by (by destruct e).
  assert (Hb : take 2 (bytes_of_u16 e (swapped_ethertype ethertype))
               = bytes_of_u16 e (swapped_ethertype ethertype))
    by (by destruct e).
  rewrite (memcpy_append (take 6 dest_mac ++ take 6 src_mac) (drop 6 (drop 6 frame))
             (bytes_of_u16 e (swapped_ethertype ethertype)) 12 2)
    by (rewrite ?length_app, ?length_take, ?length_drop, ?Hb2; lia).
  simpl. rewrite Hb.
  rewrite (memcpy_append _ (drop 2 (drop 6 (drop 6 frame))) payload
             (Z.to_nat sizeof_EthernetHeader) (Z.to_nat payload_len))
    by (rewrite ?length_app, ?length_take, ?length_drop, ?Hb2;
        unfold sizeof_EthernetHeader; lia).
  simpl.
  rewrite !drop_drop.
  replace (6 + (6 + (2 + Z.to_nat payload_len)))%nat
    with (14 + Z.to_nat payload_len)%nat by lia.
  rewrite <- !(assoc_L (++)). reflexivity.
Qed.

Lemma BuildEthernetFrame_short (e : byte_order)
    (frame dest_mac src_mac : list Z) (ethertype : Z) (payload : list Z)
    (payload_len : Z) :
  (6 ≤ length dest_mac)%nat → (6 ≤ length src_mac)%nat →
  (Z.to_nat payload_len ≤ length payload)%nat →
  0 <= payload_len < 46 →
  (60 ≤ length frame)%nat →
  BuildEthernetFrame e frame dest_mac src_mac ethertype payload payload_len
  = Some ((frame_bytes e dest_mac src_mac ethertype payload payload_len
           ++ replicate (Z.to_nat (60 - (14 + payload_len))) 0)
          ++ drop 60 frame, 60).
Proof.
  intros Hd Hs Hp Hlen Hf.
  rewrite BuildEthernetFrame_unfold by lia. simpl.
  unfold sizeof_EthernetHeader.
  rewrite u16_small by lia.
  destruct (Z.ltb_spec (14 + payload_len) 60) as [_|]; [|lia].
  rewrite memset_append.
  - simpl. rewrite drop_drop. repeat f_equal. lia.
  - rewrite frame_bytes_length by done. lia.
  - rewrite length_drop. lia.
Qed.

Lemma BuildEthernetFrame_long (e : byte_order)
    (frame dest_mac src_mac : list Z) (ethertype : Z) (payload : list Z)
    (payload_len : Z) :
  (6 ≤ length dest_mac)%nat → (6 ≤ length src_mac)%nat →
  (Z.to_nat payload_len ≤ length payload)%nat →
  46 <= payload_len → 14 + payload_len < 2 ^ 16 →
  (14 + Z.to_nat payload_len ≤ length frame)%nat →
  BuildEthernetFrame e frame dest_mac src_mac ethertype payload payload_len
  = Some (frame_bytes e dest_mac src_mac ethertype payload payload_len
          ++ drop (14 + Z.to_nat payload_len) frame, 14 + payload_len).
Proof.
  intros Hd Hs Hp Hlen Hmax Hf.
  rewrite BuildEthernetFrame_unfold by lia. simpl.
  unfold sizeof_EthernetHeader.
  rewrite u16_small by lia.
  destruct (Z.ltb_spec (14 + payload_len) 60) as [|_]; [lia|].
  reflexivity.
Qed.

(** C7, as amended.  For a payload shorter than 46 bytes [BuildEthernetFrame]
    returns 60 and the first 60 bytes of the frame buffer are the 14-byte
    header (6 bytes destination, 6 bytes source, the two bytes of the type
    field), the payload, and [60 - (14 + payload_len)] bytes 0; the buffer
    beyond byte 60 is not touched.  For a payload of 46 bytes or more whose
    frame length [14 + payload_len] fits the 16-bit result, it returns
    [14 + payload_len], the buffer holds header and payload, and nothing
    after them is written. *)
Theorem C7_frame_padding (e : byte_order) (frame dest_mac src_mac : list Z)
    (ethertype : Z) (payload : list Z) (payload_len : Z) :
  (6 ≤ length dest_mac)%nat → (6 ≤ length src_mac)%nat →
  0 <= payload_len →
  (Z.to_nat payload_len ≤ length payload)%nat →
  (payload_len < 46 → (60 ≤ length frame)%nat →
   ∃ frame' : list Z,
     BuildEthernetFrame e frame dest_mac src_mac ethertype payload payload_len
     = Some (frame', 60) ∧
     length (take 60 frame') = 60%nat ∧
     take 60 frame'
     = take 6 dest_mac ++ take 6 src_mac
       ++ bytes_of_u16 e (swapped_ethertype ethertype)
       ++ take (Z.to_nat payload_len) payload
       ++ replicate (Z.to_nat (60 - (14 + payload_len))) 0 ∧
     length (take 6 dest_mac ++ take 6 src_mac
             ++ bytes_of_u16 e (swapped_ethertype ethertype)) = 14%nat ∧
     length (take (Z.to_nat payload_len) payload) = Z.to_nat payload_len ∧
     drop 60 frame' = drop 60 frame) ∧
  (46 <= payload_len → 14 + payload_len < 2 ^ 16 →
   (14 + Z.to_nat payload_len ≤ length frame)%nat →
   ∃ frame' : list Z,
     BuildEthernetFrame e frame dest_mac src_mac ethertype payload payload_len
     = Some (frame', 14 + payload_len) ∧
     take (14 + Z.to_nat payload_len) frame'
     = take 6 dest_mac ++ take 6 src_mac
       ++ bytes_of_u16 e (swapped_ethertype ethertype)
       ++ take (Z.to_nat payload_len) payload ∧
     drop (14 + Z.to_nat payload_len) frame'
     = drop (14 + Z.to_nat payload_len) frame).
Proof.
  intros Hd Hs Hlen0 Hp.
  assert (Hb2 : length (bytes_of_u16 e (swapped_ethertype ethertype)) = 2%nat)
    by (by destruct e).
  pose proof (frame_bytes_length e dest_mac src_mac ethertype payload payload_len
                Hd Hs Hp) as Hfb.
  split.
  - intros Hshort Hf.
    eexists. split; [by apply BuildEthernetFrame_short|].
    assert (Hl : length (frame_bytes e dest_mac src_mac ethertype payload payload_len
                         ++ replicate (Z.to_nat (60 - (14 + payload_len))) 0)
                 = 60%nat)
      by (rewrite length_app, length_replicate, Hfb; lia).
    rewrite take_app_length' by done.
    rewrite drop_app_length' by done.
    split; [done|].
    split; [unfold frame_bytes; by rewrite <- !(assoc_L (++))|].
    split; [rewrite !length_app, !length_take, Hb2; lia|].
    split; [rewrite length_take; lia|done].
  - intros Hlong Hmax Hf.
    eexists. split; [by apply BuildEthernetFrame_long|].
    rewrite take_app_length' by done.
    rewrite drop_app_length' by done.
    done.
Qed.

Lemma C7_frame_padding_witness :
  (6 ≤ length BroadcastMAC)%nat ∧ (6 ≤ length MyMACAddress)%nat ∧
  0 <= 16 ∧ (Z.to_nat 16 ≤ length test_data)%nat ∧
  16 < 46 ∧ (60 ≤ length (replicate 1518 0xEE))%nat ∧
  (∃ frame' : list Z,
     BuildEthernetFrame LittleEndian (replicate 1518 0xEE) BroadcastMAC
                        MyMACAddress 0x0800 test_data 16
     = Some (frame', 60) ∧
     take 60 frame'
     = [0xFF; 0xFF; 0xFF; 0xFF; 0xFF; 0xFF; 0x02; 0x00; 0x00; 0x00; 0x00; 0x01;
        0x08; 0x00;
        72; 101; 108; 108; 111; 32; 69; 116; 104; 101; 114; 110; 101; 116; 33; 0]
       ++ replicate 30 0) ∧
  0 <= 100 ∧ (Z.to_nat 100 ≤ length (replicate 100 0x11))%nat ∧
  46 <= 100 ∧ 14 + 100 < 2 ^ 16 ∧
  (14 + Z.to_nat 100 ≤ length (replicate 1518 0xEE))%nat ∧
  (∃ frame' : list Z,
     BuildEthernetFrame LittleEndian (replicate 1518 0xEE) BroadcastMAC
                        MyMACAddress 0x0800 (replicate 100 0x11) 100
     = Some (frame', 114) ∧
     drop 114 frame' = replicate 1404 0xEE).
Proof.
  assert (H1 : (6 ≤ length BroadcastMAC)%nat) by (vm_compute; lia).
  assert (H2 : (6 ≤ length MyMACAddress)%nat) by (vm_compute; lia).
  assert (H3 : 0 <= 16) by lia.
  assert (H4 : (Z.to_nat 16 ≤ length test_data)%nat) by (vm_compute; lia).
  assert (H5 : 16 < 46) by lia.
  assert (H6 : (60 ≤ length (replicate 1518 0xEE))%nat) by (rewrite length_replicate; lia).
  do 6 (split; [assumption|]).
  split.
  { destruct (C7_frame_padding LittleEndian (replicate 1518 0xEE) BroadcastMAC
                MyMACAddress 0x0800 test_data 16 H1 H2 H3 H4) as [Hshort _].
    destruct (Hshort H5 H6) as (frame' & Hr & _ & Htake & _).
    exists frame'. split; [exact Hr|].
    rewrite Htake. vm_compute. reflexivity. }
  assert (G3 : 0 <= 100) by lia.
  assert (G4 : (Z.to_nat 100 ≤ length (replicate 100 0x11))%nat)
    by (rewrite length_replicate; lia).
  assert (G5 : 46 <= 100) by lia.
  assert (G6 : 14 + 100 < 2 ^ 16) by lia.
  assert (G7 : (14 + Z.to_nat 100 ≤ length (replicate 1518 0xEE))%nat)
    by (rewrite length_replicate; lia).
  do 5 (split; [assumption|]).
  destruct (C7_frame_padding LittleEndian (replicate 1518 0xEE) BroadcastMAC
              MyMACAddress 0x0800 (replicate 100 0x11) 100 H1 H2 G3 G4)
    as [_ Hlong].
  destruct (Hlong G5 G6 G7) as (frame' & Hr & _ & Hdrop).
  exists frame'. split; [exact Hr|].
  etransitivity; [exact Hdrop|]. vm_compute. reflexivity.
Defined.

(** C7 as stated fails where [14 + payload_len] leaves [uint16_t]: with the
    largest payload length the sum wraps to 13, the padding branch is taken,
    the result is 60 and bytes 13 to 59 of the frame are zeroed, the first 46
    payload bytes among them. *)
Lemma C7_long_payload_counterexample :
  46 <= 65535 ∧
  snd <$> BuildEthernetFrame LittleEndian (replicate (Z.to_nat 65549) 0xEE) BroadcastMAC
                             MyMACAddress 0x0800 (replicate (Z.to_nat 65535) 0x11) 65535
  = Some 60 ∧
  60 ≠ 14 + 65535 ∧
  (λ r, take 47 (drop 13 r.1))
    <$> BuildEthernetFrame LittleEndian (replicate (Z.to_nat 65549) 0xEE) BroadcastMAC
                           MyMACAddress 0x0800 (replicate (Z.to_nat 65535) 0x11) 65535
  = Some (replicate 47 0) ∧
  take 46 (replicate (Z.to_nat 65535) 0x11) ≠ replicate 46 0.
Proof.
  split; [lia|]. split; [vm_compute; reflexivity|]. split; [lia|].
  split; [vm_compute; reflexivity|]. vm_compute. discriminate.
Qed.

(** ** Byte order of the type field *)

Lemma frame_bytes_type_field (e : byte_order) (dest_mac src_mac : list Z)
    (ethertype : Z) (payload : list Z) (payload_len : Z) (rest : list Z)
    (j : nat) :
  (6 ≤ length dest_mac)%nat → (6 ≤ length src_mac)%nat → (j < 2)%nat →
  (frame_bytes e dest_mac src_mac ethertype payload payload_len ++ rest)
    !! (12 + j)%nat
  = bytes_of_u16 e (swapped_ethertype ethertype) !! j.
Proof.
  intros Hd Hs Hj. unfold frame_bytes.
  assert (Hb2 : length (bytes_of_u16 e (swapped_ethertype ethertype)) = 2%nat)
    by (by destruct e).
  rewrite <- !(assoc_L (++)).
  rewrite lookup_app_r by (rewrite length_take; lia).
  rewrite lookup_app_r by (rewrite !length_take; lia).
  rewrite lookup_app_l by (rewrite !length_take; lia).
  f_equal. rewrite !length_take. lia.
Qed.

(** C10, as amended.  For a frame length that fits 16 bits, bytes 12 and 13
    of the frame are the two bytes of the [uint16_t] store of the swapped
    value: on a little-endian host, which the STM32H7 is, byte 12 is the
    most significant byte of [ethertype] and byte 13 the least significant
    one; on a big-endian host the same code leaves them the other way
    round. *)
Theorem C10_ethertype_byte_order (e : byte_order)
    (frame dest_mac src_mac : list Z) (ethertype : Z) (payload : list Z)
    (payload_len : Z) :
  (6 ≤ length dest_mac)%nat → (6 ≤ length src_mac)%nat →
  0 <= ethertype < 2 ^ 16 →
  0 <= payload_len → 14 + payload_len < 2 ^ 16 →
  (Z.to_nat payload_len ≤ length payload)%nat →
  (60 ≤ length frame)%nat → (14 + Z.to_nat payload_len ≤ length frame)%nat →
  ∃ (frame' : list Z) (n : Z),
    BuildEthernetFrame e frame dest_mac src_mac ethertype payload payload_len
    = Some (frame', n) ∧
    frame' !! 12%nat
    = Some (match e with
            | LittleEndian => Z.shiftr ethertype 8
            | BigEndian => Z.land ethertype 0xFF
            end) ∧
    frame' !! 13%nat
    = Some (match e with
            | LittleEndian => Z.land ethertype 0xFF
            | BigEndian => Z.shiftr ethertype 8
            end).
Proof.
  intros Hd Hs He Hlen0 Hmax Hp Hf60 Hf.
  assert (Hbytes : bytes_of_u16 e (swapped_ethertype ethertype)
                   = match e with
                     | LittleEndian => [Z.shiftr ethertype 8; Z.land ethertype 0xFF]
                     | BigEndian => [Z.land ethertype 0xFF; Z.shiftr ethertype 8]
                     end).
  { rewrite stored_ethertype by done.
    change 255 with (Z.ones 8).
    rewrite Z.land_ones, Z.shiftr_div_pow2 by lia. reflexivity. }
  destruct (Z.lt_ge_cases payload_len 46) as [Hshort|Hlong].
  - eexists _, _. split; [by apply BuildEthernetFrame_short|].
    rewrite <- !(assoc_L (++)).
    rewrite (frame_bytes_type_field e dest_mac src_mac ethertype payload payload_len
               _ 0) by (done || lia).
    rewrite (frame_bytes_type_field e dest_mac src_mac ethertype payload payload_len
               _ 1) by (done || lia).
    rewrite Hbytes. by destruct e.
  - eexists _, _. split; [by apply BuildEthernetFrame_long|].
    rewrite (frame_bytes_type_field e dest_mac src_mac ethertype payload payload_len
               _ 0) by (done || lia).
    rewrite (frame_bytes_type_field e dest_mac src_mac ethertype payload payload_len
               _ 1) by (done || lia).
    rewrite Hbytes. by destruct e.
Qed.

Lemma C10_ethertype_byte_order_witness :
  (6 ≤ length BroadcastMAC)%nat ∧ (6 ≤ length MyMACAddress)%nat ∧
  0 <= 0x0800 < 2 ^ 16 ∧ 0 <= 16 ∧ 14 + 16 < 2 ^ 16 ∧
  (Z.to_nat 16 ≤ length test_data)%nat ∧
  (60 ≤ length (replicate 1518 0xEE))%nat ∧
  (14 + Z.to_nat 16 ≤ length (replicate 1518 0xEE))%nat ∧
  ∃ (frame' : list Z) (n : Z),
    BuildEthernetFrame LittleEndian (replicate 1518 0xEE) BroadcastMAC
                       MyMACAddress 0x0800 test_data 16
    = Some (frame', n) ∧
    frame' !! 12%nat = Some 0x08 ∧ frame' !! 13%nat = Some 0x00.
Proof.
  assert (H1 : (6 ≤ length BroadcastMAC)%nat) by (vm_compute; lia).
  assert (H2 : (6 ≤ length MyMACAddress)%nat) by (vm_compute; lia).
  assert (H3 : 0 <= 0x0800 < 2 ^ 16) by lia.
  assert (H4 : 0 <= 16) by lia.
  assert (H5 : 14 + 16 < 2 ^ 16) by lia.
  assert (H6 : (Z.to_nat 16 ≤ length test_data)%nat) by (vm_compute; lia).
  assert (H7 : (60 ≤ length (replicate 1518 0xEE))%nat)
    by (rewrite length_replicate; lia).
  assert (H8 : (14 + Z.to_nat 16 ≤ length (replicate 1518 0xEE))%nat)
    by (rewrite length_replicate; lia).
  do 8 (split; [assumption|]).
  destruct (C10_ethertype_byte_order LittleEndian (replicate 1518 0xEE) BroadcastMAC
              MyMACAddress 0x0800 test_data 16 H1 H2 H3 H4 H5 H6 H7 H8)
    as (frame' & n & Hr & H12 & H13).
  exists frame', n. split; [exact Hr|]. split; [exact H12|exact H13].
Defined.

(** C10 as stated fails in two ways.  On a big-endian host the frame of
    [main] (type 0x0800) has 0x00 at byte 12 and 0x08 at byte 13.  On the
    little-endian target, with the largest payload length the wrapped
    length 13 makes the padding zero byte 13, the low byte 0x06 of the type
    0x0806. *)
Lemma C10_byte_order_counterexample :
  (λ r, (r.1 !! 12%nat, r.1 !! 13%nat))
    <$> BuildEthernetFrame BigEndian (replicate 1518 0xEE) BroadcastMAC
                           MyMACAddress 0x0800 test_data 16
  = Some (Some 0x00, Some 0x08) ∧
  Z.shiftr 0x0800 8 = 0x08 ∧ Z.land 0x0800 0xFF = 0x00 ∧
  (λ r, (r.1 !! 12%nat, r.1 !! 13%nat))
    <$> BuildEthernetFrame LittleEndian (replicate (Z.to_nat 65549) 0xEE)
                           BroadcastMAC MyMACAddress 0x0806
                           (replicate (Z.to_nat 65535) 0x11) 65535
  = Some (Some 0x08, Some 0x00) ∧
  Z.land 0x0806 0xFF = 0x06.
Proof.
  split; [vm_compute; reflexivity|]. split; [reflexivity|].
  split; [reflexivity|]. split; [vm_compute; reflexivity|]. reflexivity.
Qed.

(** ** PHY bring-up *)

Lemma reset_timeout_value : Z.of_nat reset_timeout = 100000.
Proof. unfold reset_timeout. apply Z2Nat.id. lia. Qed.

Lemma link_timeout_value : Z.of_nat link_timeout = 1000000.
Proof. unfold link_timeout. apply Z2Nat.id. lia. Qed.

Opaque reset_timeout link_timeout.

Section PHY_properties.
Context {bus : Type} `{MDIO bus}.

(** Within [n] reads the loop meets one of three things: [n] reads that
    keep it going, a first read that ends it, or a first read that does
    not return. *)
Lemma poll_trichotomy (reg : Z) (again : Z → bool) (n : nat) :
  ∀ b : bus,
    (∃ b', polls reg again n b b') ∨
    (∃ k b', (k < n)%nat ∧ first_exit reg again k b b') ∨
    (∃ k, (k < n)%nat ∧ hangs_at reg again k b).
Proof.
  induction n as [|n IH]; intros b.
  - left. by exists b.
  - destruct (ETH_ReadPHY PHY_ADDR reg b) as [[v b1]|] eqn:Hr.
    + destruct (again v) eqn:Hv.
      * destruct (IH b1) as [(b' & Hp)|[(k & b' & Hk & b0 & w & Hp & Hw)
                                        |(k & Hk & b0 & Hp & Hn)]].
        -- left. exists b', v, b1. by repeat split.
        -- right. left. exists (S k), b'. split; [lia|].
           exists b0, w. split; [|exact Hw]. exists v, b1. by repeat split.
        -- right. right. exists (S k). split; [lia|].
           exists b0. split; [|exact Hn]. exists v, b1. by repeat split.
      * right. left. exists 0%nat, b1. split; [lia|].
        exists b, v. by repeat split.
    + right. right. exists 0%nat. split; [lia|]. exists b. by split.
Qed.

(** The loop against a PHY that keeps it going [timeout] times: it is left
    through [return 0], after exactly [timeout] reads. *)
Lemma poll_phy_stuck (reg : Z) (again : Z → bool) (fuel : nat) :
  ∀ (n : nat) (b b' : bus),
    (1 ≤ n ≤ fuel)%nat → Z.of_nat n < 2 ^ 32 →
    polls reg again n b b' →
    poll_phy reg again fuel (Z.of_nat n) b = Some (LoopReturn0 b').
Proof.
  induction fuel as [|fuel IH]; intros n b b' Hn Hmax Hp; [lia|].
  destruct n as [|n]; [lia|].
  destruct Hp as (v & b1 & Hr & Hv & Hp).
  cbn [poll_phy]. rewrite Hr. cbn [mbind option_bind]. rewrite Hv.
  replace (Z.of_nat (S n) - 1) with (Z.of_nat n) by lia.
  rewrite u32_small by lia.
  destruct (Z.eqb_spec (Z.of_nat n) 0) as [Hz|Hz].
  - assert (n = 0%nat) as -> by lia. cbn [polls] in Hp. by subst b'.
  - apply IH; [lia|lia|exact Hp].
Qed.

(** The loop against a PHY whose read number [k] is the first to end it,
    with [k] below the time-out: it is left through its condition, after
    [k + 1] reads. *)
Lemma poll_phy_exit (reg : Z) (again : Z → bool) (fuel : nat) :
  ∀ (n k : nat) (b b' : bus),
    (k < n ≤ fuel)%nat → Z.of_nat n < 2 ^ 32 →
    first_exit reg again k b b' →
    poll_phy reg again fuel (Z.of_nat n) b = Some (LoopDone b').
Proof.
  induction fuel as [|fuel IH]; intros n k b b' Hn Hmax (b0 & w & Hp & Hw & Hx);
    [lia|].
  cbn [poll_phy]. destruct k as [|k].
  - cbn [polls] in Hp. subst b0. rewrite Hw. cbn [mbind option_bind].
    by rewrite Hx.
  - destruct Hp as (v & b1 & Hr & Hv & Hp).
    rewrite Hr. cbn [mbind option_bind]. rewrite Hv.
    destruct n as [|n]; [lia|].
    replace (Z.of_nat (S n) - 1) with (Z.of_nat n) by lia.
    rewrite u32_small by lia.
    destruct (Z.eqb_spec (Z.of_nat n) 0) as [Hz|Hz]; [lia|].
    apply (IH n k); [lia|lia|]. by exists b0, w.
Qed.

(** The loop against a PHY whose read number [k], below the time-out, does
    not return: the loop does not return. *)
Lemma poll_phy_hang (reg : Z) (again : Z → bool) (fuel : nat) :
  ∀ (n k : nat) (b : bus),
    (k < n)%nat → Z.of_nat n < 2 ^ 32 →
    hangs_at reg again k b →
    poll_phy reg again fuel (Z.of_nat n) b = None.
Proof.
  induction fuel as [|fuel IH]; intros n k b Hn Hmax (b0 & Hp & Hw);
    [reflexivity|].
  cbn [poll_phy]. destruct k as [|k].
  - cbn [polls] in Hp. subst b0. by rewrite Hw.
  - destruct Hp as (v & b1 & Hr & Hv & Hp).
    rewrite Hr. cbn [mbind option_bind]. rewrite Hv.
    destruct n as [|n]; [lia|].
    replace (Z.of_nat (S n) - 1) with (Z.of_nat n) by lia.
    rewrite u32_small by lia.
    destruct (Z.eqb_spec (Z.of_nat n) 0) as [Hz|Hz]; [lia|].
    apply (IH n k); [lia|lia|]. by exists b0.
Qed.

Section Fuel.
Variable fuel : nat.
Hypothesis Hfuel : (link_timeout ≤ fuel)%nat.

Lemma ETH_InitPHY_reset_done (k : nat) (b b2 : bus) :
  reset_done k b b2 →
  ETH_InitPHY fuel b
  = '(id1, b) ← ETH_ReadPHY PHY_ADDR PHY_PHYID1 b2;
    '(id2, b) ← ETH_ReadPHY PHY_ADDR PHY_PHYID2 b;
    if negb (id1 =? 0x0007) then Some (0, b)
    else
      b ← ETH_WritePHY PHY_ADDR PHY_BCR PHY_BCR_AUTONEG b;
      r ← poll_phy PHY_BSR link_down fuel 1000000 b;
      match r with
      | LoopReturn0 b => Some (0, b)
      | LoopDone b => Some (1, b)
      end.
Proof.
  intros (b1 & Hw & Hk & Hex).
  pose proof reset_timeout_value as Hrt.
  pose proof link_timeout_value as Hlt.
  unfold ETH_InitPHY. rewrite Hw. cbn [mbind option_bind].
  rewrite <- Hrt.
  rewrite (poll_phy_exit _ _ fuel reset_timeout k b1 b2) by (lia || exact Hex).
  reflexivity.
Qed.

Lemma ETH_InitPHY_identified (b : bus) (id1 id2 : Z) (b4 : bus) :
  identified b id1 id2 b4 →
  ETH_InitPHY fuel b
  = if negb (id1 =? 0x0007) then Some (0, b4)
    else
      b ← ETH_WritePHY PHY_ADDR PHY_BCR PHY_BCR_AUTONEG b4;
      r ← poll_phy PHY_BSR link_down fuel 1000000 b;
      match r with
      | LoopReturn0 b => Some (0, b)
      | LoopDone b => Some (1, b)
      end.
Proof.
  intros (k & b2 & b3 & Hd & H1 & H2).
  rewrite (ETH_InitPHY_reset_done k b b2 Hd), H1.
  cbn [mbind option_bind]. rewrite H2. reflexivity.
Qed.

Lemma ETH_InitPHY_reset_timed_out (b : bus) :
  reset_timed_out b → ∃ b', ETH_InitPHY fuel b = Some (0, b').
Proof.
  intros (b1 & b' & Hw & Hp).
  pose proof reset_timeout_value as Hrt.
  pose proof link_timeout_value as Hlt.
  exists b'. unfold ETH_InitPHY. rewrite Hw. cbn [mbind option_bind].
  rewrite <- Hrt.
  rewrite (poll_phy_stuck _ _ fuel reset_timeout b1 b') by (lia || exact Hp).
  reflexivity.
Qed.

Lemma ETH_InitPHY_id1_mismatch (b : bus) (id1 id2 : Z) (b4 : bus) :
  identified b id1 id2 b4 → id1 ≠ 0x0007 → ETH_InitPHY fuel b = Some (0, b4).
Proof.
  intros Hi Hne. rewrite (ETH_InitPHY_identified b id1 id2 b4 Hi).
  by destruct (Z.eqb_spec id1 7).
Qed.

Lemma ETH_InitPHY_link_timed_out (b : bus) :
  link_timed_out b → ∃ b', ETH_InitPHY fuel b = Some (0, b').
Proof.
  intros (id2 & b4 & b5 & b' & Hi & Hw & Hp).
  pose proof link_timeout_value as Hlt.
  exists b'. rewrite (ETH_InitPHY_identified b 7 id2 b4 Hi).
  cbn [Z.eqb Pos.eqb negb]. rewrite Hw. cbn [mbind option_bind].
  rewrite <- Hlt.
  rewrite (poll_phy_stuck _ _ fuel link_timeout b5 b') by (lia || exact Hp).
  reflexivity.
Qed.

Lemma ETH_InitPHY_link_came_up (b : bus) :
  link_came_up b → ∃ b', ETH_InitPHY fuel b = Some (1, b').
Proof.
  intros (id2 & b4 & b5 & j & b' & Hi & Hw & Hj & Hex).
  pose proof link_timeout_value as Hlt.
  exists b'. rewrite (ETH_InitPHY_identified b 7 id2 b4 Hi).
  cbn [Z.eqb Pos.eqb negb]. rewrite Hw. cbn [mbind option_bind].
  rewrite <- Hlt.
  rewrite (poll_phy_exit _ _ fuel link_timeout j b5 b') by (lia || exact Hex).
  reflexivity.
Qed.

Lemma ETH_InitPHY_mdio_hangs (b : bus) :
  mdio_hangs b → ETH_InitPHY fuel b = None.
Proof.
  pose proof reset_timeout_value as Hrt.
  pose proof link_timeout_value as Hlt.
  intros [Hw|[(b1 & k & Hw & Hk & Hh)|[(k & b2 & Hd & H1)
         |[(k & b2 & id1 & b3 & Hd & H1 & H2)|[(id2 & b4 & Hi & Hw)
         |(id2 & b4 & b5 & j & Hi & Hw & Hj & Hh)]]]]].
  - unfold ETH_InitPHY. by rewrite Hw.
  - unfold ETH_InitPHY. rewrite Hw. cbn [mbind option_bind]. rewrite <- Hrt.
    by rewrite (poll_phy_hang _ _ fuel reset_timeout k b1) by (lia || exact Hh).
  - by rewrite (ETH_InitPHY_reset_done k b b2 Hd), H1.
  - rewrite (ETH_InitPHY_reset_done k b b2 Hd), H1. cbn [mbind option_bind].
    by rewrite H2.
  - rewrite (ETH_InitPHY_identified b 7 id2 b4 Hi).
    cbn [Z.eqb Pos.eqb negb]. by rewrite Hw.
  - rewrite (ETH_InitPHY_identified b 7 id2 b4 Hi).
    cbn [Z.eqb Pos.eqb negb]. rewrite Hw. cbn [mbind option_bind].
    rewrite <- Hlt.
    by rewrite (poll_phy_hang _ _ fuel link_timeout j b5) by (lia || exact Hh).
Qed.

End Fuel.

(** Every run ends in one of the five ways. *)
Lemma ETH_InitPHY_ways (b : bus) :
  reset_timed_out b ∨ id1_mismatch b ∨ link_timed_out b ∨ link_came_up b ∨
  mdio_hangs b.
Proof.
  destruct (ETH_WritePHY PHY_ADDR PHY_BCR PHY_BCR_RESET b) as [b1|] eqn:Hw;
    [|by do 4 right; left].
  destruct (poll_trichotomy PHY_BCR reset_pending reset_timeout b1)
    as [(b' & Hp)|[(k & b2 & Hk & Hex)|(k & Hk & Hh)]].
  { left. by exists b1, b'. }
  2:{ do 4 right. right. left. by exists b1, k. }
  assert (Hd : reset_done k b b2) by (by exists b1).
  destruct (ETH_ReadPHY PHY_ADDR PHY_PHYID1 b2) as [[id1 b3]|] eqn:H1.
  2:{ do 4 right. do 2 right. left. by exists k, b2. }
  destruct (ETH_ReadPHY PHY_ADDR PHY_PHYID2 b3) as [[id2 b4]|] eqn:H2.
  2:{ do 4 right. do 3 right. left. by exists k, b2, id1, b3. }
  assert (Hi : identified b id1 id2 b4) by (by exists k, b2, b3).
  destruct (decide (id1 = 7)) as [->|Hne].
  2:{ right. left. by exists id1, id2, b4. }
  destruct (ETH_WritePHY PHY_ADDR PHY_BCR PHY_BCR_AUTONEG b4) as [b5|] eqn:Hw2.
  2:{ do 4 right. do 4 right. left. by exists id2, b4. }
  destruct (poll_trichotomy PHY_BSR link_down link_timeout b5)
    as [(b' & Hp)|[(j & b' & Hj & Hex')|(j & Hj & Hh)]].
  - right. right. left. by exists id2, b4, b5, b'.
  - do 3 right. left. by exists id2, b4, b5, j, b'.
  - do 4 right. do 5 right. by exists id2, b4, b5, j.
Qed.


(** A PHY all of whose transactions return. *)
Lemma fixed_phy_returns (regs : Z → Z) (b : unit) :
  ¬ @mdio_hangs unit (fixed_phy regs) b.
Proof.
  intros [Hw|[(b1 & k & Hw & Hk & b0 & _ & Hn)|[(k & b2 & Hd & H1)
         |[(k & b2 & id1 & b3 & Hd & H1 & H2)|[(id2 & b4 & Hi & Hw)
         |(id2 & b4 & b5 & j & Hi & Hw & Hj & b0 & _ & Hn)]]]]];
    discriminate.
Qed.

End PHY_properties.

Transparent reset_timeout link_timeout.



(** A PHY that never leaves reset: the first poll gives up after 100000
    reads and the result is 0. *)
Example init_phy_stuck_in_reset :
  @ETH_InitPHY unit (fixed_phy phy_in_reset) link_timeout tt = Some (0, tt).
Proof. vm_compute. reflexivity. Qed.

(** * Further properties of the ring code *)

(** ** When a call is defined *)

(** X1. On a well-formed ring [ETH_SendFrame] is undefined in one situation
    only: the descriptor under the cursor is free and the copy of [length]
    bytes would read past the caller's object or write past the end of
    [TxBuffer].  A busy call is defined whatever [data] and [length] are. *)
Theorem send_undefined_iff (lay : layout) (st : state) (data : list Z)
    (length : Z) (d : ETH_DMADescTypeDef) :
  wf st →
  TxDescriptors st !! Z.to_nat (TxDescIdx st) = Some d →
  0 <= length →
  ETH_SendFrame lay st data length = None ↔
  Z.testbit (DESC3 d) 31 = false ∧
  ((List.length data < Z.to_nat length)%nat ∨
   ETH_TX_DESC_CNT * ETH_TX_BUF_SIZE < TxDescIdx st * ETH_TX_BUF_SIZE + length).
Proof.
  intros Hwf Hd Hlen.
  pose proof Hwf as [_ _ _ Htxb [Hi0 Hi1] _].
  unfold ETH_TX_DESC_CNT, ETH_TX_BUF_SIZE in *.
  destruct (Z.testbit (DESC3 d) 31) eqn:Hown.
  { rewrite (ETH_SendFrame_owned lay st data length d Hd Hown).
    split; [done|]. intros [? _]. done. }
  destruct (memcpy (TxBuffer st) (Z.to_nat (TxDescIdx st) * Z.to_nat ETH_TX_BUF_SIZE)
              data 0 (Z.to_nat length)) as [buf|] eqn:Hcopy.
  - rewrite (ETH_SendFrame_free lay st data length d buf Hd Hown Hcopy).
    split; [done|]. intros [_ Hbad]. exfalso.
    apply memcpy_inv in Hcopy as (Hdst & Hsrc & _).
    unfold ETH_TX_BUF_SIZE in *. lia.
  - split; [|intros _].
    + intros _. split; [done|].
      unfold memcpy in Hcopy. case_decide as Hb; [done|].
      unfold ETH_TX_BUF_SIZE in *. lia.
    + unfold ETH_SendFrame. rewrite Hd. simpl.
      unfold ETH_TDES3_OWN at 1. rewrite bits_set_bit by lia.
      rewrite Hown, Hcopy. done.
Qed.

Lemma send_undefined_iff_witness :
  wf tx_cursor_at_3 ∧
  TxDescriptors tx_cursor_at_3 !! Z.to_nat (TxDescIdx tx_cursor_at_3)
    = Some zero_desc ∧
  0 <= 1537 ∧
  (ETH_SendFrame sample_layout tx_cursor_at_3 (replicate 1537 0xAA) 1537 = None ↔
   Z.testbit (DESC3 zero_desc) 31 = false ∧
   ((List.length (replicate 1537 0xAA) < Z.to_nat 1537)%nat ∨
    ETH_TX_DESC_CNT * ETH_TX_BUF_SIZE
    < TxDescIdx tx_cursor_at_3 * ETH_TX_BUF_SIZE + 1537)).
Proof.
  assert (Hwf : wf tx_cursor_at_3).
  { constructor; try (vm_compute; reflexivity);
      unfold ETH_TX_DESC_CNT, ETH_RX_DESC_CNT; simpl; lia. }
  assert (H1 : TxDescriptors tx_cursor_at_3 !! Z.to_nat (TxDescIdx tx_cursor_at_3)
               = Some zero_desc) by reflexivity.
  assert (H2 : 0 <= 1537) by lia.
  do 3 (split; [assumption|]).
  exact (send_undefined_iff sample_layout tx_cursor_at_3 (replicate 1537 0xAA) 1537
           zero_desc Hwf H1 H2).
Defined.

(** X2. A caller that passes a buffer of at least [max_length] bytes, with
    [max_length] at most the slot size, is safe whatever the DMA engine
    left in the descriptor: the call is defined, the count returned is
    between 0 and [max_length], the caller's buffer keeps its size and its
    bytes from [max_length] on, and the ring stays well-formed. *)
Theorem receive_within_max_length (lay : layout) (st : state)
    (buffer : list Z) (max_length : Z) :
  wf st →
  0 <= max_length <= ETH_RX_BUF_SIZE →
  (Z.to_nat max_length ≤ List.length buffer)%nat →
  ∃ (st' : state) (buffer' : list Z) (n : Z),
    ETH_ReceiveFrame lay st buffer max_length = Some (st', buffer', n) ∧
    0 <= n <= max_length ∧
    List.length buffer' = List.length buffer ∧
    drop (Z.to_nat max_length) buffer' = drop (Z.to_nat max_length) buffer ∧
    wf st'.
Proof.
  intros Hwf Hmax Hbuf.
  pose proof Hwf as [Hrxd _ Hrxb _ _ [Hi0 Hi1]].
  unfold ETH_RX_DESC_CNT, ETH_RX_BUF_SIZE in *.
  destruct (lookup_lt_is_Some_2 (RxDescriptors st) (Z.to_nat (RxDescIdx st)))
    as [d Hd]; [lia|].
  destruct (Z.testbit (DESC3 d) 31) eqn:Hown.
  { exists st, buffer, 0.
    split; [by eapply ETH_ReceiveFrame_owned|].
    split; [lia|]. split; [done|]. split; [done|]. exact Hwf. }
  destruct (Z.testbit (DESC3 d) 15) eqn:Hes.
  { pose proof (ETH_ReceiveFrame_error lay st buffer max_length d Hd Hown Hes) as Hs.
    eexists _, buffer, 0. split; [exact Hs|].
    split; [lia|]. split; [done|]. split; [done|].
    by eapply ETH_ReceiveFrame_wf. }
  set (n := Z.min (Z.land (DESC3 d) ETH_RDES3_PL_MASK) max_length).
  assert (Hn : 0 <= n <= max_length).
  { subst n. split; [|lia]. apply Z.min_glb; [|lia].
    apply Z.land_nonneg. right. done. }
  assert (Hcopy := receive_copy_defined st buffer n Hwf ltac:(lia) ltac:(lia)
                     ltac:(unfold ETH_RX_DESC_CNT, ETH_RX_BUF_SIZE; lia)).
  pose proof (ETH_ReceiveFrame_frame lay st buffer max_length d _ Hd Hown Hes Hcopy)
    as Hs.
  eexists _, _, n. split; [exact Hs|].
  split; [done|].
  assert (Htake : List.length (take (Z.to_nat n)
                    (drop (Z.to_nat (RxDescIdx st * ETH_RX_BUF_SIZE)) (RxBuffer st)))
                  = Z.to_nat n).
  { rewrite length_take, length_drop. unfold ETH_RX_BUF_SIZE. lia. }
  split; [rewrite length_app, Htake, length_drop; lia|].
  split.
  { replace (Z.to_nat max_length)
      with (Z.to_nat n + (Z.to_nat max_length - Z.to_nat n))%nat at 1 by lia.
    rewrite <- Htake at 1. rewrite drop_app_add, drop_drop.
    f_equal. lia. }
  by eapply ETH_ReceiveFrame_wf.
Qed.

Lemma receive_within_max_length_witness :
  wf rx_good_frame ∧
  0 <= 1518 <= ETH_RX_BUF_SIZE ∧
  (Z.to_nat 1518 ≤ List.length (replicate 1518 0))%nat ∧
  ∃ (st' : state) (buffer' : list Z) (n : Z),
    ETH_ReceiveFrame sample_layout rx_good_frame (replicate 1518 0) 1518
    = Some (st', buffer', n) ∧
    0 <= n <= 1518 ∧ wf st'.
Proof.
  assert (H1 : 0 <= 1518 <= ETH_RX_BUF_SIZE) by (unfold ETH_RX_BUF_SIZE; lia).
  assert (H2 : (Z.to_nat 1518 ≤ List.length (replicate 1518 0))%nat)
    by (rewrite length_replicate; lia).
  split; [exact rx_good_frame_wf|]. do 2 (split; [assumption|]).
  destruct (receive_within_max_length sample_layout rx_good_frame
              (replicate 1518 0) 1518 rx_good_frame_wf H1 H2)
    as (st' & buffer' & n & Hs & Hn & _ & _ & Hwf).
  exists st', buffer', n. split; [exact Hs|]. split; [exact Hn|exact Hwf].
Defined.

(** ** The two rings are independent *)

(** The two calls on separate values, with any use [f] of the buffer the
    receive call returns. *)
Lemma send_receive_values (lay : layout) (st : state)
    (data buffer : list Z) (length max_length : Z) (f : list Z → list Z) :
  ('(st1, r) ← ETH_SendFrame lay st data length;
   '(st2, buffer', n) ← ETH_ReceiveFrame lay st1 buffer max_length;
   Some (st2, f buffer', r, n))
  = ('(st1, buffer', n) ← ETH_ReceiveFrame lay st buffer max_length;
     '(st2, r) ← ETH_SendFrame lay st1 data length;
     Some (st2, f buffer', r, n)).
Proof.
  unfold ETH_SendFrame, ETH_ReceiveFrame.
  repeat (simpl;
          match goal with
          | H : ?x = _ |- context [?x] => rewrite H
          | |- context [TxDescriptors st !! ?i] =>
              destruct (TxDescriptors st !! i) eqn:?
          | |- context [RxDescriptors st !! ?i] =>
              destruct (RxDescriptors st !! i) eqn:?
          | |- context [bits_set ?a ?b] => destruct (bits_set a b) eqn:?
          | |- context [memcpy ?a ?b ?c ?d ?e] =>
              destruct (memcpy a b c d e) eqn:?
          end);
    reflexivity.
Qed.

(** [ETH_SendFrame] reads the first [length] bytes of [data] and no
    other. *)
Lemma ETH_SendFrame_data (lay : layout) (st : state) (data1 data2 : list Z)
    (length : Z) :
  take (Z.to_nat length) data1 = take (Z.to_nat length) data2 →
  List.length data1 = List.length data2 →
  ETH_SendFrame lay st data1 length = ETH_SendFrame lay st data2 length.
Proof.
  intros Ht Hl. unfold ETH_SendFrame.
  destruct (TxDescriptors st !! Z.to_nat (TxDescIdx st)) as [d|]; [|done].
  cbn [mbind option_bind].
  destruct (bits_set (DESC3 d) ETH_TDES3_OWN); [done|].
  assert (Hm : ∀ off,
    memcpy (TxBuffer st) off data1 0 (Z.to_nat length)
    = memcpy (TxBuffer st) off data2 0 (Z.to_nat length)).
  { intros off. unfold memcpy. rewrite Hl, !drop_0, Ht. done. }
  by rewrite Hm.
Qed.

(** [ETH_ReceiveFrame] keeps the size of [buffer] and writes to its first
    [max_length] bytes only. *)
Lemma ETH_ReceiveFrame_buffer (lay : layout) (st st' : state)
    (buffer buffer' : list Z) (max_length n : Z) :
  ETH_ReceiveFrame lay st buffer max_length = Some (st', buffer', n) →
  0 <= max_length →
  List.length buffer' = List.length buffer ∧
  ∀ j, (Z.to_nat max_length ≤ j)%nat → buffer' !! j = buffer !! j.
Proof.
  unfold ETH_ReceiveFrame. intros Hr Hmax.
  destruct (RxDescriptors st !! Z.to_nat (RxDescIdx st)) as [d|]; [|done].
  cbn [mbind option_bind] in Hr.
  destruct (bits_set (DESC3 d) ETH_RDES3_OWN); [by injection Hr as _ <- _|].
  destruct (bits_set (DESC3 d) ETH_RDES3_ES); [by injection Hr as _ <- _|].
  destruct (memcpy buffer 0 _ _ _) as [b|] eqn:Hc; [|done].
  cbn [mbind option_bind] in Hr. injection Hr as _ <- _.
  split; [exact (memcpy_length _ _ _ _ _ _ Hc)|].
  intros j Hj. apply (memcpy_lookup_outside _ _ _ _ _ _ j Hc). right.
  assert (Hu : 0 <= u16 (Z.land (DESC3 d) ETH_RDES3_PL_MASK))
    by (apply Z.mod_pos_bound; lia).
  destruct (Z.gtb_spec (u16 (Z.land (DESC3 d) ETH_RDES3_PL_MASK)) max_length);
    lia.
Qed.



(** With one buffer used for both calls the order shows: received first,
    the frame in the buffer is what is sent; sent first, the old contents
    of the buffer are. *)
Example send_receive_shared_buffer :
  (λ '(st2, _, _, _), TxBuffer st2 !! 0%nat)
    <$> ('(st1, mem', n) ← receive_into sample_layout rx_good_frame
                            (replicate 64 0xAA) 0 64;
         '(st2, r) ← send_from sample_layout st1 mem' 0 64;
         Some (st2, mem', r, n))
  = Some (Some 0x55) ∧
  (λ '(st2, _, _, _), TxBuffer st2 !! 0%nat)
    <$> ('(st1, r) ← send_from sample_layout rx_good_frame
                       (replicate 64 0xAA) 0 64;
         '(st2, mem', n) ← receive_into sample_layout st1
                             (replicate 64 0xAA) 0 64;
         Some (st2, mem', r, n))
  = Some (Some 0xAA).
Proof. split; vm_compute; reflexivity. Qed.

(** ** The capacity of the transmit ring *)

(** X4. Four frames on a ring whose four descriptors are free, and no
    transmission completing in between: the four calls return 1 and bring
    the cursor back to where it started, and every later call returns 0
    and changes nothing, wherever the cursor stood at the start. *)
Theorem tx_ring_capacity (lay : layout) (st : state) (f1 f2 f3 f4 : list Z) :
  wf st →
  (∀ (i : nat) (d : ETH_DMADescTypeDef),
     TxDescriptors st !! i = Some d → Z.testbit (DESC3 d) 31 = false) →
  Forall (λ f, (length f ≤ Z.to_nat ETH_TX_BUF_SIZE)%nat) [f1; f2; f3; f4] →
  ∃ st4 : state,
    send_all lay st [f1; f2; f3; f4] = Some (st4, [1; 1; 1; 1]) ∧
    TxDescIdx st4 = TxDescIdx st ∧
    ∀ more : list (list Z),
      send_all lay st ([f1; f2; f3; f4] ++ more)
      = Some (st4, [1; 1; 1; 1] ++ replicate (length more) 0).
Proof.
  exact (send_all_ring_capacity lay st f1 f2 f3 f4).
Qed.

Lemma tx_ring_capacity_witness :
  wf reset_state ∧
  (∀ (i : nat) (d : ETH_DMADescTypeDef),
     TxDescriptors reset_state !! i = Some d → Z.testbit (DESC3 d) 31 = false) ∧
  Forall (λ f, (length f ≤ Z.to_nat ETH_TX_BUF_SIZE)%nat)
         [replicate 64 0xAA; replicate 60 0xBB; replicate 1536 0xCC; []] ∧
  ∃ st4 : state,
    send_all sample_layout reset_state
             [replicate 64 0xAA; replicate 60 0xBB; replicate 1536 0xCC; []]
    = Some (st4, [1; 1; 1; 1]) ∧
    TxDescIdx st4 = 0.
Proof.
  assert (H1 : ∀ (i : nat) (d : ETH_DMADescTypeDef),
             TxDescriptors reset_state !! i = Some d →
             Z.testbit (DESC3 d) 31 = false).
  { intros i d Hd. apply list_elem_of_lookup_2 in Hd.
    apply elem_of_replicate_inv in Hd. by subst d. }
  assert (H2 : Forall (λ f, (length f ≤ Z.to_nat ETH_TX_BUF_SIZE)%nat)
                 [replicate 64 0xAA; replicate 60 0xBB; replicate 1536 0xCC; []]).
  { repeat constructor; rewrite ?length_replicate; unfold ETH_TX_BUF_SIZE;
      simpl; lia. }
  split; [exact reset_state_wf|]. do 2 (split; [assumption|]).
  destruct (tx_ring_capacity sample_layout reset_state _ _ _ _
              reset_state_wf H1 H2) as (st4 & Hs & Hi & _).
  exists st4. split; [exact Hs|exact Hi].
Defined.

(** ** The ring stays well-formed *)

(** Initialisation of allocated arrays gives a well-formed ring. *)
Lemma ETH_InitDescriptors_wf (lay : layout) (st : state) :
  allocated st → wf (ETH_InitDescriptors lay st).
Proof.
  intros (Hrxd & Htxd & Hrxb & Htxb).
  constructor; simpl; rewrite ?for_each_desc_length; try done;
    unfold ETH_TX_DESC_CNT, ETH_RX_DESC_CNT; lia.
Qed.

(** X5. Initialisation of allocated arrays gives a well-formed ring, and every
    defined call of the two frame functions keeps it well-formed: the two
    cursors never leave 0..3 and the arrays keep their sizes. *)
Theorem ring_invariant (lay : layout) (st : state) :
  (allocated st → wf (ETH_InitDescriptors lay st)) ∧
  (wf st →
   (∀ data length st' r,
      ETH_SendFrame lay st data length = Some (st', r) → wf st') ∧
   (∀ buffer max_length st' buffer' n,
      ETH_ReceiveFrame lay st buffer max_length = Some (st', buffer', n) →
      wf st')).
Proof.
  split.
  - apply ETH_InitDescriptors_wf.
  - intros Hwf. split.
    + intros data length st' r Hs. by eapply ETH_SendFrame_wf.
    + intros buffer max_length st' buffer' n Hs. by eapply ETH_ReceiveFrame_wf.
Qed.

Lemma ring_invariant_witness :
  allocated reset_state ∧ wf reset_state ∧
  wf (ETH_InitDescriptors sample_layout reset_state).
Proof.
  assert (H1 : allocated reset_state) by (repeat split).
  split; [exact H1|]. split; [exact reset_state_wf|].
  exact (proj1 (ring_invariant sample_layout reset_state) H1).
Defined.

(** ** Composition with [ETH_InitDescriptors] *)

Lemma init_rx_lookup (lay : layout) (st : state) (i : nat) :
  length (RxDescriptors st) = Z.to_nat ETH_RX_DESC_CNT →
  (i < 4)%nat →
  ∃ d0, RxDescriptors st !! i = Some d0 ∧
        RxDescriptors (ETH_InitDescriptors lay st) !! i
        = Some (init_rx_desc lay i d0).
Proof.
  intros Hl Hi. unfold ETH_RX_DESC_CNT in Hl.
  destruct (lookup_lt_is_Some_2 (RxDescriptors st) i) as [d0 Hd0]; [lia|].
  exists d0. split; [done|]. simpl. unfold for_each_desc.
  rewrite foldl_alter_seq_lookup, Hd0.
  rewrite decide_True by (unfold ETH_RX_DESC_CNT; lia). done.
Qed.

Lemma init_tx_lookup (lay : layout) (st : state) (i : nat) :
  length (TxDescriptors st) = Z.to_nat ETH_TX_DESC_CNT →
  (i < 4)%nat →
  ∃ d0, TxDescriptors st !! i = Some d0 ∧
        TxDescriptors (ETH_InitDescriptors lay st) !! i = Some (init_tx_desc d0).
Proof.
  intros Hl Hi. unfold ETH_TX_DESC_CNT in Hl.
  destruct (lookup_lt_is_Some_2 (TxDescriptors st) i) as [d0 Hd0]; [lia|].
  exists d0. split; [done|]. simpl. unfold for_each_desc.
  rewrite foldl_alter_seq_lookup, Hd0.
  rewrite decide_True by (unfold ETH_TX_DESC_CNT; lia). done.
Qed.

(** X6. On a ring that has just been initialised the receive side is empty and
    the transmit side is free: [ETH_ReceiveFrame] returns 0 and changes
    nothing, for any buffer and [max_length]; four frames of at most 1536
    bytes are all accepted, and every further frame is refused with the
    state left as the fourth call made it. *)
Theorem fresh_ring_behaviour (lay : layout) (st : state) :
  allocated st →
  (∀ (buffer : list Z) (max_length : Z),
     ETH_ReceiveFrame lay (ETH_InitDescriptors lay st) buffer max_length
     = Some (ETH_InitDescriptors lay st, buffer, 0)) ∧
  (∀ f1 f2 f3 f4 : list Z,
     Forall (λ f, (length f ≤ Z.to_nat ETH_TX_BUF_SIZE)%nat) [f1; f2; f3; f4] →
     ∃ st4 : state,
       send_all lay (ETH_InitDescriptors lay st) [f1; f2; f3; f4]
       = Some (st4, [1; 1; 1; 1]) ∧
       TxDescIdx st4 = 0 ∧
       ∀ more : list (list Z),
         send_all lay (ETH_InitDescriptors lay st) ([f1; f2; f3; f4] ++ more)
         = Some (st4, [1; 1; 1; 1] ++ replicate (length more) 0)).
Proof.
  intros Halloc.
  pose proof (ETH_InitDescriptors_wf lay st Halloc) as Hwf.
  destruct Halloc as (Hrxd & Htxd & _ & _).
  split.
  - intros buffer max_length.
    destruct (init_rx_lookup lay st 0 Hrxd ltac:(lia)) as (d0 & _ & Hd).
    by apply (ETH_ReceiveFrame_owned lay _ buffer max_length _ Hd).
  - intros f1 f2 f3 f4 Hfit.
    apply (send_all_ring_capacity lay _ f1 f2 f3 f4 Hwf); [|done].
    intros i d Hd.
    assert (Hi : (i < 4)%nat).
    { apply lookup_lt_Some in Hd. simpl in Hd.
      rewrite for_each_desc_length, Htxd in Hd. unfold ETH_TX_DESC_CNT in Hd. lia. }
    destruct (init_tx_lookup lay st i Htxd Hi) as (d0 & _ & Hd').
    rewrite Hd' in Hd. by injection Hd as <-.
Qed.

Lemma fresh_ring_behaviour_witness :
  allocated reset_state ∧
  ETH_ReceiveFrame sample_layout (ETH_InitDescriptors sample_layout reset_state)
                   (replicate 1518 0) 1518
  = Some (ETH_InitDescriptors sample_layout reset_state, replicate 1518 0, 0).
Proof.
  assert (H1 : allocated reset_state) by (repeat split).
  split; [exact H1|].
  exact (proj1 (fresh_ring_behaviour sample_layout reset_state H1)
               (replicate 1518 0) 1518).
Defined.

(** X7. [ETH_InitDescriptors] is idempotent, for any state: a second call
    changes nothing of what the first call left, in the descriptors, the
    cursors and the registers the function assigns.  The call does not
    touch the two frame buffers. *)
Theorem init_descriptors_idempotent (lay : layout) (st : state) :
  ETH_InitDescriptors lay (ETH_InitDescriptors lay st)
  = ETH_InitDescriptors lay st ∧
  RxBuffer (ETH_InitDescriptors lay st) = RxBuffer st ∧
  TxBuffer (ETH_InitDescriptors lay st) = TxBuffer st.
Proof.
  split; [|split; reflexivity].
  unfold ETH_InitDescriptors. simpl. f_equal.
  - apply list_eq. intros i. unfold for_each_desc.
    rewrite !foldl_alter_seq_lookup.
    case_decide; [|done]. by destruct (RxDescriptors st !! i).
  - apply list_eq. intros i. unfold for_each_desc.
    rewrite !foldl_alter_seq_lookup.
    case_decide; [|done]. by destruct (TxDescriptors st !! i).
Qed.

(** * Further properties of the frame builder *)

Lemma memset_inv (dst dst' : list Z) (doff n : nat) (c : Z) :
  memset dst doff c n = Some dst' →
  (doff + n ≤ length dst)%nat ∧ length dst' = length dst.
Proof.
  unfold memset. case_decide as Hb; [|done]. intros [= <-]. split; [done|].
  rewrite !length_app, length_take, length_replicate, length_drop. lia.
Qed.

(** The length a defined call returns, and the size of the buffer. *)
Lemma BuildEthernetFrame_bounds (e : byte_order) (frame dest_mac src_mac : list Z)
    (ethertype : Z) (payload : list Z) (payload_len : Z)
    (frame' : list Z) (n : Z) :
  0 <= payload_len < 2 ^ 16 →
  BuildEthernetFrame e frame dest_mac src_mac ethertype payload payload_len
  = Some (frame', n) →
  60 <= n < 2 ^ 16 ∧
  (Z.to_nat n ≤ length frame')%nat ∧
  length frame' = length frame.
Proof.
  intros Hlen. unfold BuildEthernetFrame, store_u16.
  destruct (memcpy frame 0 dest_mac 0 6) as [f1|] eqn:H1; [simpl|done].
  destruct (memcpy f1 6 src_mac 0 6) as [f2|] eqn:H2; [simpl|done].
  destruct (memcpy f2 12 _ 0 2) as [f3|] eqn:H3; [simpl|done].
  destruct (memcpy f3 _ payload 0 _) as [f4|] eqn:H4; [simpl|done].
  pose proof (memcpy_length _ _ _ _ _ _ H1) as L1.
  pose proof (memcpy_length _ _ _ _ _ _ H2) as L2.
  pose proof (memcpy_length _ _ _ _ _ _ H3) as L3.
  pose proof (memcpy_length _ _ _ _ _ _ H4) as L4.
  apply memcpy_inv in H4 as (B4 & _ & _).
  unfold sizeof_EthernetHeader in *.
  assert (Ht : 0 <= u16 (14 + payload_len) < 2 ^ 16)
    by (apply Z.mod_pos_bound; lia).
  assert (Hle : u16 (14 + payload_len) <= 14 + payload_len).
  { unfold u16. apply Z.mod_le; lia. }
  destruct (Z.ltb_spec (u16 (14 + payload_len)) 60) as [Hs|Hs].
  - destruct (memset f4 _ 0 _) as [f5|] eqn:H5; [simpl|done].
    intros [= <- <-].
    apply memset_inv in H5 as (B5 & L5).
    split; [lia|]. split; [lia|congruence].
  - intros [= <- <-]. split; [lia|]. split; [lia|congruence].
Qed.

(** X8. Whatever its arguments, a defined call of [BuildEthernetFrame] returns
    a length of at least 60 that fits 16 bits and does not exceed the
    caller's buffer, and the buffer keeps its size. *)
Theorem build_length_bounds (e : byte_order) (frame dest_mac src_mac : list Z)
    (ethertype : Z) (payload : list Z) (payload_len : Z)
    (frame' : list Z) (n : Z) :
  0 <= payload_len < 2 ^ 16 →
  BuildEthernetFrame e frame dest_mac src_mac ethertype payload payload_len
  = Some (frame', n) →
  60 <= n < 2 ^ 16 ∧
  (Z.to_nat n ≤ length frame')%nat ∧
  length frame' = length frame.
Proof.
  exact (BuildEthernetFrame_bounds e frame dest_mac src_mac ethertype payload
           payload_len frame' n).
Qed.

Lemma build_length_bounds_witness :
  0 <= 16 < 2 ^ 16 ∧
  ∃ (frame' : list Z) (n : Z),
    BuildEthernetFrame LittleEndian (replicate 1518 0xEE) BroadcastMAC
                       MyMACAddress 0x0800 test_data 16
    = Some (frame', n) ∧
    60 <= n < 2 ^ 16 ∧
    (Z.to_nat n ≤ length frame')%nat ∧
    length frame' = length (replicate 1518 0xEE).
Proof.
  assert (H1 : 0 <= 16 < 2 ^ 16) by lia.
  split; [exact H1|].
  assert (Hb := BuildEthernetFrame_short LittleEndian (replicate 1518 0xEE)
                  BroadcastMAC MyMACAddress 0x0800 test_data 16
                  ltac:(vm_compute; lia) ltac:(vm_compute; lia)
                  ltac:(vm_compute; lia) ltac:(lia)
                  ltac:(rewrite length_replicate; lia)).
  eexists _, _. split; [exact Hb|].
  exact (build_length_bounds _ _ _ _ _ _ _ _ _ H1 Hb).
Defined.

(** The arguments the builder is defined on. *)
Lemma BuildEthernetFrame_defined (e : byte_order) (frame dest_mac src_mac : list Z)
    (ethertype : Z) (payload : list Z) (payload_len : Z) :
  0 <= payload_len → 14 + payload_len < 2 ^ 16 →
  is_Some (BuildEthernetFrame e frame dest_mac src_mac ethertype payload
                              payload_len) ↔
  (6 ≤ length dest_mac)%nat ∧ (6 ≤ length src_mac)%nat ∧
  (Z.to_nat payload_len ≤ length payload)%nat ∧
  (60 ≤ length frame)%nat ∧ (14 + Z.to_nat payload_len ≤ length frame)%nat.
Proof.
  intros Hlen Hmax. split.
  - intros [[frame' n] Hb].
    assert (H16 : 0 <= payload_len < 2 ^ 16) by lia.
    pose proof (BuildEthernetFrame_bounds _ _ _ _ _ _ _ _ _ H16 Hb)
      as (Hn & Hfit & Hsame).
    revert Hb. unfold BuildEthernetFrame, store_u16.
    destruct (memcpy frame 0 dest_mac 0 6) as [f1|] eqn:H1; [simpl|done].
    destruct (memcpy f1 6 src_mac 0 6) as [f2|] eqn:H2; [simpl|done].
    destruct (memcpy f2 12 _ 0 2) as [f3|] eqn:H3; [simpl|done].
    destruct (memcpy f3 _ payload 0 _) as [f4|] eqn:H4; [simpl|done].
    intros _.
    pose proof (memcpy_length _ _ _ _ _ _ H1) as L1.
    pose proof (memcpy_length _ _ _ _ _ _ H2) as L2.
    pose proof (memcpy_length _ _ _ _ _ _ H3) as L3.
    apply memcpy_inv in H1 as (_ & B1 & _).
    apply memcpy_inv in H2 as (_ & B2 & _).
    apply memcpy_inv in H4 as (B4 & B4' & _).
    unfold sizeof_EthernetHeader in *. lia.
  - intros (Hd & Hs & Hp & H60 & Hf).
    destruct (Z.lt_ge_cases payload_len 46).
    + rewrite BuildEthernetFrame_short by (done || lia). done.
    + rewrite BuildEthernetFrame_long by (done || lia). done.
Qed.

(** X9. For a frame length that fits 16 bits, [BuildEthernetFrame] is defined
    exactly when the two addresses have 6 bytes, the payload object has
    [payload_len] bytes, and the frame buffer has room for the frame and
    for no less than 60 bytes: even an empty payload needs a 60-byte
    buffer. *)
Theorem build_defined_iff (e : byte_order) (frame dest_mac src_mac : list Z)
    (ethertype : Z) (payload : list Z) (payload_len : Z) :
  0 <= payload_len → 14 + payload_len < 2 ^ 16 →
  is_Some (BuildEthernetFrame e frame dest_mac src_mac ethertype payload
                              payload_len) ↔
  (6 ≤ length dest_mac)%nat ∧ (6 ≤ length src_mac)%nat ∧
  (Z.to_nat payload_len ≤ length payload)%nat ∧
  (60 ≤ length frame)%nat ∧ (14 + Z.to_nat payload_len ≤ length frame)%nat.
Proof.
  exact (BuildEthernetFrame_defined e frame dest_mac src_mac ethertype payload
           payload_len).
Qed.

Lemma build_defined_iff_witness :
  0 <= 0 ∧ 14 + 0 < 2 ^ 16 ∧
  (is_Some (BuildEthernetFrame LittleEndian (replicate 59 0xEE) BroadcastMAC
                               MyMACAddress 0x0800 [] 0) ↔
   (6 ≤ length BroadcastMAC)%nat ∧ (6 ≤ length MyMACAddress)%nat ∧
   (Z.to_nat 0 ≤ length (@nil Z))%nat ∧
   (60 ≤ length (replicate 59 0xEE))%nat ∧
   (14 + Z.to_nat 0 ≤ length (replicate 59 0xEE))%nat) ∧
  BuildEthernetFrame LittleEndian (replicate 59 0xEE) BroadcastMAC
                     MyMACAddress 0x0800 [] 0 = None.
Proof.
  assert (H1 : 0 <= 0) by lia.
  assert (H2 : 14 + 0 < 2 ^ 16) by lia.
  do 2 (split; [assumption|]).
  split; [|vm_compute; reflexivity].
  exact (build_defined_iff LittleEndian (replicate 59 0xEE) BroadcastMAC
           MyMACAddress 0x0800 [] 0 H1 H2).
Defined.

(** X10. The frame does not depend on what the buffer held before: for two
    buffers of sufficient size the call returns the same length [n] and
    the same first [n] bytes.  No stale byte of the buffer is part of the
    frame. *)
Theorem build_ignores_old_contents (e : byte_order)
    (frame1 frame2 dest_mac src_mac : list Z) (ethertype : Z)
    (payload : list Z) (payload_len : Z) :
  (6 ≤ length dest_mac)%nat → (6 ≤ length src_mac)%nat →
  0 <= payload_len → 14 + payload_len < 2 ^ 16 →
  (Z.to_nat payload_len ≤ length payload)%nat →
  (60 ≤ length frame1)%nat → (14 + Z.to_nat payload_len ≤ length frame1)%nat →
  (60 ≤ length frame2)%nat → (14 + Z.to_nat payload_len ≤ length frame2)%nat →
  ∃ (frame1' frame2' : list Z) (n : Z),
    BuildEthernetFrame e frame1 dest_mac src_mac ethertype payload payload_len
    = Some (frame1', n) ∧
    BuildEthernetFrame e frame2 dest_mac src_mac ethertype payload payload_len
    = Some (frame2', n) ∧
    (Z.to_nat n ≤ length frame1')%nat ∧
    take (Z.to_nat n) frame1' = take (Z.to_nat n) frame2'.
Proof.
  intros Hd Hs Hlen Hmax Hp H1 H1' H2 H2'.
  pose proof (frame_bytes_length e dest_mac src_mac ethertype payload payload_len
                Hd Hs Hp) as Hfb.
  destruct (Z.lt_ge_cases payload_len 46).
  - eexists _, _, _.
    split; [by apply BuildEthernetFrame_short|].
    split; [by apply BuildEthernetFrame_short|].
    assert (Hl : length (frame_bytes e dest_mac src_mac ethertype payload payload_len
                         ++ replicate (Z.to_nat (60 - (14 + payload_len))) 0)
                 = Z.to_nat 60)
      by (rewrite length_app, length_replicate, Hfb; lia).
    split; [rewrite length_app, Hl; lia|].
    by rewrite !take_app_length'.
  - eexists _, _, _.
    split; [by apply BuildEthernetFrame_long|].
    split; [by apply BuildEthernetFrame_long|].
    assert (Hl : length (frame_bytes e dest_mac src_mac ethertype payload payload_len)
                 = Z.to_nat (14 + payload_len)) by (rewrite Hfb; lia).
    split; [rewrite length_app, Hl; lia|].
    by rewrite !take_app_length'.
Qed.

Lemma build_ignores_old_contents_witness :
  (6 ≤ length BroadcastMAC)%nat ∧ (6 ≤ length MyMACAddress)%nat ∧
  0 <= 16 ∧ 14 + 16 < 2 ^ 16 ∧
  (Z.to_nat 16 ≤ length test_data)%nat ∧
  (60 ≤ length (replicate 1518 0xEE))%nat ∧
  (14 + Z.to_nat 16 ≤ length (replicate 1518 0xEE))%nat ∧
  (60 ≤ length (replicate 60 0x00))%nat ∧
  (14 + Z.to_nat 16 ≤ length (replicate 60 0x00))%nat ∧
  ∃ (frame1' frame2' : list Z) (n : Z),
    BuildEthernetFrame LittleEndian (replicate 1518 0xEE) BroadcastMAC
                       MyMACAddress 0x0800 test_data 16 = Some (frame1', n) ∧
    BuildEthernetFrame LittleEndian (replicate 60 0x00) BroadcastMAC
                       MyMACAddress 0x0800 test_data 16 = Some (frame2', n) ∧
    take (Z.to_nat n) frame1' = take (Z.to_nat n) frame2'.
Proof.
  assert (H1 : (6 ≤ length BroadcastMAC)%nat) by (vm_compute; lia).
  assert (H2 : (6 ≤ length MyMACAddress)%nat) by (vm_compute; lia).
  assert (H3 : 0 <= 16) by lia.
  assert (H4 : 14 + 16 < 2 ^ 16) by lia.
  assert (H5 : (Z.to_nat 16 ≤ length test_data)%nat) by (vm_compute; lia).
  assert (H6 : (60 ≤ length (replicate 1518 0xEE))%nat)
    by (rewrite length_replicate; lia).
  assert (H7 : (14 + Z.to_nat 16 ≤ length (replicate 1518 0xEE))%nat)
    by (rewrite length_replicate; lia).
  assert (H8 : (60 ≤ length (replicate 60 0x00))%nat)
    by (rewrite length_replicate; lia).
  assert (H9 : (14 + Z.to_nat 16 ≤ length (replicate 60 0x00))%nat)
    by (rewrite length_replicate; lia).
  do 9 (split; [assumption|]).
  destruct (build_ignores_old_contents LittleEndian (replicate 1518 0xEE)
              (replicate 60 0x00) BroadcastMAC MyMACAddress 0x0800 test_data 16
              H1 H2 H3 H4 H5 H6 H7 H8 H9)
    as (f1 & f2 & n & Hb1 & Hb2 & _ & Heq).
  exists f1, f2, n. split; [exact Hb1|]. split; [exact Hb2|exact Heq].
Defined.

(** ** Building and sending *)

Lemma send_slot_prefix (buf buf' data : list Z) (i n : nat) :
  memcpy buf (i * Z.to_nat ETH_TX_BUF_SIZE) data 0 n = Some buf' →
  (n ≤ Z.to_nat ETH_TX_BUF_SIZE)%nat →
  take n (slot ETH_TX_BUF_SIZE i buf') = take n data.
Proof.
  intros Hcopy Hn. apply list_eq. intros j.
  rewrite !lookup_take. case_decide; [|done].
  rewrite slot_lookup, decide_True by lia.
  by rewrite (memcpy_lookup_inside _ _ _ _ _ _ j Hcopy).
Qed.

(** X11. A frame built from a payload of at most 1522 bytes can be handed to
    [ETH_SendFrame] as it is: its length is between 60 and the slot size
    1536, the call on a free descriptor returns 1, and the slot under the
    old cursor starts with exactly the bytes of the frame. *)
Theorem build_then_send (e : byte_order) (lay : layout) (st : state)
    (frame dest_mac src_mac : list Z) (ethertype : Z) (payload : list Z)
    (payload_len : Z) (d : ETH_DMADescTypeDef) :
  wf st →
  TxDescriptors st !! Z.to_nat (TxDescIdx st) = Some d →
  Z.testbit (DESC3 d) 31 = false →
  (6 ≤ length dest_mac)%nat → (6 ≤ length src_mac)%nat →
  0 <= payload_len <= ETH_TX_BUF_SIZE - sizeof_EthernetHeader →
  (Z.to_nat payload_len ≤ length payload)%nat →
  (60 ≤ length frame)%nat → (14 + Z.to_nat payload_len ≤ length frame)%nat →
  ∃ (frame' : list Z) (n : Z) (st' : state),
    BuildEthernetFrame e frame dest_mac src_mac ethertype payload payload_len
    = Some (frame', n) ∧
    60 <= n <= ETH_TX_BUF_SIZE ∧
    ETH_SendFrame lay st frame' n = Some (st', 1) ∧
    take (Z.to_nat n) (slot ETH_TX_BUF_SIZE (Z.to_nat (TxDescIdx st)) (TxBuffer st'))
    = take (Z.to_nat n) frame' ∧
    TxDescIdx st' = (TxDescIdx st + 1) mod ETH_TX_DESC_CNT.
Proof.
  intros Hwf Hd Hown Hdm Hsm Hlen Hp H60 Hf.
  unfold ETH_TX_BUF_SIZE, sizeof_EthernetHeader in Hlen.
  assert (Hdef : is_Some (BuildEthernetFrame e frame dest_mac src_mac ethertype
                            payload payload_len)).
  { apply BuildEthernetFrame_defined; [lia|lia|done]. }
  destruct Hdef as [[frame' n] Hb].
  assert (H16 : 0 <= payload_len < 2 ^ 16) by lia.
  destruct (BuildEthernetFrame_bounds _ _ _ _ _ _ _ _ _ H16 Hb) as (Hn & Hfit & Hsame).
  assert (Hn' : n <= 1536).
  { destruct (Z.lt_ge_cases payload_len 46).
    - rewrite BuildEthernetFrame_short in Hb by (done || lia).
      injection Hb as _ <-. lia.
    - rewrite BuildEthernetFrame_long in Hb by (done || lia).
      injection Hb as _ <-. lia. }
  pose proof Hwf as [_ _ _ Htxb [Hi0 Hi1] _].
  unfold ETH_TX_DESC_CNT, ETH_TX_BUF_SIZE in *.
  destruct (memcpy (TxBuffer st) (Z.to_nat (TxDescIdx st) * Z.to_nat 1536)
              frame' 0 (Z.to_nat n)) as [buf|] eqn:Hcopy;
    [|by rewrite memcpy_Some in Hcopy by lia].
  pose proof (ETH_SendFrame_free lay st frame' n d buf Hd Hown Hcopy) as Hs.
  eexists frame', n, _. split; [exact Hb|]. split; [lia|].
  split; [exact Hs|]. simpl. split.
  - apply (send_slot_prefix (TxBuffer st)); [exact Hcopy|].
    unfold ETH_TX_BUF_SIZE. lia.
  - unfold ETH_TX_DESC_CNT. by rewrite u32_small by lia.
Qed.

Lemma build_then_send_witness :
  wf reset_state ∧
  TxDescriptors reset_state !! Z.to_nat (TxDescIdx reset_state) = Some zero_desc ∧
  Z.testbit (DESC3 zero_desc) 31 = false ∧
  (6 ≤ length BroadcastMAC)%nat ∧ (6 ≤ length MyMACAddress)%nat ∧
  0 <= 16 <= ETH_TX_BUF_SIZE - sizeof_EthernetHeader ∧
  (Z.to_nat 16 ≤ length test_data)%nat ∧
  (60 ≤ length (replicate 1518 0xEE))%nat ∧
  (14 + Z.to_nat 16 ≤ length (replicate 1518 0xEE))%nat ∧
  ∃ (frame' : list Z) (n : Z) (st' : state),
    BuildEthernetFrame LittleEndian (replicate 1518 0xEE) BroadcastMAC
                       MyMACAddress 0x0800 test_data 16 = Some (frame', n) ∧
    60 <= n <= ETH_TX_BUF_SIZE ∧
    ETH_SendFrame sample_layout reset_state frame' n = Some (st', 1).
Proof.
  assert (H1 : TxDescriptors reset_state !! Z.to_nat (TxDescIdx reset_state)
               = Some zero_desc) by reflexivity.
  assert (H2 : Z.testbit (DESC3 zero_desc) 31 = false) by reflexivity.
  assert (H3 : (6 ≤ length BroadcastMAC)%nat) by (vm_compute; lia).
  assert (H4 : (6 ≤ length MyMACAddress)%nat) by (vm_compute; lia).
  assert (H5 : 0 <= 16 <= ETH_TX_BUF_SIZE - sizeof_EthernetHeader)
    by (unfold ETH_TX_BUF_SIZE, sizeof_EthernetHeader; lia).
  assert (H6 : (Z.to_nat 16 ≤ length test_data)%nat) by (vm_compute; lia).
  assert (H7 : (60 ≤ length (replicate 1518 0xEE))%nat)
    by (rewrite length_replicate; lia).
  assert (H8 : (14 + Z.to_nat 16 ≤ length (replicate 1518 0xEE))%nat)
    by (rewrite length_replicate; lia).
  split; [exact reset_state_wf|]. do 8 (split; [assumption|]).
  destruct (build_then_send LittleEndian sample_layout reset_state
              (replicate 1518 0xEE) BroadcastMAC MyMACAddress 0x0800 test_data 16
              zero_desc reset_state_wf H1 H2 H3 H4 H5 H6 H7 H8)
    as (frame' & n & st' & Hb & Hn & Hs & _).
  exists frame', n, st'. split; [exact Hb|]. split; [exact Hn|exact Hs].
Defined.

(** * Pin and register configuration *)

(** ** Bit fields of 32-bit registers *)

Lemma testbit_u32 (x i : Z) :
  0 <= i → Z.testbit (u32 x) i = (i <? 32) && Z.testbit x i.
Proof.
  intros Hi. unfold u32. destruct (Z.ltb_spec i 32).
  - by rewrite Z.mod_pow2_bits_low by lia.
  - by rewrite Z.mod_pow2_bits_high by lia.
Qed.

Lemma testbit_shl32 (x n i : Z) :
  0 <= i → 0 <= n →
  Z.testbit (shl32 x n) i = (i <? 32) && Z.testbit x (i - n).
Proof.
  intros Hi Hn. unfold shl32. rewrite testbit_u32 by done.
  by rewrite Z.shiftl_spec by done.
Qed.

Lemma testbit_not32 (x i : Z) :
  0 <= i → Z.testbit (not32 x) i = (i <? 32) && negb (Z.testbit x i).
Proof.
  intros Hi. unfold not32. rewrite testbit_u32 by done.
  by rewrite Z.lnot_spec by done.
Qed.

Lemma testbit_bitfield (w k x j : Z) :
  0 <= j → 0 <= w → 0 <= k →
  Z.testbit (bitfield w k x) j = (j <? w) && Z.testbit x (w * k + j).
Proof.
  intros Hj Hw Hk. unfold bitfield.
  rewrite Z.land_spec, Z.shiftr_spec by done.
  rewrite Z.testbit_ones_nonneg by lia.
  rewrite (Z.add_comm j). apply andb_comm.
Qed.

Lemma testbit_small (v w j : Z) :
  0 <= v < 2 ^ w → 0 <= w → (j < 0 ∨ w <= j) → Z.testbit v j = false.
Proof.
  intros Hv Hw [Hj|Hj].
  - by apply Z.testbit_neg_r.
  - by apply (testbit_above v w j).
Qed.

(** [x |= v << (w * k)]: field [k] takes the bits of [v] in, every other
    field is as before. *)
Lemma bitfield_set (w k q v x : Z) :
  0 < w → 0 <= k → 0 <= q → w * (k + 1) <= 32 → 0 <= v < 2 ^ w →
  bitfield w q (Z.lor x (shl32 v (w * k)))
  = if q =? k then Z.lor (bitfield w k x) v else bitfield w q x.
Proof.
  intros Hw Hk Hq Hfit Hv.
  destruct (Z.eqb_spec q k) as [->|Hne]; apply Z.bits_inj'; intros j Hj.
  - rewrite Z.lor_spec, !testbit_bitfield, Z.lor_spec, testbit_shl32 by nia.
    replace (w * k + j - w * k) with j by lia.
    destruct (Z.ltb_spec j w).
    + destruct (Z.ltb_spec (w * k + j) 32); [|nia]. by rewrite andb_true_l.
    + rewrite (testbit_small v w j) by (done || lia). by rewrite andb_false_r.
  - rewrite !testbit_bitfield, Z.lor_spec, testbit_shl32 by nia.
    destruct (Z.ltb_spec j w); [|done].
    rewrite (testbit_small v w (w * q + j - w * k)) by (done || nia).
    by rewrite andb_false_r, orb_false_r.
Qed.

(** [x &= ~(m << (w * k))]: field [k] loses the bits of [m], every other
    field inside the register is as before. *)
Lemma bitfield_clear (w k q m x : Z) :
  0 < w → 0 <= k → 0 <= q → w * (k + 1) <= 32 → w * (q + 1) <= 32 →
  0 <= m < 2 ^ w →
  bitfield w q (Z.land x (not32 (shl32 m (w * k))))
  = if q =? k then Z.ldiff (bitfield w k x) m else bitfield w q x.
Proof.
  intros Hw Hk Hq Hfit Hfitq Hm.
  destruct (Z.eqb_spec q k) as [->|Hne]; apply Z.bits_inj'; intros j Hj.
  - rewrite Z.ldiff_spec, !testbit_bitfield, Z.land_spec, testbit_not32,
      testbit_shl32 by nia.
    replace (w * k + j - w * k) with j by lia.
    destruct (Z.ltb_spec j w); [|done].
    destruct (Z.ltb_spec (w * k + j) 32); [|nia].
    by rewrite !andb_true_l.
  - rewrite !testbit_bitfield, Z.land_spec, testbit_not32, testbit_shl32 by nia.
    destruct (Z.ltb_spec j w); [|done].
    destruct (Z.ltb_spec (w * q + j) 32); [|nia].
    rewrite (testbit_small m w (w * q + j - w * k)) by (done || nia).
    by rewrite !andb_true_l, andb_true_r.
Qed.

Lemma bitfield_range (w k x : Z) : 0 <= w → 0 <= bitfield w k x < 2 ^ w.
Proof.
  intros Hw. unfold bitfield. rewrite Z.land_ones by done.
  apply Z.mod_pos_bound. by apply Z.pow_pos_nonneg.
Qed.

Lemma ldiff_bitfield_ones (w k x : Z) :
  0 <= w → 0 <= k → Z.ldiff (bitfield w k x) (Z.ones w) = 0.
Proof.
  intros Hw Hk. apply Z.bits_inj'. intros j Hj.
  rewrite Z.ldiff_spec, testbit_bitfield, Z.testbit_ones_nonneg, Z.bits_0 by lia.
  destruct (Z.ltb_spec j w); [|done]. by rewrite andb_false_r.
Qed.

Lemma lor_bitfield_ones (w k x : Z) :
  0 <= w → 0 <= k → Z.lor (bitfield w k x) (Z.ones w) = Z.ones w.
Proof.
  intros Hw Hk. apply Z.bits_inj'. intros j Hj.
  rewrite Z.lor_spec, testbit_bitfield, Z.testbit_ones_nonneg by lia.
  destruct (Z.ltb_spec j w); [by rewrite orb_true_r|done].
Qed.

Lemma ones_range (w : Z) : 0 < w → 0 <= Z.ones w < 2 ^ w.
Proof.
  intros Hw. rewrite Z.ones_equiv.
  assert (0 < 2 ^ w) by (apply Z.pow_pos_nonneg; lia). lia.
Qed.

(** The three writes of the source, on field [k] of width [w]. *)
Lemma bitfield_write (w k q v x : Z) :
  0 < w → 0 <= k → 0 <= q → w * (k + 1) <= 32 → w * (q + 1) <= 32 →
  0 <= v < 2 ^ w →
  bitfield w q (Z.lor (Z.land x (not32 (shl32 (Z.ones w) (w * k))))
                      (shl32 v (w * k)))
  = if q =? k then v else bitfield w q x.
Proof.
  intros Hw Hk Hq Hfit Hfitq Hv.
  rewrite bitfield_set by done.
  rewrite !bitfield_clear by (done || by apply ones_range).
  rewrite Z.eqb_refl, ldiff_bitfield_ones by lia.
  by destruct (q =? k).
Qed.

Lemma bitfield_set_ones (w k q x : Z) :
  0 < w → 0 <= k → 0 <= q → w * (k + 1) <= 32 →
  bitfield w q (Z.lor x (shl32 (Z.ones w) (w * k)))
  = if q =? k then Z.ones w else bitfield w q x.
Proof.
  intros Hw Hk Hq Hfit.
  rewrite bitfield_set by (done || by apply ones_range).
  by rewrite lor_bitfield_ones by lia.
Qed.

Lemma bitfield_clear_ones (w k q x : Z) :
  0 < w → 0 <= k → 0 <= q → w * (k + 1) <= 32 → w * (q + 1) <= 32 →
  bitfield w q (Z.land x (not32 (shl32 (Z.ones w) (w * k))))
  = if q =? k then 0 else bitfield w q x.
Proof.
  intros Hw Hk Hq Hfit Hfitq.
  rewrite bitfield_clear by (done || by apply ones_range).
  by rewrite ldiff_bitfield_ones by lia.
Qed.

(** ** [GPIO_ConfigurePin] *)

(** The settings of every pin of the port after a call. *)
Lemma GPIO_ConfigurePin_pin_config (port : GPIO_TypeDef) (pin af : Z) :
  0 <= pin < 16 → 0 <= af < 16 →
  ∃ port' : GPIO_TypeDef,
    GPIO_ConfigurePin port pin af = Some port' ∧
    (∀ q : Z, 0 <= q < 16 →
       pin_config port' q
       = if q =? pin then (2, 0, 3, 0, af) else pin_config port q) ∧
    (IDR port', ODR port', BSRR port', LCKR port')
    = (IDR port, ODR port, BSRR port, LCKR port).
Proof.
  intros Hpin Haf. unfold GPIO_ConfigurePin.
  rewrite decide_True by lia.
  change 3 with (Z.ones 2). change 15 with (Z.ones 4).
  rewrite (Z.mul_comm pin 2), (Z.mul_comm pin 4), (Z.mul_comm (pin - 8) 4).
  assert (HO : ∀ q, 0 <= q < 16 →
            bitfield 1 q (Z.land (OTYPER port) (not32 (shl32 1 pin)))
            = if q =? pin then 0 else bitfield 1 q (OTYPER port)).
  { intros q Hq. change 1 with (Z.ones 1) at 2.
    rewrite <- (Z.mul_1_l pin) at 1. apply bitfield_clear_ones; lia. }
  destruct (Z.ltb_spec pin 8) as [Hlo|Hhi].
  - eexists. split; [reflexivity|]. split; [|reflexivity].
    intros q Hq. unfold pin_config, af_field. simpl.
    rewrite bitfield_write, bitfield_set_ones, HO by lia.
    rewrite (bitfield_clear_ones 2) by lia.
    destruct (Z.ltb_spec q 8).
    + rewrite bitfield_write by lia. by destruct (Z.eqb_spec q pin).
    + destruct (Z.eqb_spec q pin); [lia|done].
  - eexists. split; [reflexivity|]. split; [|reflexivity].
    intros q Hq. unfold pin_config, af_field. simpl.
    rewrite bitfield_write, bitfield_set_ones, HO by lia.
    rewrite (bitfield_clear_ones 2) by lia.
    destruct (Z.ltb_spec q 8).
    + destruct (Z.eqb_spec q pin); [lia|done].
    + rewrite bitfield_write by lia.
      destruct (Z.eqb_spec q pin) as [->|Hne].
      * by rewrite Z.eqb_refl.
      * destruct (Z.eqb_spec (q - 8) (pin - 8)); [lia|done].
Qed.

(** X12. For a pin 0..15 and an alternate function 0..15 the call is defined.
    Afterwards the pin is in alternate-function mode (mode 2), push-pull
    (type 0), very high speed (3), without pull resistor (0), and its AF
    field is [af]; the five settings of every other pin of the port are as
    before, and so are IDR, ODR, BSRR and LCKR. *)
Theorem GPIO_ConfigurePin_fields (port : GPIO_TypeDef) (pin af : Z) :
  0 <= pin < 16 → 0 <= af < 16 →
  ∃ port' : GPIO_TypeDef,
    GPIO_ConfigurePin port pin af = Some port' ∧
    (∀ q : Z, 0 <= q < 16 →
       pin_config port' q
       = if q =? pin then (2, 0, 3, 0, af) else pin_config port q) ∧
    (IDR port', ODR port', BSRR port', LCKR port')
    = (IDR port, ODR port, BSRR port, LCKR port).
Proof.
  exact (GPIO_ConfigurePin_pin_config port pin af).
Qed.

Lemma GPIO_ConfigurePin_fields_witness :
  0 <= 7 < 16 ∧ 0 <= GPIO_AF11_ETH < 16 ∧
  ∃ port' : GPIO_TypeDef,
    GPIO_ConfigurePin (mkGPIO 0xABFFFFFF 0 0x0C000000 0x64000000 0 0 0 0 0 0)
                      7 GPIO_AF11_ETH = Some port' ∧
    pin_config port' 7 = (2, 0, 3, 0, 11) ∧
    pin_config port' 15 = (2, 0, 0, 1, 0).
Proof.
  assert (H1 : 0 <= 7 < 16) by lia.
  assert (H2 : 0 <= GPIO_AF11_ETH < 16) by (unfold GPIO_AF11_ETH; lia).
  do 2 (split; [assumption|]).
  destruct (GPIO_ConfigurePin_fields
              (mkGPIO 0xABFFFFFF 0 0x0C000000 0x64000000 0 0 0 0 0 0)
              7 GPIO_AF11_ETH H1 H2) as (port' & Hc & Hf & _).
  exists port'. split; [exact Hc|]. split.
  - rewrite (Hf 7) by lia. reflexivity.
  - rewrite (Hf 15) by lia. reflexivity.
Defined.

(** X13. [af] is not masked before it is shifted into AFR: with a value of 16
    or more the low four bits land in the field of the pin and the high
    bits are or-ed into the field of the next pin. *)
Theorem GPIO_ConfigurePin_af_overflow (port : GPIO_TypeDef) (pin af : Z) :
  0 <= pin < 7 → 16 <= af < 256 →
  ∃ port' : GPIO_TypeDef,
    GPIO_ConfigurePin port pin af = Some port' ∧
    af_field port' pin = af mod 16 ∧
    af_field port' (pin + 1) = Z.lor (af_field port (pin + 1)) (af / 16) ∧
    af / 16 ≠ 0.
Proof.
  intros Hpin Haf. unfold GPIO_ConfigurePin.
  rewrite decide_True by lia.
  destruct (Z.ltb_spec pin 8) as [_|]; [|lia].
  eexists. split; [reflexivity|]. unfold af_field. simpl.
  destruct (Z.ltb_spec pin 8) as [_|]; [|lia].
  destruct (Z.ltb_spec (pin + 1) 8) as [_|]; [|lia].
  assert (Hhi : 0 <= af / 16 < 16).
  { split; [apply Z.div_pos; lia|apply Z.div_lt_upper_bound; lia]. }
  split; [|split].
  - apply Z.bits_inj'. intros j Hj.
    change 16 with (2 ^ 4). rewrite <- Z.land_ones by lia.
    rewrite testbit_bitfield, Z.lor_spec, Z.land_spec, testbit_not32,
      !testbit_shl32, Z.land_spec, Z.testbit_ones_nonneg by lia.
    replace (4 * pin + j - pin * 4) with j by lia.
    change 15 with (Z.ones 4). rewrite Z.testbit_ones_nonneg by lia.
    destruct (Z.ltb_spec j 4); [|simpl; by rewrite andb_false_r].
    destruct (Z.ltb_spec (4 * pin + j) 32); [|lia].
    simpl. by rewrite !andb_false_r, andb_true_r.
  - apply Z.bits_inj'. intros j Hj.
    rewrite Z.lor_spec, !testbit_bitfield, Z.lor_spec, Z.land_spec,
      testbit_not32, !testbit_shl32 by lia.
    replace (4 * (pin + 1) + j - pin * 4) with (j + 4) by lia.
    change 15 with (Z.ones 4). rewrite Z.testbit_ones_nonneg by lia.
    change 16 with (2 ^ 4). rewrite <- Z.shiftr_div_pow2, Z.shiftr_spec by lia.
    destruct (Z.ltb_spec j 4).
    + destruct (Z.ltb_spec (4 * (pin + 1) + j) 32); [|lia].
      destruct (Z.ltb_spec (j + 4) 4); [lia|].
      simpl. by rewrite andb_true_r.
    + simpl. symmetry.
      apply (testbit_above af 8); lia.
  - assert (1 <= af / 16) by (apply Z.div_le_lower_bound; lia). lia.
Qed.

Lemma GPIO_ConfigurePin_af_overflow_witness :
  0 <= 0 < 7 ∧ 16 <= 0x1B < 256 ∧
  ∃ port' : GPIO_TypeDef,
    GPIO_ConfigurePin (mkGPIO 0 0 0 0 0 0 0 0 0 0) 0 0x1B = Some port' ∧
    af_field port' 0 = 11 ∧ af_field port' 1 = 1.
Proof.
  assert (H1 : 0 <= 0 < 7) by lia.
  assert (H2 : 16 <= 0x1B < 256) by lia.
  do 2 (split; [assumption|]).
  destruct (GPIO_ConfigurePin_af_overflow (mkGPIO 0 0 0 0 0 0 0 0 0 0) 0 0x1B H1 H2)
    as (port' & Hc & H0 & H1' & _).
  exists port'. split; [exact Hc|]. split.
  - rewrite H0. reflexivity.
  - etransitivity; [exact H1'|]. reflexivity.
Defined.

(** ** [ETH_ConfigureGPIO] *)

(** X14. The call is defined for any contents of the four ports.  Afterwards
    each of the nine RMII pins (PA1, PA2, PA7, PB13, PC1, PC4, PC5, PG11,
    PG13) is an AF11 push-pull very-high-speed pin without pull resistor,
    and the settings of every other pin of the four ports are as before:
    configuring one pin never disturbs another pin of the same port. *)
Theorem ETH_ConfigureGPIO_pins (p : gpio_ports) :
  ∃ p' : gpio_ports,
    ETH_ConfigureGPIO p = Some p' ∧
    ∀ (n : port_name) (q : Z), 0 <= q < 16 →
      pin_config (port_of p' n) q
      = if is_rmii_pin n q then (2, 0, 3, 0, 11) else pin_config (port_of p n) q.
Proof.
  assert (Haf : 0 <= GPIO_AF11_ETH < 16) by (unfold GPIO_AF11_ETH; lia).
  unfold ETH_ConfigureGPIO.
  destruct (GPIO_ConfigurePin_pin_config (GPIOA p) 1 _ ltac:(lia) Haf)
    as (a1 & -> & Ha1 & _); cbn [mbind option_bind].
  destruct (GPIO_ConfigurePin_pin_config a1 2 _ ltac:(lia) Haf)
    as (a2 & -> & Ha2 & _); cbn [mbind option_bind].
  destruct (GPIO_ConfigurePin_pin_config a2 7 _ ltac:(lia) Haf)
    as (a3 & -> & Ha3 & _); cbn [mbind option_bind].
  destruct (GPIO_ConfigurePin_pin_config (GPIOB p) 13 _ ltac:(lia) Haf)
    as (b1 & -> & Hb1 & _); cbn [mbind option_bind].
  destruct (GPIO_ConfigurePin_pin_config (GPIOC p) 1 _ ltac:(lia) Haf)
    as (c1 & -> & Hc1 & _); cbn [mbind option_bind].
  destruct (GPIO_ConfigurePin_pin_config c1 4 _ ltac:(lia) Haf)
    as (c2 & -> & Hc2 & _); cbn [mbind option_bind].
  destruct (GPIO_ConfigurePin_pin_config c2 5 _ ltac:(lia) Haf)
    as (c3 & -> & Hc3 & _); cbn [mbind option_bind].
  destruct (GPIO_ConfigurePin_pin_config (GPIOG p) 11 _ ltac:(lia) Haf)
    as (g1 & -> & Hg1 & _); cbn [mbind option_bind].
  destruct (GPIO_ConfigurePin_pin_config g1 13 _ ltac:(lia) Haf)
    as (g2 & -> & Hg2 & _); cbn [mbind option_bind].
  eexists. split; [reflexivity|].
  intros n q Hq. unfold GPIO_AF11_ETH in *.
  destruct n; simpl.
  - rewrite Ha3, Ha2, Ha1 by done.
    destruct (Z.eqb_spec q 7), (Z.eqb_spec q 2), (Z.eqb_spec q 1);
      simpl; (reflexivity || lia).
  - rewrite Hb1 by done. reflexivity.
  - rewrite Hc3, Hc2, Hc1 by done.
    destruct (Z.eqb_spec q 5), (Z.eqb_spec q 4), (Z.eqb_spec q 1);
      simpl; (reflexivity || lia).
  - rewrite Hg2, Hg1 by done.
    destruct (Z.eqb_spec q 13), (Z.eqb_spec q 11); simpl; (reflexivity || lia).
Qed.

(** ** [ETH_EnableClocks] *)

Lemma testbit_bit (k i : Z) :
  0 <= k → Z.testbit (Z.shiftl 1 k) i = (i =? k).
Proof.
  intros Hk. rewrite Z.shiftl_1_l. destruct (Z.eqb_spec i k) as [->|Hne].
  - by apply Z.pow2_bits_true.
  - by apply Z.pow2_bits_false.
Qed.

(** X15. The call sets the clock enable bits of GPIOA, GPIOB, GPIOC and GPIOG,
    of SYSCFG and of the three Ethernet clocks; every other bit of the
    three registers is as before, so no clock that was on is switched off,
    and a second call changes nothing. *)
Theorem ETH_EnableClocks_bits (rcc : RCC_TypeDef) :
  (∀ i : Z,
     Z.testbit (AHB4ENR (ETH_EnableClocks rcc)) i
     = Z.testbit (AHB4ENR rcc) i
       || (i =? 0) || (i =? 1) || (i =? 2) || (i =? 6)) ∧
  (∀ i : Z,
     Z.testbit (APB4ENR (ETH_EnableClocks rcc)) i
     = Z.testbit (APB4ENR rcc) i || (i =? 1)) ∧
  (∀ i : Z,
     Z.testbit (AHB1ENR (ETH_EnableClocks rcc)) i
     = Z.testbit (AHB1ENR rcc) i || (i =? 15) || (i =? 16) || (i =? 17)) ∧
  ETH_EnableClocks (ETH_EnableClocks rcc) = ETH_EnableClocks rcc.
Proof.
  unfold ETH_EnableClocks, RCC_AHB4ENR_GPIOAEN, RCC_AHB4ENR_GPIOBEN,
    RCC_AHB4ENR_GPIOCEN, RCC_AHB4ENR_GPIOGEN, RCC_APB4ENR_SYSCFGEN,
    RCC_AHB1ENR_ETH1MACEN, RCC_AHB1ENR_ETH1TXEN, RCC_AHB1ENR_ETH1RXEN.
  cbn [AHB1ENR AHB4ENR APB4ENR].
  repeat split.
  - intros i. by rewrite !Z.lor_spec, !testbit_bit by lia.
  - intros i. by rewrite !Z.lor_spec, !testbit_bit by lia.
  - intros i. by rewrite !Z.lor_spec, !testbit_bit by lia.
  - f_equal; apply Z.bits_inj'; intros i _;
      rewrite !Z.lor_spec, !testbit_bit by lia;
      destruct (Z.testbit _ i); simpl; try done;
      repeat (match goal with |- context [?a =? ?b] => destruct (a =? b) end;
              simpl; try done).
Qed.

(** ** [ETH_SelectRMII] *)

(** X16. The mask is or-ed into [PMCR]: the field [EPIS] ends up as its old
    value with bit 2 set, and the other bits of the register stay.  So the
    field holds the RMII code 4 after the call exactly when bits 21 and 22
    of [PMCR] were clear before it. *)
Theorem ETH_SelectRMII_field (syscfg : SYSCFG_TypeDef) :
  EPIS (ETH_SelectRMII syscfg) = Z.lor (EPIS syscfg) 4 ∧
  (EPIS (ETH_SelectRMII syscfg) = 4
   ↔ Z.testbit (PMCR syscfg) 21 = false ∧ Z.testbit (PMCR syscfg) 22 = false) ∧
  (∀ i : Z, i ≠ 23 →
     Z.testbit (PMCR (ETH_SelectRMII syscfg)) i = Z.testbit (PMCR syscfg) i).
Proof.
  assert (Hf : EPIS (ETH_SelectRMII syscfg) = Z.lor (EPIS syscfg) 4).
  { unfold EPIS, ETH_SelectRMII, SYSCFG_PMCR_EPIS_RMII. cbn [PMCR].
    apply Z.bits_inj'. intros j Hj.
    rewrite Z.lor_spec, !testbit_bitfield, Z.lor_spec, Z.shiftl_spec by lia.
    replace (3 * 7 + j - 21) with j by lia.
    destruct (Z.ltb_spec j 3); [done|].
    simpl. symmetry. apply (testbit_above 4 3); lia. }
  split; [exact Hf|]. split.
  - rewrite Hf. unfold EPIS. split.
    + intros H4. split.
      * assert (Hb : Z.testbit (Z.lor (bitfield 3 7 (PMCR syscfg)) 4) 0 = false)
          by (by rewrite H4).
        rewrite Z.lor_spec, testbit_bitfield in Hb by lia.
        change (3 * 7 + 0) with 21 in Hb.
        by destruct (Z.testbit (PMCR syscfg) 21).
      * assert (Hb : Z.testbit (Z.lor (bitfield 3 7 (PMCR syscfg)) 4) 1 = false)
          by (by rewrite H4).
        rewrite Z.lor_spec, testbit_bitfield in Hb by lia.
        change (3 * 7 + 1) with 22 in Hb.
        by destruct (Z.testbit (PMCR syscfg) 22).
    + intros [H21 H22]. apply Z.bits_inj'. intros j Hj.
      rewrite Z.lor_spec, testbit_bitfield by lia.
      destruct (Z.ltb_spec j 3).
      * assert (j = 0 ∨ j = 1 ∨ j = 2) as [->|[->| ->]] by lia.
        -- change (3 * 7 + 0) with 21. by rewrite H21.
        -- change (3 * 7 + 1) with 22. by rewrite H22.
        -- by rewrite orb_true_r.
      * done.
  - intros i Hi. unfold ETH_SelectRMII, SYSCFG_PMCR_EPIS_RMII. cbn [PMCR].
    rewrite Z.lor_spec.
    replace (Z.shiftl 4 21) with (Z.shiftl 1 23) by reflexivity.
    rewrite testbit_bit by lia.
    destruct (Z.eqb_spec i 23); [done|]. by rewrite orb_false_r.
Qed.

(** ** [ETH_SetMACAddress] *)

Lemma byte_of_word (k : Z) (b0 b1 b2 b3 hi : Z) :
  0 <= b0 < 256 → 0 <= b1 < 256 → 0 <= b2 < 256 → 0 <= b3 < 256 →
  0 <= k < 4 →
  bitfield 8 k
    (u32 (Z.lor (Z.lor (Z.lor (Z.lor b0 (Z.shiftl b1 8)) (Z.shiftl b2 16))
                       (Z.shiftl b3 24))
                (Z.shiftl hi 32)))
  = if k =? 0 then b0 else if k =? 1 then b1 else if k =? 2 then b2 else b3.
Proof.
  intros H0 H1 H2 H3 Hk. apply Z.bits_inj'. intros j Hj.
  rewrite testbit_bitfield, testbit_u32, !Z.lor_spec, !Z.shiftl_spec by lia.
  change 256 with (2 ^ 8) in *.
  destruct (Z.ltb_spec j 8) as [Hlt|Hge].
  - destruct (Z.ltb_spec (8 * k + j) 32); [|lia].
    rewrite (Z.testbit_neg_r hi) by lia.
    assert (k = 0 ∨ k = 1 ∨ k = 2 ∨ k = 3) as [->|[->|[->| ->]]] by lia;
      simpl (_ =? _); cbv iota.
    + rewrite (testbit_small b1 8), (testbit_small b2 8), (testbit_small b3 8)
        by (done || lia).
      replace (8 * 0 + j) with j by lia.
      simpl. by rewrite ?orb_false_r.
    + rewrite (testbit_small b0 8), (testbit_small b2 8), (testbit_small b3 8)
        by (done || lia).
      replace (8 * 1 + j - 8) with j by lia.
      simpl. by rewrite ?orb_false_r.
    + rewrite (testbit_small b0 8), (testbit_small b1 8), (testbit_small b3 8)
        by (done || lia).
      replace (8 * 2 + j - 16) with j by lia.
      simpl. by rewrite ?orb_false_r.
    + rewrite (testbit_small b0 8), (testbit_small b1 8), (testbit_small b2 8)
        by (done || lia).
      replace (8 * 3 + j - 24) with j by lia.
      simpl. by rewrite ?orb_false_r.
  - simpl. symmetry.
    repeat case_match; apply (testbit_small _ 8); (done || lia).
Qed.

(** X17. With six bytes to read the call is defined, and the address can be read
    back from the two registers byte by byte, the first byte of the address
    in the low byte of [MACA0LR] and the last in the second byte of
    [MACA0HR].  The address enable bit 31 of [MACA0HR] is set, bits 16 to 30
    are clear, and [MACCR] is not touched. *)
Theorem ETH_SetMACAddress_round_trip (addr : list Z) (mac : ETH_MAC_TypeDef) :
  (6 <= length addr)%nat →
  Forall (λ b : Z, 0 <= b < 256) addr →
  ∃ mac' : ETH_MAC_TypeDef,
    ETH_SetMACAddress addr mac = Some mac' ∧
    station_address mac' = take 6 addr ∧
    Z.shiftr (MACA0HR mac') 16 = Z.shiftl 1 15 ∧
    MACCR mac' = MACCR mac.
Proof.
  intros Hlen Hbytes.
  destruct addr as [|a0 [|a1 [|a2 [|a3 [|a4 [|a5 rest]]]]]];
    simpl in Hlen; try lia.
  repeat match goal with
         | H : Forall _ (_ :: _) |- _ => apply Forall_cons in H as [? H]
         end.
  eexists. split; [reflexivity|].
  unfold station_address. cbn [MACA0LR MACA0HR MACCR take].
  pose proof (byte_of_word 0 a0 a1 a2 a3 0) as L0.
  pose proof (byte_of_word 1 a0 a1 a2 a3 0) as L1.
  pose proof (byte_of_word 2 a0 a1 a2 a3 0) as L2.
  pose proof (byte_of_word 3 a0 a1 a2 a3 0) as L3.
  pose proof (byte_of_word 0 a4 a5 0 128 0) as M4.
  pose proof (byte_of_word 1 a4 a5 0 128 0) as M5.
  rewrite Z.shiftl_0_l, Z.lor_0_r in L0, L1, L2, L3, M4, M5.
  rewrite Z.lor_0_r in M4, M5.
  assert (Hhr : Z.lor (Z.lor (Z.shiftl 1 31) (Z.shiftl a5 8)) a4
                = Z.lor (Z.lor a4 (Z.shiftl a5 8)) (Z.shiftl 128 24)).
  { change (Z.shiftl 128 24) with (Z.shiftl 1 31).
    apply Z.bits_inj'. intros j _. rewrite !Z.lor_spec.
    by destruct (Z.testbit (Z.shiftl 1 31) j), (Z.testbit (Z.shiftl a5 8) j),
      (Z.testbit a4 j). }
  rewrite Hhr.
  rewrite L0, L1, L2, L3, M4, M5 by lia.
  split; [reflexivity|]. split; [|reflexivity].
  apply Z.bits_inj'. intros j Hj.
  rewrite (testbit_bit 15 j) by lia.
  rewrite Z.shiftr_spec, testbit_u32, !Z.lor_spec, !Z.shiftl_spec by lia.
  change 256 with (2 ^ 8) in *.
  rewrite (testbit_small a4 8), (testbit_small a5 8) by (done || lia).
  rewrite orb_false_l.
  replace (j + 16 - 24) with (j - 8) by lia.
  change 128 with (Z.shiftl 1 7).
  rewrite testbit_bit by lia.
  destruct (Z.ltb_spec (j + 16) 32), (Z.eqb_spec (j - 8) 7),
    (Z.eqb_spec j 15); simpl; (done || lia).
Qed.

Lemma ETH_SetMACAddress_round_trip_witness :
  (6 <= length MyMACAddress)%nat ∧
  Forall (λ b : Z, 0 <= b < 256) MyMACAddress ∧
  ∃ mac' : ETH_MAC_TypeDef,
    ETH_SetMACAddress MyMACAddress (mkMAC 0 0 0) = Some mac' ∧
    station_address mac' = MyMACAddress.
Proof.
  assert (H1 : (6 <= length MyMACAddress)%nat) by (simpl; lia).
  assert (H2 : Forall (λ b : Z, 0 <= b < 256) MyMACAddress).
  { unfold MyMACAddress. repeat constructor; lia. }
  do 2 (split; [assumption|]).
  destruct (ETH_SetMACAddress_round_trip MyMACAddress (mkMAC 0 0 0) H1 H2)
    as (mac' & Hc & Ha & _).
  exists mac'. split; [exact Hc|]. exact Ha.
Defined.

(** X18. The call is undefined exactly when fewer than six bytes can be read. *)
Theorem ETH_SetMACAddress_undefined_iff (addr : list Z) (mac : ETH_MAC_TypeDef) :
  ETH_SetMACAddress addr mac = None ↔ (length addr < 6)%nat.
Proof.
  destruct addr as [|a0 [|a1 [|a2 [|a3 [|a4 [|a5 rest]]]]]]; simpl;
    (split; [intros; (done || lia)|intros; (done || lia)]).
Qed.

(** ** [ETH_StartMAC] *)

(** X19. [MACCR] and the two MTL registers are assigned, so whatever they held
    is gone: after the call [MACCR] has the four bits FES, DM, TE and RE and
    no other.  [DMACTCR] and [DMACRCR] are or-ed: they gain their start bit 0
    and keep every other bit.  The station address, the descriptors, the
    buffers, the two indices and the other DMA registers are untouched, and
    a second call changes nothing. *)
Theorem ETH_StartMAC_effect (e : eth_block) :
  let e' := ETH_StartMAC e in
  (∀ i : Z, Z.testbit (MACCR (ETH_MAC e')) i
            = (i =? 0) || (i =? 1) || (i =? 13) || (i =? 14)) ∧
  (∀ i : Z, Z.testbit (DMACTCR e') i = Z.testbit (DMACTCR e) i || (i =? 0)) ∧
  (∀ i : Z, Z.testbit (DMACRCR (ETH_DMA (globals e'))) i
            = Z.testbit (DMACRCR (ETH_DMA (globals e))) i || (i =? 0)) ∧
  station_address (ETH_MAC e') = station_address (ETH_MAC e) ∧
  set_DMACRCR 0 (ETH_DMA (globals e')) = set_DMACRCR 0 (ETH_DMA (globals e)) ∧
  (RxDescriptors (globals e'), TxDescriptors (globals e'),
   RxBuffer (globals e'), TxBuffer (globals e'),
   TxDescIdx (globals e'), RxDescIdx (globals e'))
  = (RxDescriptors (globals e), TxDescriptors (globals e),
     RxBuffer (globals e), TxBuffer (globals e),
     TxDescIdx (globals e), RxDescIdx (globals e)) ∧
  ETH_StartMAC e' = e'.
Proof.
  cbv zeta. split; [|split; [|split; [|split; [|split; [|split]]]]].
  - intros i. cbn [ETH_StartMAC ETH_MAC MACCR].
    unfold ETH_MACCR_FES, ETH_MACCR_DM, ETH_MACCR_TE, ETH_MACCR_RE.
    rewrite !Z.lor_spec, !testbit_bit by lia.
    destruct (i =? 0), (i =? 1), (i =? 13), (i =? 14); done.
  - intros i. cbn [ETH_StartMAC DMACTCR]. unfold ETH_DMACTCR_ST.
    by rewrite Z.lor_spec, testbit_bit by lia.
  - intros i. cbn [ETH_StartMAC globals ETH_DMA set_DMACRCR DMACRCR].
    unfold ETH_DMACRCR_SR. by rewrite Z.lor_spec, testbit_bit by lia.
  - reflexivity.
  - reflexivity.
  - reflexivity.
  - unfold ETH_StartMAC.
    cbn [ETH_MAC ETH_MTL DMACTCR globals ETH_DMA set_DMACRCR DMACRCR DMACTDLAR
         DMACRDLAR DMACTDTPR DMACRDTPR DMACTDRLR DMACRDRLR MACA0HR MACA0LR
         RxDescriptors TxDescriptors RxBuffer TxBuffer TxDescIdx RxDescIdx].
    rewrite <- (Z.lor_assoc _ ETH_DMACTCR_ST ETH_DMACTCR_ST).
    rewrite <- (Z.lor_assoc _ ETH_DMACRCR_SR ETH_DMACRCR_SR).
    by rewrite !Z.lor_diag.
Qed.

(** X20. The order of the two calls in [main] matters.  [ETH_InitDescriptors]
    assigns [DMACRCR]: called before [ETH_StartMAC] it leaves the receive
    DMA started with a buffer size of 1536; called after it, it clears the
    start bit again.  In both orders the transmit DMA is started. *)
Theorem ETH_StartMAC_after_InitDescriptors (lay : layout) (e : eth_block) :
  let good := ETH_StartMAC (on_globals (ETH_InitDescriptors lay) e) in
  let bad := on_globals (ETH_InitDescriptors lay) (ETH_StartMAC e) in
  bits_set (DMACRCR (ETH_DMA (globals good))) ETH_DMACRCR_SR = true ∧
  RBSZ (ETH_DMA (globals good)) = ETH_RX_BUF_SIZE ∧
  bits_set (DMACRCR (ETH_DMA (globals bad))) ETH_DMACRCR_SR = false ∧
  RBSZ (ETH_DMA (globals bad)) = ETH_RX_BUF_SIZE ∧
  bits_set (DMACTCR good) ETH_DMACTCR_ST = true ∧
  bits_set (DMACTCR bad) ETH_DMACTCR_ST = true ∧
  set_DMACRCR 0 (ETH_DMA (globals good)) = set_DMACRCR 0 (ETH_DMA (globals bad)).
Proof.
  cbv zeta.
  assert (Hst : ∀ x, bits_set (Z.lor x ETH_DMACTCR_ST) ETH_DMACTCR_ST = true).
  { intros x. unfold ETH_DMACTCR_ST.
    rewrite bits_set_bit, Z.lor_spec, testbit_bit by lia.
    by rewrite orb_true_r. }
  repeat split; try reflexivity; apply Hst.
Qed.

(** * The busy-waits on hardware flags *)

(** ** The command word *)

Lemma testbit_shiftl (x n i : Z) :
  0 <= n → Z.testbit (Z.shiftl x n) i = Z.testbit x (i - n).
Proof.
  intros Hn. destruct (Z.le_gt_cases 0 i) as [Hi|Hi].
  - by rewrite Z.shiftl_spec by done.
  - by rewrite !Z.testbit_neg_r by lia.
Qed.

Lemma mdio_command_wraps (phy_addr reg_addr goc : Z) :
  MMIO.mdio_command (phy_addr + 32) reg_addr goc
  = MMIO.mdio_command phy_addr reg_addr goc ∧
  MMIO.mdio_command phy_addr (reg_addr + 32) goc
  = MMIO.mdio_command phy_addr reg_addr goc.
Proof.
  assert (Hw : ∀ x, Z.land (x + 32) 31 = Z.land x 31).
  { intros x. change 31 with (Z.ones 5). rewrite !Z.land_ones by lia.
    change 32 with (1 * 2 ^ 5) at 1. by rewrite Z.mod_add by lia. }
  unfold MMIO.mdio_command. by rewrite !Hw.
Qed.

(** X21. The fields of the word that starts an MDIO transaction, for any
    arguments: the PHY and register addresses are cut to five bits, the
    clock range field is 4, and the low byte has the operation with the
    busy bit set and the clause 45 bit clear.  No bit above the PHY address
    field is set. *)
Theorem mdio_command_fields (phy_addr reg_addr : Z) :
  let rd := MMIO.mdio_command phy_addr reg_addr ETH_MACMDIOAR_GOC_READ in
  let wr := MMIO.mdio_command phy_addr reg_addr ETH_MACMDIOAR_GOC_WRITE in
  Z.land (Z.shiftr rd 21) (Z.ones 11) = phy_addr mod 32 ∧
  Z.land (Z.shiftr wr 21) (Z.ones 11) = phy_addr mod 32 ∧
  Z.land (Z.shiftr rd 16) (Z.ones 5) = reg_addr mod 32 ∧
  Z.land (Z.shiftr wr 16) (Z.ones 5) = reg_addr mod 32 ∧
  Z.land (Z.shiftr rd 8) (Z.ones 8) = 4 ∧
  Z.land (Z.shiftr wr 8) (Z.ones 8) = 4 ∧
  Z.land rd (Z.ones 8) = 13 ∧
  Z.land wr (Z.ones 8) = 5.
Proof.
  cbv zeta.
  assert (Hp : 0 <= Z.land phy_addr 31 < 2 ^ 5).
  { change 31 with (Z.ones 5). rewrite Z.land_ones by lia.
    apply Z.mod_pos_bound. lia. }
  assert (Hr : 0 <= Z.land reg_addr 31 < 2 ^ 5).
  { change 31 with (Z.ones 5). rewrite Z.land_ones by lia.
    apply Z.mod_pos_bound. lia. }
  assert (Hpm : phy_addr mod 32 = Z.land phy_addr 31).
  { change 31 with (Z.ones 5). by rewrite Z.land_ones by lia. }
  assert (Hrm : reg_addr mod 32 = Z.land reg_addr 31).
  { change 31 with (Z.ones 5). by rewrite Z.land_ones by lia. }
  rewrite Hpm, Hrm. unfold MMIO.mdio_command.
  generalize dependent (Z.land phy_addr 31). intros p Hp _.
  generalize dependent (Z.land reg_addr 31). intros r Hr _.
  unfold ETH_MACMDIOAR_GOC_READ, ETH_MACMDIOAR_GOC_WRITE,
    ETH_MACMDIOAR_CR_DIV102, ETH_MACMDIOAR_MB.
  assert (Hbits : ∀ goc : Z, 0 <= goc < 2 ^ 2 →
    let w := Z.lor (Z.lor (Z.lor (Z.lor (Z.shiftl p 21) (Z.shiftl r 16))
                                 (Z.shiftl 4 8)) (Z.shiftl goc 2))
                   (Z.shiftl 1 0) in
    Z.land (Z.shiftr w 21) (Z.ones 11) = p ∧
    Z.land (Z.shiftr w 16) (Z.ones 5) = r ∧
    Z.land (Z.shiftr w 8) (Z.ones 8) = 4 ∧
    Z.land w (Z.ones 8) = Z.lor (Z.shiftl goc 2) 1).
  { intros goc Hg. cbv zeta.
    repeat split; apply Z.bits_inj'; intros j Hj;
      rewrite ?Z.lor_spec, Z.land_spec, ?Z.shiftr_spec, !Z.lor_spec,
        !testbit_shiftl, Z.testbit_ones_nonneg by lia.
    - destruct (Z.ltb_spec j 11).
      + rewrite (testbit_small r 5), (testbit_small 4 3), (testbit_small goc 2),
          (testbit_small 1 1) by lia.
        replace (j + 21 - 21) with j by lia.
        by rewrite !orb_false_r, andb_true_r.
      + rewrite andb_false_r. symmetry. apply (testbit_small p 5); lia.
    - destruct (Z.ltb_spec j 5).
      + rewrite (testbit_small p 5), (testbit_small 4 3), (testbit_small goc 2),
          (testbit_small 1 1) by lia.
        replace (j + 16 - 16) with j by lia.
        by rewrite !orb_false_r, andb_true_r.
      + rewrite andb_false_r. symmetry. apply (testbit_small r 5); lia.
    - destruct (Z.ltb_spec j 8).
      + rewrite (testbit_small p 5), (testbit_small r 5), (testbit_small goc 2),
          (testbit_small 1 1) by lia.
        replace (j + 8 - 8) with j by lia.
        by rewrite !orb_false_r, andb_true_r.
      + rewrite andb_false_r. symmetry. apply (testbit_small 4 3); lia.
    - destruct (Z.ltb_spec j 8).
      + rewrite (testbit_small p 5), (testbit_small r 5), (testbit_small 4 3)
          by lia.
        replace (j - 0) with j by lia.
        by rewrite andb_true_r.
      + rewrite andb_false_r. symmetry.
        rewrite (testbit_small goc 2), (testbit_small 1 1) by lia. done. }
  destruct (Hbits 3 ltac:(lia)) as (R1 & R2 & R3 & R4).
  destruct (Hbits 1 ltac:(lia)) as (W1 & W2 & W3 & W4).
  cbv zeta in *.
  repeat split; assumption.
Qed.

(** ** The loops *)

Section MMIO_properties.
Context {hw : Type} `{Hardware hw}.

Lemma busy_for_S (r : hw_reg) (mask : Z) (n : nat) (h : hw) :
  MMIO.busy_for r mask (S n) h
  ↔ bits_set (load r h).1 mask = true ∧ MMIO.busy_for r mask n (load r h).2.
Proof.
  unfold MMIO.busy_for. split.
  - intros Hb. split.
    + apply (Hb 0%nat). lia.
    + intros i Hi. apply (Hb (S i)). lia.
  - intros [H0 Hb] [|i] Hi; [exact H0|]. apply Hb. lia.
Qed.

(** A wait either uses its fuel up on reads that show the flag set, or
    ends at the first read that shows it clear. *)
Lemma wait_clear_outcome (r : hw_reg) (mask : Z) (fuel : nat) :
  ∀ h : hw,
    (MMIO.busy_for r mask fuel h ∧ MMIO.wait_clear r mask fuel h = None) ∨
    (∃ k : nat, (k < fuel)%nat ∧ MMIO.clears_at r mask k h ∧
                MMIO.wait_clear r mask fuel h
                = Some (MMIO.after_loads r (S k) h)).
Proof.
  induction fuel as [|fuel IH]; intros h.
  - left. split; [|reflexivity]. intros i Hi. lia.
  - cbn [MMIO.wait_clear].
    pose proof (busy_for_S r mask) as HS.
    destruct (load r h) as [v h'] eqn:Hl.
    destruct (bits_set v mask) eqn:Hv.
    + destruct (IH h') as [[Hb Hn]|(k & Hk & [Hb Hc] & Hs)].
      * left. split; [|exact Hn]. apply HS. rewrite Hl. by split.
      * right. exists (S k). split; [lia|]. split.
        -- split.
           ++ apply HS. rewrite Hl. by split.
           ++ unfold MMIO.nth_load in *. cbn [MMIO.after_loads].
              by rewrite Hl.
        -- rewrite Hs. cbn [MMIO.after_loads]. by rewrite Hl.
    + right. exists 0%nat. split; [lia|]. split.
      * split; [intros i Hi; lia|].
        unfold MMIO.nth_load. cbn [MMIO.after_loads]. by rewrite Hl.
      * cbn [MMIO.after_loads]. by rewrite Hl.
Qed.

Lemma clears_at_not_busy (r : hw_reg) (mask : Z) (k n : nat) (h : hw) :
  MMIO.clears_at r mask k h → (k < n)%nat → ¬ MMIO.busy_for r mask n h.
Proof.
  intros [_ Hc] Hk Hb. specialize (Hb k Hk). congruence.
Qed.

Lemma clears_at_unique (r : hw_reg) (mask : Z) (k k' : nat) (h : hw) :
  MMIO.clears_at r mask k h → MMIO.clears_at r mask k' h → k = k'.
Proof.
  intros [Hb Hc] [Hb' Hc'].
  destruct (lt_eq_lt_dec k k') as [[Hlt|Heq]|Hgt]; [|done|].
  - specialize (Hb' k Hlt). congruence.
  - specialize (Hb k' Hgt). congruence.
Qed.

(** X22. [ETH_DMAReset] reads [DMAMR], writes it back with the reset bit set,
    and then polls: the call returns at the first read that shows the bit
    clear, and is still in its loop as long as every read shows it set. *)
Theorem ETH_DMAReset_outcome (fuel : nat) (h : hw) :
  bits_set (Z.lor (load DMAMR h).1 ETH_DMAMR_SWR) ETH_DMAMR_SWR = true ∧
  ((MMIO.busy_for DMAMR ETH_DMAMR_SWR fuel (MMIO.dma_reset_started h) ∧
    MMIO.ETH_DMAReset fuel h = None) ∨
   (∃ k : nat, (k < fuel)%nat ∧
      MMIO.clears_at DMAMR ETH_DMAMR_SWR k (MMIO.dma_reset_started h) ∧
      MMIO.ETH_DMAReset fuel h
      = Some (MMIO.after_loads DMAMR (S k) (MMIO.dma_reset_started h)))).
Proof.
  split.
  - unfold ETH_DMAMR_SWR. rewrite bits_set_bit, Z.lor_spec by lia.
    change (Z.testbit (Z.shiftl 1 0) 0) with true. by rewrite orb_true_r.
  - unfold MMIO.ETH_DMAReset, MMIO.dma_reset_started.
    destruct (load DMAMR h) as [v h'] eqn:Hl. cbn [fst snd].
    apply wait_clear_outcome.
Qed.

(** X23. [ETH_ReadPHY] in full: it is still in its first loop, or in its second
    loop after the command was written, or it returns after the second
    loop has seen the busy bit clear.  The value returned is the low half
    of what [MACMDIODR] then reads as, and lies below 65536. *)
Theorem ETH_ReadPHY_outcome (fuel : nat) (phy_addr reg_addr : Z) (h : hw) :
  (MMIO.busy_for MACMDIOAR ETH_MACMDIOAR_MB fuel h ∧
   MMIO.ETH_ReadPHY fuel phy_addr reg_addr h = None) ∨
  (∃ k : nat, (k < fuel)%nat ∧
     MMIO.clears_at MACMDIOAR ETH_MACMDIOAR_MB k h ∧
     MMIO.busy_for MACMDIOAR ETH_MACMDIOAR_MB fuel
       (MMIO.mdio_read_started k phy_addr reg_addr h) ∧
     MMIO.ETH_ReadPHY fuel phy_addr reg_addr h = None) ∨
  (∃ (k k' : nat) (v : Z) (h' : hw), (k < fuel)%nat ∧ (k' < fuel)%nat ∧
     MMIO.clears_at MACMDIOAR ETH_MACMDIOAR_MB k h ∧
     MMIO.clears_at MACMDIOAR ETH_MACMDIOAR_MB k'
       (MMIO.mdio_read_started k phy_addr reg_addr h) ∧
     load MACMDIODR
       (MMIO.after_loads MACMDIOAR (S k')
          (MMIO.mdio_read_started k phy_addr reg_addr h)) = (v, h') ∧
     MMIO.ETH_ReadPHY fuel phy_addr reg_addr h = Some (v mod 2 ^ 16, h') ∧
     0 <= v mod 2 ^ 16 < 2 ^ 16).
Proof.
  unfold MMIO.ETH_ReadPHY.
  destruct (wait_clear_outcome MACMDIOAR ETH_MACMDIOAR_MB fuel h)
    as [[Hb ->]|(k & Hk & Hc & ->)]; [by left|].
  cbn [mbind option_bind]. right.
  fold (MMIO.mdio_idle k h).
  fold (MMIO.mdio_read_started k phy_addr reg_addr h).
  destruct (wait_clear_outcome MACMDIOAR ETH_MACMDIOAR_MB fuel
              (MMIO.mdio_read_started k phy_addr reg_addr h))
    as [[Hb ->]|(k' & Hk' & Hc' & ->)].
  - left. exists k. split; [exact Hk|]. split; [exact Hc|].
    split; [exact Hb|]. reflexivity.
  - right. cbn [mbind option_bind].
    destruct (load MACMDIODR _) as [v h'] eqn:Hl.
    exists k, k', v, h'.
    assert (Hv : u16 (Z.land v 65535) = v mod 2 ^ 16).
    { unfold u16. change 65535 with (Z.ones 16).
      rewrite Z.land_ones by lia. by rewrite Z.mod_mod by lia. }
    rewrite Hv.
    split; [done|]. split; [done|]. split; [done|]. split; [done|].
    split; [exact Hl|]. split; [reflexivity|].
    apply Z.mod_pos_bound. lia.
Qed.

(** X24. [ETH_WritePHY] in full: the value goes to [MACMDIODR] before the
    command goes to [MACMDIOAR], both after the first loop has seen the
    busy bit clear; the call returns when the second loop sees it clear
    again. *)
Theorem ETH_WritePHY_outcome (fuel : nat) (phy_addr reg_addr value : Z) (h : hw) :
  (MMIO.busy_for MACMDIOAR ETH_MACMDIOAR_MB fuel h ∧
   MMIO.ETH_WritePHY fuel phy_addr reg_addr value h = None) ∨
  (∃ k : nat, (k < fuel)%nat ∧
     MMIO.clears_at MACMDIOAR ETH_MACMDIOAR_MB k h ∧
     MMIO.busy_for MACMDIOAR ETH_MACMDIOAR_MB fuel
       (MMIO.mdio_write_started k phy_addr reg_addr value h) ∧
     MMIO.ETH_WritePHY fuel phy_addr reg_addr value h = None) ∨
  (∃ k k' : nat, (k < fuel)%nat ∧ (k' < fuel)%nat ∧
     MMIO.clears_at MACMDIOAR ETH_MACMDIOAR_MB k h ∧
     MMIO.clears_at MACMDIOAR ETH_MACMDIOAR_MB k'
       (MMIO.mdio_write_started k phy_addr reg_addr value h) ∧
     MMIO.ETH_WritePHY fuel phy_addr reg_addr value h
     = Some (MMIO.after_loads MACMDIOAR (S k')
               (MMIO.mdio_write_started k phy_addr reg_addr value h))).
Proof.
  unfold MMIO.ETH_WritePHY.
  destruct (wait_clear_outcome MACMDIOAR ETH_MACMDIOAR_MB fuel h)
    as [[Hb ->]|(k & Hk & Hc & ->)]; [by left|].
  cbn [mbind option_bind]. right.
  fold (MMIO.mdio_idle k h).
  fold (MMIO.mdio_write_started k phy_addr reg_addr value h).
  destruct (wait_clear_outcome MACMDIOAR ETH_MACMDIOAR_MB fuel
              (MMIO.mdio_write_started k phy_addr reg_addr value h))
    as [[Hb ->]|(k' & Hk' & Hc' & ->)].
  - left. exists k. split; [exact Hk|]. split; [exact Hc|].
    split; [exact Hb|]. reflexivity.
  - right. exists k, k'. split; [exact Hk|]. split; [exact Hk'|].
    split; [exact Hc|]. split; [exact Hc'|]. reflexivity.
Qed.

(** X25. None of the three functions has a time-out: against a hardware whose
    flag reads as set for ever, the call is still in its loop however many
    iterations are followed. *)
Theorem busy_waits_never_give_up (phy_addr reg_addr value : Z) (h : hw) :
  (∀ n, MMIO.busy_for DMAMR ETH_DMAMR_SWR n (MMIO.dma_reset_started h)) →
  (∀ n, MMIO.busy_for MACMDIOAR ETH_MACMDIOAR_MB n h) →
  ∀ fuel : nat,
    MMIO.ETH_DMAReset fuel h = None ∧
    MMIO.ETH_ReadPHY fuel phy_addr reg_addr h = None ∧
    MMIO.ETH_WritePHY fuel phy_addr reg_addr value h = None.
Proof.
  intros Hd Hm fuel.
  assert (Hw : ∀ r mask (h0 : hw),
             MMIO.busy_for r mask fuel h0 → MMIO.wait_clear r mask fuel h0 = None).
  { intros r mask h0 Hb.
    destruct (wait_clear_outcome r mask fuel h0) as [[_ Hn]|(k & Hk & Hc & _)];
      [exact Hn|].
    by destruct (clears_at_not_busy _ _ _ _ _ Hc Hk). }
  split; [|split].
  - specialize (Hd fuel). unfold MMIO.ETH_DMAReset, MMIO.dma_reset_started in *.
    destruct (load DMAMR h) as [v h']. by apply Hw.
  - unfold MMIO.ETH_ReadPHY. by rewrite (Hw _ _ h (Hm fuel)).
  - unfold MMIO.ETH_WritePHY. by rewrite (Hw _ _ h (Hm fuel)).
Qed.

(** X26. The two address arguments are used modulo 32. *)
Theorem mdio_address_wraps (fuel : nat) (phy_addr reg_addr value : Z) (h : hw) :
  MMIO.ETH_ReadPHY fuel (phy_addr + 32) reg_addr h
  = MMIO.ETH_ReadPHY fuel phy_addr reg_addr h ∧
  MMIO.ETH_ReadPHY fuel phy_addr (reg_addr + 32) h
  = MMIO.ETH_ReadPHY fuel phy_addr reg_addr h ∧
  MMIO.ETH_WritePHY fuel (phy_addr + 32) reg_addr value h
  = MMIO.ETH_WritePHY fuel phy_addr reg_addr value h ∧
  MMIO.ETH_WritePHY fuel phy_addr (reg_addr + 32) value h
  = MMIO.ETH_WritePHY fuel phy_addr reg_addr value h.
Proof.
  unfold MMIO.ETH_ReadPHY, MMIO.ETH_WritePHY.
  by rewrite !(proj1 (mdio_command_wraps _ _ _)),
    !(proj2 (mdio_command_wraps _ _ _)).
Qed.

(** [ETH_InitPHY] on the registers: with the MDIO busy flag reading as set
    for ever its first transaction does not return, and the time-out
    counters of the two polls are never reached. *)
Lemma ETH_InitPHY_stuck_mdio (fuel fuel' : nat) (h : hw) :
  (∀ n, MMIO.busy_for MACMDIOAR ETH_MACMDIOAR_MB n h) →
  @ETH_InitPHY hw (register_mdio fuel') fuel h = None.
Proof.
  intros Hm. unfold ETH_InitPHY.
  assert (Hw : @ETH_WritePHY hw (register_mdio fuel') PHY_ADDR PHY_BCR
                 PHY_BCR_RESET h = None).
  { cbn [ETH_WritePHY register_mdio]. unfold MMIO.ETH_WritePHY.
    destruct (wait_clear_outcome MACMDIOAR ETH_MACMDIOAR_MB fuel' h)
      as [[_ ->]|(k & Hk & Hc & _)]; [reflexivity|].
    by destruct (clears_at_not_busy _ _ _ _ _ Hc Hk). }
  by rewrite Hw.
Qed.

End MMIO_properties.

Lemma dead_hardware_busy (r : hw_reg) (mask : Z) (n : nat) :
  bits_set 1 mask = true →
  MMIO.busy_for (H := dead_hardware) r mask n ().
Proof.
  intros Hm i _. unfold MMIO.nth_load.
  assert (Hu : MMIO.after_loads (H := dead_hardware) r i () = ()).
  { induction i as [|i IH]; [reflexivity|exact IH]. }
  rewrite Hu. exact Hm.
Qed.

Lemma busy_waits_never_give_up_witness :
  (∀ n, MMIO.busy_for (H := dead_hardware) DMAMR ETH_DMAMR_SWR n
          (MMIO.dma_reset_started (H := dead_hardware) ())) ∧
  (∀ n, MMIO.busy_for (H := dead_hardware) MACMDIOAR ETH_MACMDIOAR_MB n ()) ∧
  MMIO.ETH_DMAReset (H := dead_hardware) 1000 () = None ∧
  MMIO.ETH_ReadPHY (H := dead_hardware) 1000 PHY_ADDR PHY_BSR () = None ∧
  MMIO.ETH_WritePHY (H := dead_hardware) 1000 PHY_ADDR PHY_BCR PHY_BCR_RESET ()
  = None.
Proof.
  assert (H1 : ∀ n, MMIO.busy_for (H := dead_hardware) DMAMR ETH_DMAMR_SWR n
                      (MMIO.dma_reset_started (H := dead_hardware) ())).
  { intros n. by apply dead_hardware_busy. }
  assert (H2 : ∀ n, MMIO.busy_for (H := dead_hardware) MACMDIOAR
                      ETH_MACMDIOAR_MB n ()).
  { intros n. by apply dead_hardware_busy. }
  do 2 (split; [assumption|]).
  exact (busy_waits_never_give_up (H := dead_hardware) PHY_ADDR PHY_BSR
           PHY_BCR_RESET () H1 H2 1000%nat).
Defined.

(** The three functions against a hardware that clears its flag after two
    reads. *)
Example slow_unit_transactions :
  MMIO.ETH_DMAReset (H := slow_hardware) 3 (mkSlow 2 0 0) = Some (mkSlow 2 0 0) ∧
  MMIO.ETH_DMAReset (H := slow_hardware) 2 (mkSlow 2 0 0) = None ∧
  MMIO.ETH_ReadPHY (H := slow_hardware) 3 PHY_ADDR PHY_PHYID1 (mkSlow 2 1 0x10007)
  = Some (0x0007, mkSlow 2 0 0x10007) ∧
  MMIO.ETH_WritePHY (H := slow_hardware) 3 PHY_ADDR PHY_BCR PHY_BCR_AUTONEG
                    (mkSlow 2 1 0)
  = Some (mkSlow 2 0 PHY_BCR_AUTONEG).
Proof. by repeat split. Qed.

(** ** [delay] *)

(** X27. [delay] tests its counter [count + 1] times and leaves it at
    [0xFFFFFFFF], the wrapped result of the last decrement: with fewer
    iterations followed it is still looping. *)
Theorem delay_iterations (fuel : nat) :
  ∀ count : Z, 0 <= count < 2 ^ 32 →
    delay fuel count
    = if count <? Z.of_nat fuel then Some 0xFFFFFFFF else None.
Proof.
  induction fuel as [|fuel IH]; intros count Hc.
  - cbn [delay]. destruct (Z.ltb_spec count (Z.of_nat 0)); [lia|done].
  - cbn [delay]. destruct (Z.eqb_spec count 0) as [->|Hne].
    + destruct (Z.ltb_spec 0 (Z.of_nat (S fuel))); [done|lia].
    + rewrite u32_small by lia. rewrite IH by lia.
      destruct (Z.ltb_spec (count - 1) (Z.of_nat fuel)),
        (Z.ltb_spec count (Z.of_nat (S fuel))); (done || lia).
Qed.

Lemma delay_iterations_witness :
  0 <= 3 < 2 ^ 32 ∧ delay 4 3 = Some 0xFFFFFFFF ∧ delay 3 3 = None.
Proof.
  assert (H3 : 0 <= 3 < 2 ^ 32) by lia.
  split; [exact H3|]. split.
  - exact (delay_iterations 4 3 H3).
  - exact (delay_iterations 3 3 H3).
Defined.
